(** * The enumeration framework of [main.py]

A shallow embedding of [EnumerationFramework] and [main] (src/main.py):
configuration loading, test discovery, test execution, the summary and
the persisted report, followed by the properties proved about them. *)

From Stdlib Require Import List String Ascii ZArith Lia Bool Arith.
From Stdlib Require Import DecimalString.
Import ListNotations.

Local Open Scope string_scope.
Local Open Scope list_scope.
Set Warnings "-register-all".

(** ** Python values *)

(** Keys a Python dict may carry.  [json.dump] accepts the first four kinds;
    [KOther ty] stands for a hashable key of another type (a tuple, bytes,
    a frozenset). *)
Inductive pykey : Type :=
| KNone
| KBool (b : bool)
| KInt (z : Z)
| KStr (s : string)
| KOther (type_name : string).

(** The values that travel through the framework: the values of the
    configuration, the [parameters] handed to a check and the value its
    [run] returns.  [PObject ty] stands for any object of a type [json] has
    no encoding for (a set, bytes, ...). *)
Inductive pyvalue : Type :=
| PNone
| PBool (b : bool)
| PInt (z : Z)
| PStr (s : string)
| PList (l : list pyvalue)
| PTuple (l : list pyvalue)
| PDict (d : list (pykey * pyvalue))
| PObject (type_name : string).

(** [type(v).__name__] *)
Definition type_name (v : pyvalue) : string :=
  match v with
  | PNone => "NoneType"
  | PBool _ => "bool"
  | PInt _ => "int"
  | PStr _ => "str"
  | PList _ => "list"
  | PTuple _ => "tuple"
  | PDict _ => "dict"
  | PObject ty => ty
  end.

(** A Python dict with string keys: insertion ordered, an assignment to a
    key already present replaces the value and keeps the key's position. *)
Definition dict (V : Type) : Type := list (string * V).

Section Dict.

Context {V : Type}.

Fixpoint dict_get (k : string) (d : dict V) : option V :=
  match d with
  | [] => None
  | (k', v) :: d' => if String.eqb k k' then Some v else dict_get k d'
  end.

(** [d[k] = v] *)
Fixpoint dict_set (k : string) (v : V) (d : dict V) : dict V :=
  match d with
  | [] => [(k, v)]
  | (k', v') :: d' =>
      if String.eqb k k' then (k', v) :: d' else (k', v') :: dict_set k v d'
  end.

Definition keys (d : dict V) : list string := map fst d.
Definition values (d : dict V) : list V := map snd d.

End Dict.

(** ** Strings the framework builds *)

Definition nl : string := String (ascii_of_nat 10) EmptyString.

Fixpoint str_repeat (s : string) (n : nat) : string :=
  match n with
  | O => EmptyString
  | S n' => (s ++ str_repeat s n')%string
  end.

(** [f"{'='*60}"] *)
Definition rule : string := str_repeat "=" 60.

(** [str(n)] for a length or a count. *)
Definition str_of_nat (n : nat) : string :=
  NilEmpty.string_of_uint (Nat.to_uint n).

(** [str(z)] for an int. *)
Definition str_of_Z (z : Z) : string :=
  NilEmpty.string_of_int (Z.to_int z).

Fixpoint ends_with_sep (s : string) : bool :=
  match s with
  | EmptyString => false
  | String c EmptyString => Ascii.eqb c "/"%char
  | String _ s' => ends_with_sep s'
  end.

(** [os.path.join(a, b)] (posixpath) on two strings: an absolute [b]
    replaces [a]; an empty [a] or one that ends in a separator takes [b] as
    it is. *)
Definition os_path_join (a b : string) : string :=
  if String.prefix "/" b then b
  else if (String.eqb a "" || ends_with_sep a)%bool then (a ++ b)%string
  else (a ++ "/" ++ b)%string.

(** ** Exceptions *)

(** What ends a computation before its end: [sys.exit(code)], a
    [KeyboardInterrupt], or another exception that nobody catches, kept as
    the name of its class and [str(e)]. *)
Inductive exn : Type :=
| SystemExit (code : nat)
| KeyboardInterrupt
| Uncaught (class msg : string).

Inductive res (A : Type) : Type :=
| Val (a : A)
| Err (e : exn).
Arguments Val {A} a.
Arguments Err {A} e.

(** [d[key]] on a dict that may lack the key. *)
Definition getitem {A : Type} (key : string) (field : option A) : res A :=
  match field with
  | Some v => Val v
  | None => Err (Uncaught "KeyError" ("'" ++ key ++ "'"))
  end.

(** [os.path.join(a, b)] on two values of the configuration: [os.fspath]
    refuses an [a] that is not a string, and then a [b] that is not one. *)
Definition fspath_error (v : pyvalue) : exn :=
  Uncaught "TypeError"
    ("expected str, bytes or os.PathLike object, not " ++ type_name v).

Definition join_error (v : pyvalue) : exn :=
  Uncaught "TypeError"
    ("join() argument must be str, bytes, or os.PathLike object, not '"
       ++ type_name v ++ "'").

Definition path_join (a b : pyvalue) : res string :=
  match a with
  | PStr a' =>
      match b with
      | PStr b' => Val (os_path_join a' b')
      | _ => Err (join_error b)
      end
  | _ => Err (fspath_error a)
  end.

(** ** The configuration document *)

(** One entry of [config['tests']]: a dict.  [name] and [file] are read with
    [test_config[...]], which raises [KeyError] on an entry without them;
    [enabled] and [parameters] are read with [.get].  A name, where there
    is one, is a string; [file] may hold any value. *)
Record CheckSpec : Type := {
  name : option string;
  file : option pyvalue;
  enabled : option bool;
  parameters : option pyvalue
}.

(** The document [json.load] returns: a dict, every key of which is read
    with [.get] or guarded by [in], so every key may be absent.
    [tests_directory] may hold any value. *)
Record RunConfiguration : Type := {
  cfg_tests_directory : option pyvalue;
  cfg_tests : option (list CheckSpec);
  cfg_save_results : option bool;
  cfg_output_file : option string
}.

(** [self.config = {}] *)
Definition empty_config : RunConfiguration :=
  {| cfg_tests_directory := None; cfg_tests := None;
     cfg_save_results := None; cfg_output_file := None |}.

(** [d.get(key, default)] *)
Definition get {A : Type} (field : option A) (default : A) : A :=
  match field with
  | Some v => v
  | None => default
  end.

(** ** Check modules *)

(** How a call of a check's [run] ends: it returns a value; it raises an
    exception below [Exception], kept as [str(e)] (a call of the wrong
    arity, or any other failure inside the check, is one); or it raises
    outside [Exception] ([sys.exit], [KeyboardInterrupt], another
    [BaseException]), which [except Exception] lets through. *)
Inductive outcome : Type :=
| Returns (v : pyvalue)
| Raises (msg : string)
| Escapes (e : exn).

(** The module attribute [run], when there is one: a function, or some other
    object, kept as the name of its type. *)
Inductive attribute : Type :=
| Function (f : pyvalue -> outcome)
| Object (type_name : string).

(** A loaded module: its [__name__], when that is a string, and its
    attribute [run]. *)
Record pymodule : Type := {
  mod_name : option string;
  attr_run : option attribute
}.

(** [hasattr(module, 'run')] *)
Definition hasattr_run (m : pymodule) : bool :=
  match attr_run m with
  | Some _ => true
  | None => false
  end.

(** [module.run(params)] *)
Definition call_run (m : pymodule) (params : pyvalue) : outcome :=
  match attr_run m with
  | Some (Function f) => f params
  | Some (Object ty) => Raises ("'" ++ ty ++ "' object is not callable")
  | None =>
      match mod_name m with
      | Some n => Raises ("module '" ++ n ++ "' has no attribute 'run'")
      | None => Raises "module has no attribute 'run'"
      end
  end.

(** ** JSON documents and [json.dump] *)

(** The document a file holds, as the tree it denotes. *)
Inductive json : Type :=
| JNull
| JBool (b : bool)
| JNum (z : Z)
| JStr (s : string)
| JArr (items : list json)
| JObj (members : list (string * json)).

(** [json.dump] either produces a document or raises: the class of the
    exception and [str(e)]. *)
Inductive encoded (A : Type) : Type :=
| Encoded (j : A)
| Fails (class msg : string).
Arguments Encoded {A} j.
Arguments Fails {A} class msg.

(** [sys.get_int_max_str_digits()] *)
Definition int_max_str_digits : nat := 4300.

(** The number of decimal digits of an int. *)
Definition digits (z : Z) : nat := Decimal.nb_digits (N.to_uint (Z.abs_N z)).

(** [int.__repr__(z)], which refuses an int of more digits than the limit:
    the number, or the message of the [ValueError]. *)
Definition int_repr (z : Z) : encoded Z :=
  if Nat.ltb int_max_str_digits (digits z) then
    Fails "ValueError"
      "Exceeds the limit (4300 digits) for integer string conversion; use sys.set_int_max_str_digits() to increase the limit"
  else Encoded z.

(** The encoder's coercion of dict keys: [str], [int], [bool] and [None]
    keys all become strings; a key of another type is refused. *)
Definition encode_key (k : pykey) : encoded string :=
  match k with
  | KStr s => Encoded s
  | KInt z =>
      match int_repr z with
      | Encoded z' => Encoded (str_of_Z z')
      | Fails c m => Fails c m
      end
  | KBool true => Encoded "true"
  | KBool false => Encoded "false"
  | KNone => Encoded "null"
  | KOther ty =>
      Fails "TypeError" ("keys must be str, int, float, bool or None, not " ++ ty)
  end.

(** Encoding the elements of a sequence in order; the first one that raises
    ends the walk. *)

Section EncodeEach.

Context {A B : Type}.
Variable f : A -> encoded B.

Fixpoint encode_each (l : list A) : encoded (list B) :=
  match l with
  | [] => Encoded []
  | x :: l' =>
      match f x with
      | Fails c m => Fails c m
      | Encoded j =>
          match encode_each l' with
          | Fails c m => Fails c m
          | Encoded js => Encoded (j :: js)
          end
      end
  end.

End EncodeEach.

(** [json.dump(v, f, indent=2)]: lists and tuples both become arrays, dicts
    become objects, the key of a member being looked at before its value;
    the first key or value without an encoding raises. *)
Fixpoint json_encode (v : pyvalue) : encoded json :=
  match v with
  | PNone => Encoded JNull
  | PBool b => Encoded (JBool b)
  | PInt z =>
      match int_repr z with
      | Encoded z' => Encoded (JNum z')
      | Fails c m => Fails c m
      end
  | PStr s => Encoded (JStr s)
  | PList l | PTuple l =>
      match encode_each json_encode l with
      | Fails c m => Fails c m
      | Encoded js => Encoded (JArr js)
      end
  | PDict d =>
      match
        encode_each
          (fun kv =>
             match encode_key (fst kv) with
             | Fails c m => Fails c m
             | Encoded k =>
                 match json_encode (snd kv) with
                 | Fails c m => Fails c m
                 | Encoded j => Encoded (k, j)
                 end
             end) d
      with
      | Fails c m => Fails c m
      | Encoded members => Encoded (JObj members)
      end
  | PObject ty =>
      Fails "TypeError" ("Object of type " ++ ty ++ " is not JSON serializable")
  end.

(** The dict built from pairs inserted one after the other. *)
Definition dict_of_pairs {V : Type} (l : list (string * V)) : dict V :=
  fold_left (fun d kv => dict_set (fst kv) (snd kv) d) l [].

(** [json.load]: objects become dicts (a repeated member name keeps its last
    value), arrays become lists. *)
Fixpoint json_decode (j : json) : pyvalue :=
  match j with
  | JNull => PNone
  | JBool b => PBool b
  | JNum z => PInt z
  | JStr s => PStr s
  | JArr items => PList (map json_decode items)
  | JObj members =>
      PDict (map (fun kv => (KStr (fst kv), snd kv))
               (dict_of_pairs (map (fun kv => (fst kv, json_decode (snd kv))) members)))
  end.

(** ** Results and framework state *)

(** One value of [self.results]: the dict [run_test] stores, a key that the
    dict lacks being [None] here. *)
Record CheckResult : Type := {
  status : string;
  result : option pyvalue;
  error : option string;
  timestamp : string
}.

(** One value of [self.tests]: [{'module': module, 'config': test_config}]. *)
Record test_info : Type := {
  ti_module : pymodule;
  ti_config : CheckSpec
}.

(** The attributes of an [EnumerationFramework] object. *)
Record EnumerationFramework : Type := {
  config_path : string;
  config : RunConfiguration;
  tests : dict test_info;
  results : dict CheckResult
}.

(** [EnumerationFramework(config_path)] *)
Definition init (path : string) : EnumerationFramework :=
  {| config_path := path; config := empty_config; tests := []; results := [] |}.

(** What a run does that can be seen from outside: the lines it prints, the
    check files it hands to [importlib] and the calls of [run] it makes. *)
Inductive event : Type :=
| Print (line : string)
| ExecModule (path : string)
| CallRun (test_name : string) (params : pyvalue).

(** The running process: the framework object, what it did so far, how many
    times the clock was read, and the files it wrote ([None]: opened for
    writing, no complete document in it). *)
Record Process : Type := {
  self : EnumerationFramework;
  trace : list event;
  clock : nat;
  disk : dict (option json)
}.

Definition start (path : string) : Process :=
  {| self := init path; trace := []; clock := 0; disk := [] |}.

(** ** What surrounds the framework *)

(** [open(path) ; json.load(f)] on the configuration file: the document, one
    of the two exceptions [load_config] catches, or another exception (its
    class and [str(e)]). *)
Inductive read_outcome : Type :=
| ReadOk (c : RunConfiguration)
| FileNotFoundError
| JSONDecodeError (msg : string)
| OtherError (class msg : string).

(** The three [importlib] calls of [load_test_module] on a path: they give
    the module, raise an exception below [Exception], kept as [str(e)], or
    raise outside [Exception] (a file that calls [sys.exit] when it is
    executed). *)
Inductive load_outcome : Type :=
| Loaded (m : pymodule)
| LoadRaises (msg : string)
| LoadEscapes (e : exn).

Record Env : Type := {
  read_json : string -> read_outcome;
  path_exists : string -> bool;
  exec_module : string -> load_outcome;
  now_isoformat : nat -> string;
  open_w : string -> option string
}.

(** ** Computations: state and exceptions *)

Definition M (A : Type) : Type := Process -> res A * Process.

Definition ret {A : Type} (a : A) : M A := fun p => (Val a, p).

Definition raise {A : Type} (e : exn) : M A := fun p => (Err e, p).

(** A computation that touches nothing. *)
Definition pure {A : Type} (r : res A) : M A := fun p => (r, p).

Definition bind {A B : Type} (c : M A) (k : A -> M B) : M B :=
  fun p =>
    match c p with
    | (Val a, p') => k a p'
    | (Err e, p') => (Err e, p')
    end.

Declare Scope py_scope.
Delimit Scope py_scope with py.
Notation "x <- c ;; k" := (bind c (fun x => k))
  (at level 61, c at next level, right associativity) : py_scope.
Notation "c ;; k" := (bind c (fun _ => k))
  (at level 61, right associativity) : py_scope.
Local Open Scope py_scope.

(** [for x in l: body(x)] *)
Fixpoint for_each {A : Type} (l : list A) (body : A -> M unit) : M unit :=
  match l with
  | [] => ret tt
  | x :: l' => body x ;; for_each l' body
  end.

Definition emit (e : event) : M unit :=
  fun p =>
    (Val tt, {| self := self p; trace := trace p ++ [e];
                clock := clock p; disk := disk p |}).

Definition print (line : string) : M unit := emit (Print line).

Definition gets {A : Type} (f : EnumerationFramework -> A) : M A :=
  fun p => (Val (f (self p)), p).

Definition update (f : EnumerationFramework -> EnumerationFramework) : M unit :=
  fun p =>
    (Val tt, {| self := f (self p); trace := trace p;
                clock := clock p; disk := disk p |}).

Definition set_config (c : RunConfiguration) (fw : EnumerationFramework)
  : EnumerationFramework :=
  {| config_path := config_path fw; config := c;
     tests := tests fw; results := results fw |}.

(** [self.tests[k] = v] *)
Definition set_test (k : string) (v : test_info) (fw : EnumerationFramework)
  : EnumerationFramework :=
  {| config_path := config_path fw; config := config fw;
     tests := dict_set k v (tests fw); results := results fw |}.

(** [self.results[k] = v] *)
Definition set_result (k : string) (v : CheckResult) (fw : EnumerationFramework)
  : EnumerationFramework :=
  {| config_path := config_path fw; config := config fw;
     tests := tests fw; results := dict_set k v (results fw) |}.

Definition write_file (path : string) (content : option json) : M unit :=
  fun p =>
    (Val tt, {| self := self p; trace := trace p;
                clock := clock p; disk := dict_set path content (disk p) |}).

(** ** The report *)

(** The dict [run_test] stores, as the value [json.dump] walks. *)
Definition result_value (r : CheckResult) : pyvalue :=
  PDict ([(KStr "status", PStr (status r))]
         ++ match result r with Some v => [(KStr "result", v)] | None => [] end
         ++ match error r with Some e => [(KStr "error", PStr e)] | None => [] end
         ++ [(KStr "timestamp", PStr (timestamp r))]).

(** [self.results] as a value. *)
Definition results_value (rs : dict CheckResult) : pyvalue :=
  PDict (map (fun kr => (KStr (fst kr), result_value (snd kr))) rs).

(** [sum(1 for r in self.results.values() if r['status'] == s)] *)
Definition count_status (s : string) (rs : dict CheckResult) : nat :=
  List.length (filter (fun r => String.eqb (status r) s) (values rs)).

(** ** The methods of [EnumerationFramework] *)

Section Methods.

Variable env : Env.

Definition load_config : M bool :=
  path <- gets config_path ;;
  match read_json env path with
  | ReadOk c =>
      update (set_config c) ;;
      print ("[+] Configuration loaded from " ++ path) ;;
      ret true
  | FileNotFoundError =>
      print ("[!] Configuration file not found: " ++ path) ;;
      ret false
  | JSONDecodeError e =>
      print ("[!] Error parsing configuration file: " ++ e) ;;
      ret false
  | OtherError c e => raise (Uncaught c e)
  end.

Definition load_test_module (test_path : string) : M (option pymodule) :=
  emit (ExecModule test_path) ;;
  match exec_module env test_path with
  | Loaded module => ret (Some module)
  | LoadRaises e =>
      print ("[!] Error loading test module " ++ test_path ++ ": " ++ e) ;;
      ret None
  | LoadEscapes e => raise e
  end.

(** What the loop of [discover_tests] does with a file that is there. *)
Definition load_entry (test_config : CheckSpec) (test_file test_path : string)
  : M unit :=
  module <- load_test_module test_path ;;
  match module with
  | Some m =>
      if hasattr_run m then
        test_name <- pure (getitem "name" (name test_config)) ;;
        update (set_test test_name
                  {| ti_module := m; ti_config := test_config |}) ;;
        print ("[+] Loaded test: " ++ test_name)
      else
        print ("[!] Test module " ++ test_file ++ " missing 'run' function")
  | None =>
      print ("[!] Test module " ++ test_file ++ " missing 'run' function")
  end.

(** The body of the loop of [discover_tests]. *)
Definition discover_test (tests_dir : pyvalue) (test_config : CheckSpec) : M unit :=
  if negb (get (enabled test_config) false) then
    test_name <- pure (getitem "name" (name test_config)) ;;
    print ("[-] Skipping disabled test: " ++ test_name)
  else
    test_file <- pure (getitem "file" (file test_config)) ;;
    test_path <- pure (path_join tests_dir test_file) ;;
    match test_file with
    | PStr f =>
        if negb (path_exists env test_path) then
          print ("[!] Test file not found: " ++ test_path)
        else load_entry test_config f test_path
    | _ => ret tt (* not reached: [os.path.join] has raised *)
    end.

Definition discover_tests : M bool :=
  cfg <- gets config ;;
  match cfg_tests cfg with
  | None =>
      print "[!] No tests defined in configuration" ;;
      ret false
  | Some entries =>
      let tests_dir := get (cfg_tests_directory cfg) (PStr "tests") in
      for_each entries (discover_test tests_dir) ;;
      loaded <- gets tests ;;
      ret (Nat.ltb 0 (List.length loaded))
  end.

(** [datetime.now().isoformat()] *)
Definition now : M string :=
  fun p =>
    (Val (now_isoformat env (clock p)),
     {| self := self p; trace := trace p;
        clock := S (clock p); disk := disk p |}).

Definition run_test (test_name : string) (info : test_info) : M unit :=
  print (nl ++ rule) ;;
  print ("Running: " ++ test_name) ;;
  print rule ;;
  let module := ti_module info in
  let config := ti_config info in
  let params := get (parameters config) (PDict []) in
  emit (CallRun test_name params) ;;
  match call_run module params with
  | Returns v =>
      t <- now ;;
      update (set_result test_name
                {| status := "success"; result := Some v;
                   error := None; timestamp := t |})
  | Raises e =>
      print ("[!] Error executing test " ++ test_name ++ ": " ++ e) ;;
      t <- now ;;
      update (set_result test_name
                {| status := "error"; result := None;
                   error := Some e; timestamp := t |})
  | Escapes e => raise e
  end.

Definition save_results : M unit :=
  cfg <- gets config ;;
  let output_file := get (cfg_output_file cfg) "enumeration_results.json" in
  match open_w env output_file with
  | Some e => print ("Error saving results: " ++ e)
  | None =>
      write_file output_file None ;;
      rs <- gets results ;;
      match json_encode (results_value rs) with
      | Fails _ e => print ("Error saving results: " ++ e)
      | Encoded doc =>
          write_file output_file (Some doc) ;;
          print (nl ++ "Results saved to: " ++ output_file)
      end
  end.

Definition print_summary : M unit :=
  print (nl ++ rule) ;;
  print "ENUMERATION SUMMARY" ;;
  print rule ;;
  rs <- gets results ;;
  let successful := count_status "success" rs in
  let failed := count_status "error" rs in
  print ("Total tests run: " ++ str_of_nat (List.length rs)) ;;
  print ("Successful: " ++ str_of_nat successful) ;;
  print ("Failed: " ++ str_of_nat failed) ;;
  cfg <- gets config ;;
  if get (cfg_save_results cfg) false then save_results else ret tt.

Definition run_all_tests : M unit :=
  loaded <- gets tests ;;
  match loaded with
  | [] => print "[!] No tests loaded to execute"
  | _ :: _ =>
      print (nl ++ "[+] Starting enumeration with "
                ++ str_of_nat (List.length loaded) ++ " test(s)") ;;
      for_each loaded (fun item => run_test (fst item) (snd item)) ;;
      print_summary
  end.

(** [main()], [argv] being [sys.argv]. *)
Definition main (argv : list string) : M unit :=
  print "Start" ;;
  let path :=
    match argv with
    | _ :: arg :: _ => arg
    | _ => "config.json"
    end in
  update (fun _ => init path) ;;
  ok <- load_config ;;
  if negb ok then raise (SystemExit 1)
  else
    found <- discover_tests ;;
    if negb found then
      print "No tests loaded. Exiting." ;;
      raise (SystemExit 1)
    else
      run_all_tests ;;
      print (nl ++ "Enumeration complete!").

(** The status the interpreter exits with: 0 when [main] returns, the
    argument of [sys.exit], 1 after an exception nobody caught; a
    [KeyboardInterrupt] ends the interpreter on [SIGINT], which a shell
    reports as 130. *)
Definition exit_status {A : Type} (r : res A) : nat :=
  match r with
  | Val _ => 0
  | Err (SystemExit code) => code
  | Err KeyboardInterrupt => 130
  | Err (Uncaught _ _) => 1
  end.

(** One run of the program: its exit status and the process it leaves. *)
Definition run (argv : list string) : nat * Process :=
  let (r, p) := main argv (start "config.json") in
  (exit_status r, p).

End Methods.

(** * Reading a run *)

(** ** What each method computes *)

(** The framework with another registry, or another result set. *)
Definition with_tests (t : dict test_info) (fw : EnumerationFramework)
  : EnumerationFramework :=
  {| config_path := config_path fw; config := config fw;
     tests := t; results := results fw |}.

Definition with_results (rs : dict CheckResult) (fw : EnumerationFramework)
  : EnumerationFramework :=
  {| config_path := config_path fw; config := config fw;
     tests := tests fw; results := rs |}.

(** The result [run_test] stores for an outcome and a reading of the clock:
    none for a call that leaves [run_test] by an exception. *)
Definition make_result (o : outcome) (t : string) : option CheckResult :=
  match o with
  | Returns v =>
      Some {| status := "success"; result := Some v; error := None; timestamp := t |}
  | Raises e =>
      Some {| status := "error"; result := None; error := Some e; timestamp := t |}
  | Escapes _ => None
  end.

(** The parameters [run_test] hands to a check. *)
Definition params_of (info : test_info) : pyvalue :=
  get (parameters (ti_config info)) (PDict []).

(** The outcome of the call [run_test] makes. *)
Definition outcome_of (info : test_info) : outcome :=
  call_run (ti_module info) (params_of info).

(** The exception with which the call of a check leaves [run_test]. *)
Definition escape (info : test_info) : option exn :=
  match outcome_of info with
  | Escapes e => Some e
  | _ => None
  end.

(** What one iteration of the discovery loop comes to: the entry is
    disabled; its file is not there; its file raises when imported; its
    module has no [run]; it is registered; or the iteration raises, after
    the events [done], an exception that ends the run. *)
Inductive step : Type :=
| Skips (n : string)
| Misses (path : string)
| Unloadable (path f e : string)
| Runless (path f : string)
| Registers (path n : string) (m : pymodule)
| Crashes (done : list event) (e : exn).

Section Views.

Variable env : Env.

Definition step_of (dir : pyvalue) (tc : CheckSpec) : step :=
  if get (enabled tc) false then
    match getitem "file" (file tc) with
    | Err e => Crashes [] e
    | Val v =>
        match dir, v with
        | PStr d, PStr f =>
            let path := os_path_join d f in
            if path_exists env path then
              match exec_module env path with
              | Loaded m =>
                  if hasattr_run m then
                    match getitem "name" (name tc) with
                    | Val n => Registers path n m
                    | Err e => Crashes [ExecModule path] e
                    end
                  else Runless path f
              | LoadRaises e => Unloadable path f e
              | LoadEscapes e => Crashes [ExecModule path] e
              end
            else Misses path
        | PStr _, _ => Crashes [] (join_error v)
        | _, _ => Crashes [] (fspath_error dir)
        end
    end
  else
    match getitem "name" (name tc) with
    | Val n => Skips n
    | Err e => Crashes [] e
    end.

(** The module an entry ends up registered with, if any. *)
Definition loads (dir : pyvalue) (tc : CheckSpec) : option pymodule :=
  match step_of dir tc with
  | Registers _ _ m => Some m
  | _ => None
  end.

(** The exception with which the iteration for an entry ends the run. *)
Definition crash (dir : pyvalue) (tc : CheckSpec) : option exn :=
  match step_of dir tc with
  | Crashes _ e => Some e
  | _ => None
  end.

Definition register (dir : pyvalue) (t : dict test_info) (tc : CheckSpec)
  : dict test_info :=
  match step_of dir tc with
  | Registers _ n m => dict_set n {| ti_module := m; ti_config := tc |} t
  | _ => t
  end.

(** What one iteration of the discovery loop prints and executes. *)
Definition discover_events (dir : pyvalue) (tc : CheckSpec) : list event :=
  match step_of dir tc with
  | Skips n => [Print ("[-] Skipping disabled test: " ++ n)]
  | Misses path => [Print ("[!] Test file not found: " ++ path)]
  | Unloadable path f e =>
      [ExecModule path;
       Print ("[!] Error loading test module " ++ path ++ ": " ++ e);
       Print ("[!] Test module " ++ f ++ " missing 'run' function")]
  | Runless path f =>
      [ExecModule path; Print ("[!] Test module " ++ f ++ " missing 'run' function")]
  | Registers path n _ => [ExecModule path; Print ("[+] Loaded test: " ++ n)]
  | Crashes done _ => done
  end.

(** The entries the discovery loop gets to: all of them, or those up to the
    first whose iteration raises, that one included. *)
Fixpoint reached (dir : pyvalue) (entries : list CheckSpec) : list CheckSpec :=
  match entries with
  | [] => []
  | tc :: entries' =>
      match crash dir tc with
      | Some _ => [tc]
      | None => tc :: reached dir entries'
      end
  end.

(** The exception that ends the discovery loop, if one does. *)
Fixpoint crash_of (dir : pyvalue) (entries : list CheckSpec) : option exn :=
  match entries with
  | [] => None
  | tc :: entries' =>
      match crash dir tc with
      | Some e => Some e
      | None => crash_of dir entries'
      end
  end.

(** What [run_test] prints and calls. *)
Definition run_events (test_name : string) (info : test_info) : list event :=
  [Print (nl ++ rule); Print ("Running: " ++ test_name); Print rule;
   CallRun test_name (params_of info)]
  ++ match outcome_of info with
     | Raises e => [Print ("[!] Error executing test " ++ test_name ++ ": " ++ e)]
     | _ => []
     end.

(** The checks the execution loop calls: all of them, or those up to the
    first whose call escapes, that one included. *)
Fixpoint called (items : dict test_info) : dict test_info :=
  match items with
  | [] => []
  | (n, info) :: items' =>
      match escape info with
      | Some _ => [(n, info)]
      | None => (n, info) :: called items'
      end
  end.

(** The checks whose call comes back to [run_test]. *)
Fixpoint completed (items : dict test_info) : dict test_info :=
  match items with
  | [] => []
  | (n, info) :: items' =>
      match escape info with
      | Some _ => []
      | None => (n, info) :: completed items'
      end
  end.

(** The exception that ends the execution loop, if one does. *)
Fixpoint escape_of (items : dict test_info) : option exn :=
  match items with
  | [] => None
  | (_, info) :: items' =>
      match escape info with
      | Some e => Some e
      | None => escape_of items'
      end
  end.

(** The results of the execution loop, the clock having been read [k]
    times before it starts. *)
Fixpoint run_results (k : nat) (rs : dict CheckResult) (items : dict test_info)
  : dict CheckResult :=
  match items with
  | [] => rs
  | (n, info) :: items' =>
      match make_result (outcome_of info) (now_isoformat env k) with
      | Some r => run_results (S k) (dict_set n r rs) items'
      | None => rs
      end
  end.

End Views.

Section Whole.

Variable env : Env.

(** [sys.argv[1] if len(sys.argv) > 1 else "config.json"] *)
Definition script_arg (argv : list string) : string :=
  match argv with
  | _ :: arg :: _ => arg
  | _ => "config.json"
  end.

Definition tests_dir_of (cfg : RunConfiguration) : pyvalue :=
  get (cfg_tests_directory cfg) (PStr "tests").

Definition output_file_of (cfg : RunConfiguration) : string :=
  get (cfg_output_file cfg) "enumeration_results.json".

(** The registry the discovery loop builds from the entries. *)
Definition registry (dir : pyvalue) (entries : list CheckSpec) : dict test_info :=
  fold_left (register env dir) (reached env dir entries) [].

(** What the discovery loop prints and executes. *)
Definition discovery_events (dir : pyvalue) (entries : list CheckSpec) : list event :=
  flat_map (discover_events env dir) (reached env dir entries).

(** What [save_results] prints and what it leaves on disk. *)
Definition save_events (cfg : RunConfiguration) (rs : dict CheckResult) : list event :=
  match open_w env (output_file_of cfg) with
  | Some e => [Print ("Error saving results: " ++ e)]
  | None =>
      match json_encode (results_value rs) with
      | Fails _ e => [Print ("Error saving results: " ++ e)]
      | Encoded _ => [Print (nl ++ "Results saved to: " ++ output_file_of cfg)]
      end
  end.

Definition save_disk (cfg : RunConfiguration) (rs : dict CheckResult)
           (dk : dict (option json)) : dict (option json) :=
  match open_w env (output_file_of cfg) with
  | Some _ => dk
  | None =>
      match json_encode (results_value rs) with
      | Fails _ _ => dict_set (output_file_of cfg) None dk
      | Encoded doc =>
          dict_set (output_file_of cfg) (Some doc)
            (dict_set (output_file_of cfg) None dk)
      end
  end.

(** What [print_summary] prints before it saves. *)
Definition summary_events (rs : dict CheckResult) : list event :=
  [Print (nl ++ rule); Print "ENUMERATION SUMMARY"; Print rule;
   Print ("Total tests run: " ++ str_of_nat (List.length rs));
   Print ("Successful: " ++ str_of_nat (count_status "success" rs));
   Print ("Failed: " ++ str_of_nat (count_status "error" rs))].

Definition report_events (cfg : RunConfiguration) (rs : dict CheckResult) : list event :=
  summary_events rs ++ if get (cfg_save_results cfg) false then save_events cfg rs else [].

Definition report_disk (cfg : RunConfiguration) (rs : dict CheckResult)
           (dk : dict (option json)) : dict (option json) :=
  if get (cfg_save_results cfg) false then save_disk cfg rs dk else dk.

Definition calls_of (reg : dict test_info) : list event :=
  flat_map (fun item => run_events (fst item) (snd item)) (called reg).

Definition starting (reg : dict test_info) : event :=
  Print (nl ++ "[+] Starting enumeration with "
            ++ str_of_nat (List.length reg) ++ " test(s)").

(** How [main] ends once the configuration is loaded and names its
    entries: the discovery loop raises; or it registers nothing; or a check
    ends the run; or [main] returns. *)
Definition ending (dir : pyvalue) (entries : list CheckSpec) : res unit :=
  match crash_of env dir entries with
  | Some e => Err e
  | None =>
      match registry dir entries with
      | [] => Err (SystemExit 1)
      | _ :: _ =>
          match escape_of (registry dir entries) with
          | Some e => Err e
          | None => Val tt
          end
      end
  end.

(** The process a run ends in in each of these cases. *)
Definition finish (path : string) (cfg : RunConfiguration)
           (entries : list CheckSpec) : res unit * Process :=
  let reg := registry (tests_dir_of cfg) entries in
  let discovered :=
    [Print "Start"; Print ("[+] Configuration loaded from " ++ path)]
    ++ discovery_events (tests_dir_of cfg) entries in
  match crash_of env (tests_dir_of cfg) entries with
  | Some e =>
      (Err e,
       {| self := {| config_path := path; config := cfg;
                     tests := reg; results := [] |};
          trace := discovered; clock := 0; disk := [] |})
  | None =>
      match reg with
      | [] =>
          (Err (SystemExit 1),
           {| self := {| config_path := path; config := cfg;
                         tests := []; results := [] |};
              trace := discovered ++ [Print "No tests loaded. Exiting."];
              clock := 0; disk := [] |})
      | _ :: _ =>
          let rs := run_results env 0 [] reg in
          match escape_of reg with
          | Some e =>
              (Err e,
               {| self := {| config_path := path; config := cfg;
                             tests := reg; results := rs |};
                  trace := discovered ++ [starting reg] ++ calls_of reg;
                  clock := List.length (completed reg); disk := [] |})
          | None =>
              (Val tt,
               {| self := {| config_path := path; config := cfg;
                             tests := reg; results := rs |};
                  trace := discovered ++ [starting reg] ++ calls_of reg
                           ++ report_events cfg rs
                           ++ [Print (nl ++ "Enumeration complete!")];
                  clock := List.length reg; disk := report_disk cfg rs [] |})
          end
      end
  end.

(** The result of [main] and the process it ends in. *)
Definition main_spec (argv : list string) : res unit * Process :=
  let path := script_arg argv in
  match read_json env path with
  | ReadOk cfg =>
      match cfg_tests cfg with
      | None =>
          (Err (SystemExit 1),
           {| self := {| config_path := path; config := cfg;
                         tests := []; results := [] |};
              trace := [Print "Start";
                        Print ("[+] Configuration loaded from " ++ path);
                        Print "[!] No tests defined in configuration";
                        Print "No tests loaded. Exiting."];
              clock := 0; disk := [] |})
      | Some entries => finish path cfg entries
      end
  | FileNotFoundError =>
      (Err (SystemExit 1),
       {| self := init path;
          trace := [Print "Start";
                    Print ("[!] Configuration file not found: " ++ path)];
          clock := 0; disk := [] |})
  | JSONDecodeError e =>
      (Err (SystemExit 1),
       {| self := init path;
          trace := [Print "Start";
                    Print ("[!] Error parsing configuration file: " ++ e)];
          clock := 0; disk := [] |})
  | OtherError c e =>
      (Err (Uncaught c e),
       {| self := init path; trace := [Print "Start"]; clock := 0; disk := [] |})
  end.

End Whole.

(** ** What a trace shows *)

(** The calls of [run] in a trace, in order. *)
Definition calls (tr : list event) : list (string * pyvalue) :=
  flat_map (fun e => match e with CallRun n ps => [(n, ps)] | _ => [] end) tr.

(** The check files handed to [importlib] in a trace, in order. *)
Definition execs (tr : list event) : list string :=
  flat_map (fun e => match e with ExecModule path => [path] | _ => [] end) tr.

(** The lines printed in a trace, in order. *)
Definition prints (tr : list event) : list string :=
  flat_map (fun e => match e with Print line => [line] | _ => [] end) tr.

(** A result as [run_test] shapes it. *)
Definition well_formed (r : CheckResult) : Prop :=
  (status r = "success" /\ result r <> None /\ error r = None) \/
  (status r = "error" /\ error r <> None /\ result r = None).

Section Execution.

Variable env : Env.

(** The results of checks run one after the other, each stamped with the
    next reading of the clock, up to the first call that escapes. *)
Fixpoint stamped (k : nat) (items : dict test_info) : dict CheckResult :=
  match items with
  | [] => []
  | (n, info) :: items' =>
      match make_result (outcome_of info) (now_isoformat env k) with
      | Some r => (n, r) :: stamped (S k) items'
      | None => []
      end
  end.

End Execution.

Section Runs.

Variable env : Env.

(** The process a run ends in. *)
Definition final (argv : list string) : Process := snd (run env argv).

(** The status a run exits with. *)
Definition exit_code (argv : list string) : nat := fst (run env argv).


(** Nothing cuts the run short: no iteration of the discovery loop raises
    and no call of a check raises outside [Exception]. *)
Definition uninterrupted (argv : list string) : Prop :=
  forall cfg entries,
    read_json env (script_arg argv) = ReadOk cfg ->
    cfg_tests cfg = Some entries ->
    crash_of env (tests_dir_of cfg) entries = None
    /\ escape_of (registry env (tests_dir_of cfg) entries) = None.

End Runs.

(** ** Comparing configurations *)

(** The configuration with its entries replaced. *)
Definition set_entries (entries : list CheckSpec) (cfg : RunConfiguration)
  : RunConfiguration :=
  {| cfg_tests_directory := cfg_tests_directory cfg; cfg_tests := Some entries;
     cfg_save_results := cfg_save_results cfg; cfg_output_file := cfg_output_file cfg |}.

(** The same installation, its configuration document rewritten by [f]. *)
Definition map_config (f : RunConfiguration -> RunConfiguration) (env : Env) : Env :=
  {| read_json := fun path =>
       match read_json env path with
       | ReadOk c => ReadOk (f c)
       | o => o
       end;
     path_exists := path_exists env;
     exec_module := exec_module env;
     now_isoformat := now_isoformat env;
     open_w := open_w env |}.


(** The entry with its [enabled] key replaced. *)
Definition set_enabled (e : option bool) (tc : CheckSpec) : CheckSpec :=
  {| name := name tc; file := file tc; enabled := e; parameters := parameters tc |}.

(** Two entries that read the same: same name and file, and the same
    [enabled] and [parameters] once [.get] has supplied its default. *)
Definition same_entry (tc tc' : CheckSpec) : Prop :=
  name tc = name tc' /\ file tc = file tc'
  /\ get (enabled tc) false = get (enabled tc') false
  /\ get (parameters tc) (PDict []) = get (parameters tc') (PDict []).

(** Two configurations that read the same: the same entries (or none in
    both), and the same directory, [save_results] and output file once
    [.get] has supplied its default. *)
Definition same_reading (cfg cfg' : RunConfiguration) : Prop :=
  get (cfg_tests_directory cfg) (PStr "tests")
  = get (cfg_tests_directory cfg') (PStr "tests")
  /\ get (cfg_save_results cfg) false = get (cfg_save_results cfg') false
  /\ get (cfg_output_file cfg) "enumeration_results.json"
     = get (cfg_output_file cfg') "enumeration_results.json"
  /\ match cfg_tests cfg, cfg_tests cfg' with
     | Some entries, Some entries' => Forall2 same_entry entries entries'
     | None, None => True
     | _, _ => False
     end.

(** Two registries that run the same checks with the same parameters. *)
Definition same_check (item item' : string * test_info) : Prop :=
  fst item = fst item'
  /\ ti_module (snd item) = ti_module (snd item')
  /\ same_entry (ti_config (snd item)) (ti_config (snd item')).

(** The configuration with every value [.get] would supply written out. *)
Definition fill_entry (tc : CheckSpec) : CheckSpec :=
  {| name := name tc; file := file tc;
     enabled := Some (get (enabled tc) false);
     parameters := Some (get (parameters tc) (PDict [])) |}.

Definition fill_defaults (cfg : RunConfiguration) : RunConfiguration :=
  {| cfg_tests_directory := Some (get (cfg_tests_directory cfg) (PStr "tests"));
     cfg_tests := option_map (map fill_entry) (cfg_tests cfg);
     cfg_save_results := Some (get (cfg_save_results cfg) false);
     cfg_output_file := Some (get (cfg_output_file cfg) "enumeration_results.json") |}.

(** ** Values [json] writes and reads back unchanged *)

(** Strings that are pairwise different. *)
Fixpoint distinct (l : list string) : bool :=
  match l with
  | [] => true
  | x :: l' => negb (existsb (String.eqb x) l') && distinct l'
  end.

(** The values [json] has a type of its own for: [None], booleans, integers,
    strings, lists of such values and dicts from (distinct) strings to such
    values. *)
Fixpoint json_native (v : pyvalue) : bool :=
  match v with
  | PNone | PBool _ | PInt _ | PStr _ => true
  | PList l => forallb json_native l
  | PTuple _ => false
  | PDict d =>
      forallb (fun kv => match fst kv with
                         | KStr _ => json_native (snd kv)
                         | _ => false
                         end) d
      && distinct (map (fun kv => match fst kv with KStr s => s | _ => "" end) d)
  | PObject _ => false
  end.

(** ** Sample installations *)

Module Samples.

(** [def run(params): return {'status': 'completed'}] *)
Definition completes : pymodule :=
  {| mod_name := Some "completes";
     attr_run :=
       Some (Function (fun _ => Returns (PDict [(KStr "status", PStr "completed")]))) |}.

(** [def run(params): raise RuntimeError("boom")] *)
Definition booms : pymodule :=
  {| mod_name := Some "booms";
     attr_run := Some (Function (fun _ => Raises "boom")) |}.

(** [def run(params): raise RuntimeError()] *)
Definition fails_silently : pymodule :=
  {| mod_name := Some "fails_silently";
     attr_run := Some (Function (fun _ => Raises "")) |}.

(** [def run(params): return params] *)
Definition echoes : pymodule :=
  {| mod_name := Some "echoes";
     attr_run := Some (Function (fun params => Returns params)) |}.

(** [def run(params): return {'version': (5, 4)}] *)
Definition returns_tuple : pymodule :=
  {| mod_name := Some "returns_tuple";
     attr_run :=
       Some (Function (fun _ => Returns (PDict [(KStr "version", PTuple [PInt 5; PInt 4])]))) |}.

(** A file that defines no [run]. *)
Definition runless : pymodule := {| mod_name := Some "runless"; attr_run := None |}.


(** [def run(params): sys.exit(code)] *)
Definition exits (code : nat) : pymodule :=
  {| mod_name := Some "exits";
     attr_run := Some (Function (fun _ => Escapes (SystemExit code))) |}.

Definition spec (n f : string) (e : option bool) (ps : option pyvalue) : CheckSpec :=
  {| name := Some n; file := Some (PStr f); enabled := e; parameters := ps |}.

Definition on : option bool := Some true.
Definition off : option bool := Some false.

(** An installation: the configuration [config.json] holds and the check
    files on disk, each with what executing it gives. *)
Definition installation (cfg : RunConfiguration)
           (files : dict load_outcome) : Env :=
  {| read_json := fun path =>
       if String.eqb path "config.json" then ReadOk cfg else FileNotFoundError;
     path_exists := fun path =>
       match dict_get path files with Some _ => true | None => false end;
     exec_module := fun path =>
       match dict_get path files with
       | Some o => o
       | None => LoadRaises "'NoneType' object has no attribute 'loader'"
       end;
     now_isoformat := fun k => ("2024-05-01T10:00:0" ++ str_of_nat k)%string;
     open_w := fun _ => None |}.

Definition configuration (entries : list CheckSpec) (save : option bool)
  : RunConfiguration :=
  {| cfg_tests_directory := None; cfg_tests := Some entries;
     cfg_save_results := save; cfg_output_file := None |}.

Definition argv : list string := ["main.py"].

(** Three checks, the middle one raising. *)
Definition three_checks : Env :=
  installation
    (configuration [spec "A" "a.py" on (Some (PDict []));
                    spec "B" "b.py" on (Some (PDict []));
                    spec "C" "c.py" on (Some (PDict []))] None)
    [("tests/a.py", Loaded completes); ("tests/b.py", Loaded booms);
     ("tests/c.py", Loaded completes)].

(** One check that raises an exception without a message. *)
Definition silent_failure : Env :=
  installation (configuration [spec "A" "a.py" on (Some (PDict []))] None)
    [("tests/a.py", Loaded fails_silently)].


(** Five entries: [M] names a file that is not there, [S] a file that does
    not load, [R] a file without [run]. *)
Definition faulty_entries : Env :=
  installation
    (configuration [spec "A" "a.py" on (Some (PDict []));
                    spec "M" "missing.py" on (Some (PDict []));
                    spec "S" "syntax.py" on (Some (PDict []));
                    spec "R" "runless.py" on (Some (PDict []));
                    spec "C" "c.py" on (Some (PDict []))] None)
    [("tests/a.py", Loaded completes);
     ("tests/syntax.py", LoadRaises "invalid syntax (syntax.py, line 1)");
     ("tests/runless.py", Loaded runless);
     ("tests/c.py", Loaded booms)].

(** A disabled entry and an enabled one under the same name. *)
Definition shadowed : Env :=
  installation
    (configuration [spec "A" "a.py" off (Some (PDict []));
                    spec "A" "b.py" on (Some (PDict []))] None)
    [("tests/a.py", Loaded booms); ("tests/b.py", Loaded completes)].

(** A disabled entry between two enabled ones. *)
Definition one_disabled : Env :=
  installation
    (configuration [spec "A" "a.py" on (Some (PDict []));
                    spec "B" "b.py" off (Some (PDict []));
                    spec "C" "c.py" on (Some (PDict []))] None)
    [("tests/a.py", Loaded completes); ("tests/b.py", Loaded booms);
     ("tests/c.py", Loaded completes)].

(** Every check raises and the report cannot be written. *)
Definition all_fail_and_no_report : Env :=
  {| read_json := fun _ =>
       ReadOk {| cfg_tests_directory := Some (PStr "checks");
                 cfg_tests := Some [spec "A" "a.py" on None; spec "B" "b.py" on None];
                 cfg_save_results := Some true;
                 cfg_output_file := Some "/proc/report.json" |};
     path_exists := fun _ => true;
     exec_module := fun _ => Loaded booms;
     now_isoformat := fun k => ("2024-05-01T10:00:0" ++ str_of_nat k)%string;
     open_w := fun _ => Some "[Errno 13] Permission denied: '/proc/report.json'" |}.

(** An entry that says nothing about [enabled] between two enabled ones. *)
Definition enabled_omitted : Env :=
  installation
    (configuration [spec "A" "a.py" on (Some (PDict []));
                    spec "B" "b.py" None (Some (PDict []));
                    spec "C" "c.py" on (Some (PDict []))] None)
    [("tests/a.py", Loaded completes); ("tests/b.py", Loaded booms);
     ("tests/c.py", Loaded completes)].

(** Two enabled entries named [A], with [B] between them. *)
Definition duplicate_names : Env :=
  installation
    (configuration [spec "A" "a.py" on (Some (PDict []));
                    spec "B" "b.py" on (Some (PDict []));
                    spec "A" "c.py" on (Some (PDict []))] None)
    [("tests/a.py", Loaded completes); ("tests/b.py", Loaded completes);
     ("tests/c.py", Loaded booms)].

(** A configuration that leaves out [save_results], the [parameters] of
    [E] and the [enabled] of [D]; [E] returns the parameters it is given. *)
Definition defaults_omitted : Env :=
  installation
    (configuration [spec "E" "e.py" on None; spec "D" "d.py" None None] None)
    [("tests/e.py", Loaded echoes); ("tests/d.py", Loaded booms)].

(** The same configuration with the three values written out. *)
Definition defaults_written : Env :=
  installation
    (configuration [spec "E" "e.py" on (Some (PDict []));
                    spec "D" "d.py" off (Some (PDict []))] (Some false))
    [("tests/e.py", Loaded echoes); ("tests/d.py", Loaded booms)].

(** A check that returns a tuple, in a run that saves its report. *)
Definition tuple_payload : Env :=
  installation
    (configuration [spec "K" "kernel.py" on (Some (PDict []))] (Some true))
    [("tests/kernel.py", Loaded returns_tuple)].

(** A check that returns its parameters, in a run that saves its report. *)
Definition saved_report : Env :=
  installation
    (configuration
       [spec "E" "e.py" on (Some (PDict [(KStr "paths", PList [PStr "/etc"; PStr "/home"]);
                                         (KStr "depth", PInt 2)]));
        spec "B" "b.py" on None]
       (Some true))
    [("tests/e.py", Loaded echoes); ("tests/b.py", Loaded booms)].

(** The document the run of [saved_report] leaves on disk. *)
Definition saved_document : json :=
  Eval vm_compute in
    match dict_get "enumeration_results.json" (disk (final saved_report argv)) with
    | Some (Some doc) => doc
    | _ => JNull
    end.

(** The document the run of [tuple_payload] leaves on disk. *)
Definition tuple_document : json :=
  Eval vm_compute in
    match dict_get "enumeration_results.json" (disk (final tuple_payload argv)) with
    | Some (Some doc) => doc
    | _ => JNull
    end.

(** One check [A], in the directory [t], that returns a dict. *)
Definition one_check (m : pymodule) : Env :=
  installation
    {| cfg_tests_directory := Some (PStr "t");
       cfg_tests := Some [spec "A" "a.check" on (Some (PDict []))];
       cfg_save_results := None; cfg_output_file := None |}
    [("t/a.check", Loaded m)].

(** One entry whose file is there and one whose file is not. *)
Definition one_valid_one_missing : Env :=
  installation
    (configuration [spec "A" "a.py" on (Some (PDict []));
                    spec "M" "missing.py" on (Some (PDict []))] None)
    [("tests/a.py", Loaded completes)].

(** A configuration without the key [tests]. *)
Definition no_tests_key : Env :=
  installation
    {| cfg_tests_directory := None; cfg_tests := None;
       cfg_save_results := None; cfg_output_file := None |} [].



(** Two checks named by absolute paths. *)
Definition absolute_files : Env :=
  installation
    (configuration [spec "A" "/opt/checks/a.py" on (Some (PDict []));
                    spec "B" "/opt/checks/b.py" on (Some (PDict []))] None)
    [("/opt/checks/a.py", Loaded completes); ("/opt/checks/b.py", Loaded booms)].

(** Three checks, the middle one calling [sys.exit(3)]. *)
Definition exit_in_the_middle : Env :=
  installation
    (configuration [spec "A" "a.py" on (Some (PDict []));
                    spec "B" "b.py" on (Some (PDict []));
                    spec "C" "c.py" on (Some (PDict []))] None)
    [("tests/a.py", Loaded completes); ("tests/b.py", Loaded (exits 3));
     ("tests/c.py", Loaded completes)].

(** An entry that says nothing about [enabled] and an enabled one under
    the same name. *)
Definition shadowed_without_enabled : Env :=
  installation
    (configuration [spec "A" "a.py" None (Some (PDict []));
                    spec "A" "b.py" on (Some (PDict []))] None)
    [("tests/a.py", Loaded booms); ("tests/b.py", Loaded completes)].


(** An enabled entry without a name whose file is not there, before an
    enabled one. *)
Definition nameless_missing : Env :=
  installation
    (configuration [{| name := None; file := Some (PStr "missing.py");
                       enabled := on; parameters := None |};
                    spec "C" "c.py" on (Some (PDict []))] None)
    [("tests/c.py", Loaded completes)].

(** Two checks named by absolute paths, [tests_directory] being [5]. *)
Definition directory_is_a_number : Env :=
  installation
    {| cfg_tests_directory := Some (PInt 5);
       cfg_tests := Some [spec "A" "/opt/checks/a.py" on (Some (PDict []));
                          spec "B" "/opt/checks/b.py" on (Some (PDict []))];
       cfg_save_results := None; cfg_output_file := None |}
    [("/opt/checks/a.py", Loaded completes); ("/opt/checks/b.py", Loaded booms)].

(** [def run(params): return {(1, 2): 'pair'}] *)
Definition returns_tuple_key : pymodule :=
  {| mod_name := Some "returns_tuple_key";
     attr_run :=
       Some (Function (fun _ => Returns (PDict [(KOther "tuple", PStr "pair")]))) |}.

(** A check that returns a dict with a tuple for a key after one that
    returns a dict, in a run that saves its report. *)
Definition tuple_key_payload : Env :=
  installation
    (configuration [spec "A" "a.py" on (Some (PDict []));
                    spec "P" "pairs.py" on (Some (PDict []))] (Some true))
    [("tests/a.py", Loaded completes); ("tests/pairs.py", Loaded returns_tuple_key)].


End Samples.

(** ** The order of the registry *)

(** The strings of [l] that are not in [seen] and not earlier in [l]. *)
Fixpoint unseen (seen : list string) (l : list string) : list string :=
  match l with
  | [] => []
  | x :: l' =>
      if existsb (String.eqb x) seen then unseen seen l'
      else x :: unseen (x :: seen) l'
  end.

(** Each string of [l] once, at the place of its first occurrence. *)
Definition first_occurrences (l : list string) : list string := unseen [] l.

(** The names of the entries that load, in the order of the configuration. *)
Definition registered_name (env : Env) (dir : pyvalue) (tc : CheckSpec)
  : list string :=
  match step_of env dir tc with
  | Registers _ n _ => [n]
  | _ => []
  end.

Definition loaded_names (env : Env) (dir : pyvalue) (entries : list CheckSpec)
  : list string :=
  flat_map (registered_name env dir) (reached env dir entries).




(** The configuration with its key [tests_directory] replaced. *)
Definition set_tests_directory (d : option pyvalue) (cfg : RunConfiguration)
  : RunConfiguration :=
  {| cfg_tests_directory := d; cfg_tests := cfg_tests cfg;
     cfg_save_results := cfg_save_results cfg; cfg_output_file := cfg_output_file cfg |}.




(** * The checks under [tests/] *)

(** ** Python text, values and exceptions *)

(** Text is read as ASCII: [isspace], [lower], [isdigit] and the classes
    [\s] and [\d] are those of the ASCII range, a character outside it
    being a byte that is neither a space, a digit nor a letter. *)

Module Py.

(** [c.isspace()]: tab to carriage return, the four separators and space. *)
Definition isspace (c : ascii) : bool :=
  let n := nat_of_ascii c in
  (Nat.leb 9 n && Nat.leb n 13) || (Nat.leb 28 n && Nat.leb n 32).

Definition isdigit_char (c : ascii) : bool :=
  let n := nat_of_ascii c in Nat.leb 48 n && Nat.leb n 57.

Definition lower_char (c : ascii) : ascii :=
  let n := nat_of_ascii c in
  if Nat.leb 65 n && Nat.leb n 90 then ascii_of_nat (n + 32) else c.

(** [s.lower()] *)
Fixpoint lower (s : string) : string :=
  match s with
  | EmptyString => EmptyString
  | String c s' => String (lower_char c) (lower s')
  end.

(** Every character of [s] is in the ASCII range. *)
Fixpoint isascii (s : string) : bool :=
  match s with
  | EmptyString => true
  | String c s' => Nat.ltb (nat_of_ascii c) 128 && isascii s'
  end.

Fixpoint lstrip (s : string) : string :=
  match s with
  | EmptyString => EmptyString
  | String c s' => if isspace c then lstrip s' else s
  end.

Fixpoint rstrip (s : string) : string :=
  match s with
  | EmptyString => EmptyString
  | String c s' =>
      match rstrip s' with
      | EmptyString => if isspace c then EmptyString else String c EmptyString
      | r => String c r
      end
  end.

(** [s.strip()] *)
Definition strip (s : string) : string := rstrip (lstrip s).

(** [needle in hay] *)
Fixpoint contains (needle hay : string) : bool :=
  String.prefix needle hay
  || match hay with
     | EmptyString => false
     | String _ hay' => contains needle hay'
     end.

(** [s.startswith(p)] *)
Definition startswith (s p : string) : bool := String.prefix p s.

(** [s.split(sep)] for a separator of one character. *)
Fixpoint split_on (sep : ascii) (s : string) : list string :=
  match s with
  | EmptyString => [EmptyString]
  | String c s' =>
      if Ascii.eqb c sep then EmptyString :: split_on sep s'
      else match split_on sep s' with
           | w :: ws => String c w :: ws
           | [] => [String c EmptyString]
           end
  end.

(** [s.split('\n')] *)
Definition lines (s : string) : list string := split_on (ascii_of_nat 10) s.

(** [s.split()]: the runs of characters that are not spaces. *)
Fixpoint split (s : string) : list string :=
  match s with
  | EmptyString => []
  | String c s' =>
      if isspace c then split s'
      else
        match s' with
        | String c' _ =>
            if isspace c' then String c EmptyString :: split s'
            else match split s' with
                 | w :: ws => String c w :: ws
                 | [] => [String c EmptyString]
                 end
        | EmptyString => [String c EmptyString]
        end
  end.

(** Every character of [s] is in the class. *)
Fixpoint all_in (class : ascii -> bool) (s : string) : bool :=
  match s with
  | EmptyString => true
  | String c s' => class c && all_in class s'
  end.

(** [s] starts with a character of the class. *)
Definition starts_in (class : ascii -> bool) (s : string) : bool :=
  match s with
  | EmptyString => false
  | String c _ => class c
  end.

(** [s.isdigit()] *)
Definition isdigit (s : string) : bool :=
  negb (String.eqb s "") && all_in isdigit_char s.

(** The number a string of decimal digits writes. *)
Fixpoint digits_value (acc : Z) (s : string) : Z :=
  match s with
  | EmptyString => acc
  | String c s' => digits_value (10 * acc + (Z.of_nat (nat_of_ascii c) - 48)) s'
  end.

(** [bool(v)] for the values a configuration holds. *)
Definition truthy (v : pyvalue) : bool :=
  match v with
  | PNone => false
  | PBool b => b
  | PInt z => negb (Z.eqb z 0)
  | PStr s => negb (String.eqb s "")
  | PList l | PTuple l => match l with [] => false | _ :: _ => true end
  | PDict d => match d with [] => false | _ :: _ => true end
  | PObject _ => true
  end.

(** The value a dict holds under a string key. *)
Fixpoint lookup (key : string) (d : list (pykey * pyvalue)) : option pyvalue :=
  match d with
  | [] => None
  | (KStr k, v) :: d' => if String.eqb k key then Some v else lookup key d'
  | _ :: d' => lookup key d'
  end.

(** A dict literal with string keys. *)
Definition dict_of (items : list (string * pyvalue)) : pyvalue :=
  PDict (map (fun kv => (KStr (fst kv), snd kv)) items).

(** [len(l)], [str(n)] *)
Definition len {A : Type} (l : list A) : pyvalue := PInt (Z.of_nat (List.length l)).

(** An exception below [Exception], as the checks meet them: the name of
    its class and [str(e)]. *)
Record exception : Type := { class : string; str : string }.

Inductive result (A : Type) : Type :=
| Ok (a : A)
| Raise (e : exception).
Arguments Ok {A} a.
Arguments Raise {A} e.

(** A computation of a check: the lines it prints, then the value it
    returns or the exception it raises. *)
Definition C (A : Type) : Type := list string * result A.

Definition ret {A : Type} (a : A) : C A := ([], Ok a).

Definition raise {A : Type} (cls msg : string) : C A :=
  ([], Raise {| class := cls; str := msg |}).

Definition print (line : string) : C unit := ([line], Ok tt).

Definition bind {A B : Type} (c : C A) (k : A -> C B) : C B :=
  match c with
  | (out, Ok a) => let (out', r) := k a in (out ++ out', r)
  | (out, Raise e) => (out, Raise e)
  end.

(** [try: body / except ...: handler] *)
Definition try {A : Type} (body : C A) (handler : exception -> C A) : C A :=
  match body with
  | (out, Ok a) => (out, Ok a)
  | (out, Raise e) => let (out', r) := handler e in (out ++ out', r)
  end.

(** A call of the operating system or of a library: it returns or raises. *)
Definition call {A : Type} (r : result A) : C A := ([], r).

(** The lines a computation prints, and how it ends. *)
Definition printed {A : Type} (c : C A) : list string := fst c.

Definition returned {A : Type} (c : C A) : result A := snd c.

Declare Scope check_scope.
Delimit Scope check_scope with check.
Notation "x <- c ;; k" := (bind c (fun x => k))
  (at level 61, c at next level, right associativity) : check_scope.
Notation "c ;; k" := (bind c (fun _ => k))
  (at level 61, right associativity) : check_scope.

(** [params.get(key, default)]: only a dict has the method. *)
Definition params_get (params : pyvalue) (key : string) (default : pyvalue)
  : C pyvalue :=
  match params with
  | PDict d => ret (get (lookup key d) default)
  | v => raise "AttributeError"
           ("'" ++ type_name v ++ "' object has no attribute 'get'")
  end.

(** What the framework makes of a call of [run]: [except Exception as e]
    keeps [str(e)]. *)
Definition as_outcome (c : C pyvalue) : outcome :=
  match snd c with
  | Ok v => Returns v
  | Raise e => Raises (str e)
  end.

(** A check file, as the module the loader gets from it under a name. *)
Definition as_module (name : string) (run : pyvalue -> C pyvalue) : pymodule :=
  {| mod_name := Some name;
     attr_run := Some (Function (fun params => as_outcome (run params))) |}.

(** [subprocess.CompletedProcess], output captured as text. *)
Record CompletedProcess : Type := {
  returncode : Z;
  stdout : string;
  stderr : string
}.

(** The machine a check runs on. *)
Record System : Type := {
  (** [subprocess.run(args, capture_output=True, text=True, timeout=...)] *)
  subprocess_run : list string -> result CompletedProcess;
  (** whether [shutil.which(cmd)] finds the command *)
  shutil_which : string -> bool;
  os_listdir : string -> result (list string);
  (** [os.stat(path)]: [st_mode] and [st_uid], or the [OSError] it raises *)
  os_stat : string -> result (Z * Z);
  (** [pwd.getpwuid(uid).pw_name], [None] for [KeyError] *)
  pwd_getpwuid : Z -> option string;
  (** [stat.filemode(mode)] *)
  stat_filemode : Z -> string;
  (** [int(s)] on a string of digits: the message of the [ValueError] the
      interpreter raises when it refuses the string for its length
      ([sys.get_int_max_str_digits]) *)
  int_limit : string -> option string;
  (** the message of the [TypeError] of [re.match(pattern, v)] for a [v] of
      the named type, which is not a string *)
  re_type_error : string -> string
}.

(** [os.path.exists(path)]: [os.stat] with its error swallowed. *)
Definition os_path_exists (sys : System) (path : string) : bool :=
  match os_stat sys path with
  | Ok _ => true
  | Raise _ => false
  end.

(** [stat.S_ISDIR(mode)] *)
Definition S_ISDIR (mode : Z) : bool := Z.eqb (Z.land mode 61440) 16384.

(** [os.path.isdir(path)]: [os.stat] with its error swallowed, and the
    test of the mode. *)
Definition os_path_isdir (sys : System) (path : string) : bool :=
  match os_stat sys path with
  | Ok (mode, _) => S_ISDIR mode
  | Raise _ => false
  end.

(** [int(s)] for [s] made of digits. *)
Definition int (sys : System) (s : string) : C Z :=
  match int_limit sys s with
  | Some msg => raise "ValueError" msg
  | None => ret (digits_value 0 s)
  end.

(** [d[key] = v] on a dict: the value under an existing key is replaced
    where it is, a new key goes to the end. *)
Fixpoint set_pair (key : string) (v : pyvalue) (d : list (pykey * pyvalue))
  : list (pykey * pyvalue) :=
  match d with
  | [] => [(KStr key, v)]
  | (KStr k, w) :: d' =>
      if String.eqb k key then (KStr k, v) :: d'
      else (KStr k, w) :: set_pair key v d'
  | kw :: d' => kw :: set_pair key v d'
  end.

Definition set_item (key : string) (v : pyvalue) (d : pyvalue) : pyvalue :=
  match d with
  | PDict items => PDict (set_pair key v items)
  | _ => d
  end.

(** [n >= v] for an [int] [n]: a number is compared, a boolean counts as 0
    or 1, any other value of a configuration raises [TypeError]. *)
Definition ge (n : nat) (v : pyvalue) : C bool :=
  match v with
  | PInt z => ret (Z.leb z (Z.of_nat n))
  | PBool b => ret (Z.leb (if b then 1 else 0) (Z.of_nat n))
  | _ => raise "TypeError"
           ("'>=' not supported between instances of 'int' and '"
              ++ type_name v ++ "'")
  end.

(** [[f(x) for x in l]] *)
Fixpoint for_list {A B : Type} (f : A -> C B) (l : list A) : C (list B) :=
  match l with
  | [] => ret []
  | x :: l' =>
      bind (f x) (fun y => bind (for_list f l') (fun ys => ret (y :: ys)))
  end.

End Py.

(** ** Regular expressions *)

Module re.

(** The patterns the checks use: literal text, a class of characters
    repeated at least [least] times, an optional part, a numbered group and
    one pattern after the other.  Repetition and option are greedy. *)
Inductive regex : Type :=
| Lit (s : string)
| Many (class : ascii -> bool) (least : nat)
| Opt (r : regex)
| Group (i : nat) (r : regex)
| Seq (r1 r2 : regex).

(** The text of each group that took part in the match. *)
Definition groups : Type := list (nat * string).

Fixpoint after_prefix (p s : string) : option string :=
  match p, s with
  | EmptyString, _ => Some s
  | String a p', String b s' => if Ascii.eqb a b then after_prefix p' s' else None
  | String _ _, EmptyString => None
  end.

(** The longest run first, then the shorter ones. *)
Fixpoint many {R : Type} (class : ascii -> bool) (s : string) (n : nat)
         (k : nat -> string -> option R) : option R :=
  match s with
  | String c s' =>
      if class c then
        match many class s' (S n) k with
        | Some r => Some r
        | None => k n s
        end
      else k n s
  | EmptyString => k n s
  end.

(** What of [s] was read when [rest] is left. *)
Definition consumed (s rest : string) : string :=
  substring 0 (String.length s - String.length rest) s.

Fixpoint set_group (i : nat) (text : string) (gs : groups) : groups :=
  match gs with
  | [] => [(i, text)]
  | (j, t) :: gs' =>
      if Nat.eqb i j then (i, text) :: gs' else (j, t) :: set_group i text gs'
  end.

(** Matching by backtracking: [k] is what remains to be matched. *)
Fixpoint run (r : regex) (s : string) (gs : groups)
         (k : string -> groups -> option groups) : option groups :=
  match r with
  | Lit l =>
      match after_prefix l s with
      | Some rest => k rest gs
      | None => None
      end
  | Many class least =>
      many class s 0 (fun n rest => if Nat.leb least n then k rest gs else None)
  | Opt r' =>
      match run r' s gs k with
      | Some gs' => Some gs'
      | None => k s gs
      end
  | Group i r' =>
      run r' s gs (fun rest gs' => k rest (set_group i (consumed s rest) gs'))
  | Seq r1 r2 => run r1 s gs (fun rest gs' => run r2 rest gs' k)
  end.

(** [re.match(r, s)] *)
Definition match_ (r : regex) (s : string) : option groups :=
  run r s [] (fun _ gs => Some gs).

(** [m.group(i)], [None] for a group that took no part. *)
Fixpoint group (m : groups) (i : nat) : option string :=
  match m with
  | [] => None
  | (j, t) :: m' => if Nat.eqb i j then Some t else group m' i
  end.

(** Concatenation of patterns. *)
Fixpoint seq (rs : list regex) : regex :=
  match rs with
  | [] => Lit EmptyString
  | [r] => r
  | r :: rs' => Seq r (seq rs')
  end.

End re.

(** ** [tests/example.py] *)

Module example.

Import Py.
Local Open Scope check_scope.

(** [def run(params=None)] *)
Definition run (params : pyvalue) : C pyvalue :=
  let params := match params with PNone => PDict [] | v => v end in
  verbose <- params_get params "verbose" (PBool false) ;;
  print "Starting example test..." ;;
  (if truthy verbose then
     print "Verbose mode enabled" ;;
     print "Collecting information..."
   else ret tt) ;;
  print "Example test executed successfully!" ;;
  print "Enumerating data..." ;;
  print "Beep Boop..." ;;
  ret (dict_of
         [("test_name", PStr "Example Test");
          ("status", PStr "completed");
          ("findings", PList [PStr "This is an example finding";
                              PStr "structured data goes here";
                              PStr "The framework will save it to JSON"]);
          ("verbose_mode", verbose)]).

End example.

(** ** [tests/kernelCheck.py] *)

Module kernelCheck.

Import Py.
Local Open Scope check_scope.

(** [(\d+)\.(\d+)\.(\d+)] *)
Definition version_pattern : re.regex :=
  re.seq [re.Group 1 (re.Many isdigit_char 1); re.Lit ".";
          re.Group 2 (re.Many isdigit_char 1); re.Lit ".";
          re.Group 3 (re.Many isdigit_char 1)].

(** [m.groups()], the three groups taking part in every match. *)
Definition groups (m : re.groups) : list string :=
  map (fun i => get (re.group m i) "") [1; 2; 3].

Fixpoint compare_versions (version1 version2 : list Z) : Z :=
  match version1, version2 with
  | v1 :: version1', v2 :: version2' =>
      if Z.ltb v1 v2 then (-1)%Z
      else if Z.gtb v1 v2 then 1%Z
      else compare_versions version1' version2'
  | _, _ => 0%Z
  end.

Section Run.

Variable sys : System.

Definition run (params : pyvalue) : C pyvalue :=
  print "Spúšťam test verzie jadra..." ;;
  min_kernel_version <- params_get params "min_kernel_version" (PStr "5.4.0") ;;
  try
    (result <- call (subprocess_run sys ["uname"; "-r"]) ;;
     if negb (Z.eqb (returncode result) 0) then
       ret (dict_of [("status", PStr "ERROR");
                     ("message", PStr "Nepodarilo sa získať verziu jadra");
                     ("error", PStr (strip (stderr result)))])
     else
       let kernel_version := strip (stdout result) in
       print ("[+] Aktuálna verzia jadra: " ++ kernel_version) ;;
       match re.match_ version_pattern kernel_version with
       | None =>
           ret (dict_of [("status", PStr "ERROR");
                         ("message", PStr "Nepodarilo sa extrahovať verziu jadra");
                         ("kernel_version", PStr kernel_version)])
       | Some version_match =>
           current_version_parts <- for_list (int sys) (groups version_match) ;;
           match min_kernel_version with
           | PStr min_text =>
               match re.match_ version_pattern min_text with
               | None =>
                   ret (dict_of [("status", PStr "ERROR");
                                 ("message", PStr "Neplatný formát minimálnej verzie jadra");
                                 ("min_kernel_version", min_kernel_version)])
               | Some min_version_match =>
                   min_version_parts <- for_list (int sys) (groups min_version_match) ;;
                   let is_outdated :=
                     Z.ltb (compare_versions current_version_parts min_version_parts) 0 in
                   if is_outdated then
                     ret (dict_of
                            [("status", PStr "WARNING");
                             ("message", PStr "Systém používa zastaranú verziu jadra");
                             ("kernel_version", PStr kernel_version);
                             ("min_recommended_version", min_kernel_version);
                             ("recommendation",
                              PStr ("Odporúča sa aktualizácia jadra na verziu "
                                      ++ min_text ++ " alebo novšiu"));
                             ("risk", PStr "Potenciálne bezpečnostné riziko - zastaraný komponent systému");
                             ("severity", PStr "MEDIUM")])
                   else
                     ret (dict_of
                            [("status", PStr "OK");
                             ("message", PStr "Verzia jadra je aktuálna");
                             ("kernel_version", PStr kernel_version);
                             ("min_recommended_version", min_kernel_version)])
               end
           | v => raise "TypeError" (re_type_error sys (type_name v))
           end
       end)
    (fun e =>
       if String.eqb (class e) "TimeoutExpired" then
         ret (dict_of [("status", PStr "ERROR");
                       ("message", PStr "Timeout pri vykonávaní príkazu uname");
                       ("error", PStr "Príkaz trval príliš dlho")])
       else if String.eqb (class e) "FileNotFoundError" then
         ret (dict_of [("status", PStr "ERROR");
                       ("message", PStr "Príkaz uname nebol nájdený");
                       ("error", PStr "System neobsahuje príkaz uname")])
       else
         ret (dict_of [("status", PStr "ERROR");
                       ("message", PStr "Neočakávaná chyba pri teste verzie jadra");
                       ("error", PStr (str e))])).

End Run.

End kernelCheck.

(** ** [tests/permissionsCheck.py] *)

Module permissionsCheck.

Import Py.
Local Open Scope check_scope.

Definition S_IROTH : Z := 4.
Definition S_IWOTH : Z := 2.
Definition S_IXOTH : Z := 1.
Definition S_IWGRP : Z := 16.

(** [stat.S_IMODE(mode)] *)
Definition S_IMODE (mode : Z) : Z := Z.land mode 4095.

(** [bool(mode & bit)] *)
Definition has (mode bit : Z) : bool := negb (Z.eqb (Z.land mode bit) 0).

Definition octal_digit (n : Z) : string :=
  String (ascii_of_nat (48 + Z.to_nat n)) EmptyString.

Fixpoint octal_digits (fuel : nat) (n : Z) : string :=
  match fuel with
  | O => EmptyString
  | S fuel' =>
      if Z.ltb n 8 then octal_digit n
      else octal_digits fuel' (n / 8) ++ octal_digit (n mod 8)
  end.

(** [oct(n)[2:]] for [n >= 0] *)
Definition oct_tail (n : Z) : string := octal_digits (S (Z.to_nat (Z.log2 n))) n.

(** The C library's [isspace], which [int] skips. *)
Definition c_isspace (c : ascii) : bool :=
  let n := nat_of_ascii c in (Nat.leb 9 n && Nat.leb n 13) || Nat.eqb n 32.

Fixpoint skip_spaces (s : string) : string :=
  match s with
  | String c s' => if c_isspace c then skip_spaces s' else s
  | EmptyString => EmptyString
  end.

Definition isoctal (c : ascii) : bool :=
  let n := nat_of_ascii c in Nat.leb 48 n && Nat.leb n 55.

(** Octal digits, single underscores between them: the value, the number
    of digits and what follows. *)
Fixpoint scan_octal (s : string) (after_underscore : bool) (acc : Z) (digits : nat)
  : option (Z * nat * string) :=
  match s with
  | String c s' =>
      if isoctal c then
        scan_octal s' false (8 * acc + (Z.of_nat (nat_of_ascii c) - 48)) (S digits)
      else if Ascii.eqb c "_" then
        if after_underscore then None else scan_octal s' true acc digits
      else if after_underscore then None else Some (acc, digits, s)
  | EmptyString => if after_underscore then None else Some (acc, digits, s)
  end.

(** The text [int(s, 8)] accepts: spaces, a sign, [0o] or [0O], digits,
    spaces. *)
Definition parse_octal (s : string) : option Z :=
  let s := skip_spaces s in
  let (sign, s) :=
    match s with
    | String "+" s' => (1%Z, s')
    | String "-" s' => ((-1)%Z, s')
    | _ => (1%Z, s)
    end in
  let s :=
    match s with
    | String "0" (String o s') =>
        if Ascii.eqb o "o" || Ascii.eqb o "O" then
          match s' with
          | String "_" s'' => s''
          | _ => s'
          end
        else s
    | _ => s
    end in
  match s with
  | String "_" _ => None
  | _ =>
      match scan_octal s false 0 0 with
      | Some (v, S _, rest) =>
          match skip_spaces rest with
          | EmptyString => Some (sign * v)%Z
          | _ => None
          end
      | _ => None
      end
  end.

(** The dict [check_directory_permissions] builds, a key it lacks being
    [None]. *)
Record DirectoryReport : Type := {
  path : string;
  is_insecure : bool;
  issues : list string;
  permissions_octal : option string;
  permissions_symbolic : option string;
  owner : option string;
  error : option string
}.

(** [result['is_insecure'] = True; result['issues'].append(issue)] *)
Definition flag (issue : string) (r : DirectoryReport) : DirectoryReport :=
  {| path := path r; is_insecure := true; issues := issues r ++ [issue];
     permissions_octal := permissions_octal r;
     permissions_symbolic := permissions_symbolic r;
     owner := owner r; error := error r |}.

(** [if test: result['is_insecure'] = True; result['issues'].append(issue)] *)
Definition flag_if (test : bool) (issue : string) (r : DirectoryReport)
  : DirectoryReport :=
  if test then flag issue r else r.

(** The two [except] clauses of [check_directory_permissions]. *)
Definition on_exception (e : exception) (r : DirectoryReport) : DirectoryReport :=
  if String.eqb (class e) "PermissionError" then
    {| path := path r; is_insecure := false; issues := issues r;
       permissions_octal := permissions_octal r;
       permissions_symbolic := permissions_symbolic r; owner := owner r;
       error := Some "Nedostatočné oprávnenia na kontrolu tohto adresára" |}
  else
    {| path := path r; is_insecure := is_insecure r; issues := issues r;
       permissions_octal := permissions_octal r;
       permissions_symbolic := permissions_symbolic r; owner := owner r;
       error := Some (str e) |}.

(** [get_recommended_permissions] *)
Definition get_recommended_permissions (current_permissions : string) : string :=
  if existsb (String.eqb current_permissions)
       ["777"; "775"; "755"; "774"; "773"; "771"; "770"] then "750"
  else if existsb (String.eqb current_permissions) ["700"; "750"] then
    current_permissions
  else "750".

Section Run.

Variable sys : System.

(** [repr(s)], which the message of [int]'s [ValueError] quotes. *)
Variable repr : string -> string.

(** [int(v, 8)] *)
Definition int8 (v : pyvalue) : result Z :=
  match v with
  | PStr s =>
      match parse_octal s with
      | Some z => Ok z
      | None =>
          Raise {| class := "ValueError";
                   str := "invalid literal for int() with base 8: " ++ repr s |}
      end
  | _ =>
      Raise {| class := "TypeError";
               str := "int() can't convert non-string with explicit base" |}
  end.

Definition check_directory_permissions
           (dir_path : string)
           (check_world_readable check_world_writable check_group_writable
              max_permissions : pyvalue) : DirectoryReport :=
  let result :=
    {| path := dir_path; is_insecure := false; issues := [];
       permissions_octal := None; permissions_symbolic := None;
       owner := None; error := None |} in
  match os_stat sys dir_path with
  | Raise e => on_exception e result
  | Ok (mode, st_uid) =>
      let octal := oct_tail (S_IMODE mode) in
      let result :=
        {| path := dir_path; is_insecure := false; issues := [];
           permissions_octal := Some octal;
           permissions_symbolic := Some (stat_filemode sys mode);
           owner := Some match pwd_getpwuid sys st_uid with
                         | Some pw_name => pw_name
                         | None => ("UID:" ++ str_of_Z st_uid)%string
                         end;
           error := None |} in
      let result :=
        flag_if (truthy check_world_readable && has mode S_IROTH)
          "Adresár je čitateľný pre všetkých používateľov (other readable)" result in
      let result :=
        flag_if (truthy check_world_writable && has mode S_IWOTH)
          "Adresár je zapisovateľný pre všetkých používateľov (other writable) - KRITICKÉ!"
          result in
      let result :=
        flag_if (has mode S_IXOTH && (has mode S_IROTH || has mode S_IWOTH))
          "Ostatní používatelia majú prístup do adresára (other executable)" result in
      let result :=
        flag_if (truthy check_group_writable && has mode S_IWGRP)
          "Skupina má právo zápisu do adresára (group writable)" result in
      match int8 (PStr octal) with
      | Raise e => on_exception e result
      | Ok permissions_int =>
          match int8 max_permissions with
          | Raise e => on_exception e result
          | Ok max_permissions_int =>
              let result :=
                flag_if (Z.gtb permissions_int max_permissions_int)
                  ("Oprávnenia (" ++ octal
                     ++ ") presahujú maximálnu odporúčanú hodnotu ("
                     ++ match max_permissions with PStr s => s | _ => "" end
                     ++ ")") result in
              flag_if (String.eqb octal "777")
                "KRITICKÉ: Adresár má úplne otvorené oprávnenia (777) - prístupný pre všetkých!"
                result
          end
      end
  end.

(** [result['permissions_octal']] *)
Definition item_permissions_octal (r : DirectoryReport) : C string :=
  match permissions_octal r with
  | Some octal => ret octal
  | None => raise "KeyError" "'permissions_octal'"
  end.

(** [dir_info.get('owner', 'unknown')] *)
Definition get_owner (r : DirectoryReport) : pyvalue :=
  PStr (get (owner r) "unknown").

(** The loop of [run] over the home directories: the insecure ones and the
    secure ones, in the order they are met. *)
Fixpoint check_each (home_dirs : list string)
         (check_world_readable check_world_writable check_group_writable
            max_permissions : pyvalue)
         (insecure_dirs secure_dirs : list DirectoryReport)
  : C (list DirectoryReport * list DirectoryReport) :=
  match home_dirs with
  | [] => ret (insecure_dirs, secure_dirs)
  | home_dir :: home_dirs' =>
      let result :=
        check_directory_permissions home_dir check_world_readable
          check_world_writable check_group_writable max_permissions in
      if is_insecure result then
        octal <- item_permissions_octal result ;;
        print ("Nebezpečné oprávnenia: " ++ home_dir ++ " - " ++ octal) ;;
        check_each home_dirs' check_world_readable check_world_writable
          check_group_writable max_permissions (insecure_dirs ++ [result]) secure_dirs
      else
        octal <- item_permissions_octal result ;;
        print ("Bezpečné oprávnenia: " ++ home_dir ++ " - " ++ octal) ;;
        check_each home_dirs' check_world_readable check_world_writable
          check_group_writable max_permissions insecure_dirs (secure_dirs ++ [result])
  end.

(** The entries of the directory that are directories themselves. *)
Definition home_dirs_of (home_base_dir : string) (entries : list string) : list string :=
  filter (os_path_isdir sys) (map (os_path_join home_base_dir) entries).

(** What the [try] block of [run] prints and returns for a [home_directory]
    that is not a string.  It returns: the block catches every exception. *)
Variable other_home : pyvalue -> list string * pyvalue.

Definition run (params : pyvalue) : C pyvalue :=
  print "Spúšťam test prístupových práv v domovských adresároch..." ;;
  home_directory <- params_get params "home_directory" (PStr "/home") ;;
  check_world_readable <- params_get params "check_world_readable" (PBool true) ;;
  check_world_writable <- params_get params "check_world_writable" (PBool true) ;;
  check_group_writable <- params_get params "check_group_writable" (PBool true) ;;
  max_permissions <- params_get params "max_permissions" (PStr "755") ;;
  match home_directory with
  | PStr home_base_dir =>
      try
        (if negb (os_path_exists sys home_base_dir) then
           ret (dict_of
                  [("status", PStr "ERROR");
                   ("message", PStr ("Adresár " ++ home_base_dir ++ " neexistuje"));
                   ("error", PStr "Nemožno kontrolovať domovské adresáre")])
         else
           (* [try: for entry in os.listdir(...): ... / except PermissionError:] *)
           match os_listdir sys home_base_dir with
           | Raise e =>
               if String.eqb (class e) "PermissionError" then
                 ret (dict_of
                        [("status", PStr "ERROR");
                         ("message",
                          PStr ("Nedostatočné oprávnenia na čítanie " ++ home_base_dir));
                         ("error", PStr "Spustite test s dostatočnými oprávneniami");
                         ("recommendation", PStr "Spustite skript s sudo oprávneniami")])
               else (nil, Raise e)
           | Ok entries =>
           match home_dirs_of home_base_dir entries with
           | [] =>
               ret (dict_of
                      [("status", PStr "WARNING");
                       ("message",
                        PStr ("Nenájdené žiadne domovské adresáre v " ++ home_base_dir));
                       ("home_directory", home_directory)])
           | home_dirs =>
               print ("Nájdených " ++ str_of_nat (List.length home_dirs)
                        ++ " domovských adresárov") ;;
               checked <- check_each home_dirs check_world_readable check_world_writable
                            check_group_writable max_permissions [] [] ;;
               let (insecure_dirs, secure_dirs) := checked in
               match insecure_dirs with
               | first :: _ =>
                   issues_summary <-
                     for_list
                       (fun dir_info =>
                          octal <- item_permissions_octal dir_info ;;
                          ret (dict_of
                                 [("path", PStr (path dir_info));
                                  ("permissions", PStr octal);
                                  ("issues", PList (map PStr (issues dir_info)));
                                  ("owner", get_owner dir_info)])) insecure_dirs ;;
                   ret (dict_of
                          [("status", PStr "FAIL");
                           ("message",
                            PStr ("Zistené nebezpečné prístupové práva v "
                                    ++ str_of_nat (List.length insecure_dirs)
                                    ++ " domovských adresároch"));
                           ("insecure_directories_count", len insecure_dirs);
                           ("secure_directories_count", len secure_dirs);
                           ("insecure_directories", PList issues_summary);
                           ("security_risk",
                            PStr "Príliš permisívne nastavenia môžu viesť k prístupu neoprávnených používateľov k súkromným dátam");
                           ("severity", PStr "HIGH");
                           ("recommendation",
                            PStr "Upravte prístupové práva domovských adresárov na bezpečné hodnoty (napr. 750 alebo 700)");
                           ("commands",
                            PList [PStr ("sudo chmod 750 " ++ path first);
                                   PStr "sudo chmod 750 /home/*";
                                   PStr "sudo chmod 700 /home/username"]);
                           ("impact",
                            PStr "Nedostatky v prístupových právach môžu umožniť neautorizovaný prístup k súkromným dátam používateľov")])
               | [] =>
                   secure_directories <-
                     for_list
                       (fun d =>
                          octal <- item_permissions_octal d ;;
                          ret (dict_of
                                 [("path", PStr (path d));
                                  ("permissions", PStr octal);
                                  ("owner", get_owner d)])) secure_dirs ;;
                   ret (dict_of
                          [("status", PStr "PASS");
                           ("message",
                            PStr "Všetky domovské adresáre mají bezpečné prístupové práva");
                           ("checked_directories_count", len home_dirs);
                           ("secure_directories", PList secure_directories);
                           ("severity", PStr "INFO")])
               end
           end
           end)
        (fun e =>
           ret (dict_of
                  [("status", PStr "ERROR");
                   ("message", PStr "Neočakávaná chyba pri kontrole prístupových práv");
                   ("error", PStr (str e))]))
  | v => (fst (other_home v), Ok (snd (other_home v)))
  end.

End Run.

End permissionsCheck.

(** ** [tests/firewallCheck.py] *)

Module firewallCheck.

Import Py.
Local Open Scope check_scope.

(** ['---' in line or 'To' in line and 'Action' in line] *)
Definition is_header (line : string) : bool :=
  contains "---" line || (contains "To" line && contains "Action" line).

(** The dict [extract_firewall_rules] makes of a line. *)
Definition rule_of (line : string) : pyvalue :=
  dict_of [("raw", PStr (strip line));
           ("service", PStr match split line with
                            | part :: _ => part
                            | [] => "unknown"
                            end)].

(** The lines that follow the first header. *)
Fixpoint after_header (lines : list string) : list string :=
  match lines with
  | [] => []
  | line :: lines' => if is_header line then lines' else after_header lines'
  end.

(** The loop of [extract_firewall_rules]. *)
Fixpoint rules_from (in_rules_section : bool) (lines : list string) : list pyvalue :=
  match lines with
  | [] => []
  | line :: lines' =>
      if is_header line then
        rules_from true lines'
      else if in_rules_section && negb (String.eqb (strip line) "") then
        let parts := split line in
        if Nat.leb 2 (List.length parts) then
          rule_of line :: rules_from in_rules_section lines'
        else rules_from in_rules_section lines'
      else rules_from in_rules_section lines'
  end.

Definition extract_firewall_rules (output : string) : list pyvalue :=
  rules_from false (lines output).

Section Run.

Variable sys : System.

Definition run (params : pyvalue) : C pyvalue :=
  print "Spúšťam test stavu firewallu..." ;;
  check_rules <- params_get params "check_rules" (PBool false) ;;
  require_active <- params_get params "require_active" (PBool true) ;;
  try
    (ufw_check <- call (subprocess_run sys ["which"; "ufw"]) ;;
     if negb (Z.eqb (returncode ufw_check) 0) then
       ret (dict_of
              [("status", PStr "ERROR");
               ("message", PStr "UFW firewall nie je nainštalovaný");
               ("error", PStr "Nástroj ufw nebol nájdený v systéme");
               ("recommendation", PStr "Nainštalujte ufw pomocou: sudo apt install ufw");
               ("severity", PStr "HIGH")])
     else
       result <- call (subprocess_run sys ["sudo"; "ufw"; "status"]) ;;
       if negb (Z.eqb (returncode result) 0) then
         ret (dict_of
                [("status", PStr "ERROR");
                 ("message", PStr "Nepodarilo sa získať stav firewallu");
                 ("error", PStr (strip (stderr result)));
                 ("note", PStr "Možno je potrebné spustiť skript s sudo oprávneniami")])
       else
         let output := strip (stdout result) in
         print ("Výstup ufw status:" ++ nl ++ output) ;;
         let is_active :=
           contains "Status: active" (lower output)
           || contains "stav: aktívny" (lower output) in
         let rules :=
           if is_active && truthy check_rules then extract_firewall_rules output
           else [] in
         if negb is_active && truthy require_active then
           ret (dict_of
                  [("status", PStr "FAIL");
                   ("message", PStr "Firewall nie je aktivovaný");
                   ("firewall_status", PStr "inactive");
                   ("security_risk",
                    PStr "Systém je zraniteľný voči neoprávneným sieťovým prístupom");
                   ("recommendation",
                    PStr "Aktivujte firewall a definujte základné pravidlá prístupu");
                   ("commands",
                    PList [PStr "sudo ufw default deny incoming";
                           PStr "sudo ufw default allow outgoing";
                           PStr "sudo ufw allow ssh";
                           PStr "sudo ufw enable"]);
                   ("severity", PStr "HIGH");
                   ("impact",
                    PStr "Chýbajúca základná ochrana sieťovej vrstvy - častá zraniteľnosť v predvolených inštaláciách Ubuntu")])
         else if is_active then
           let result_data :=
             dict_of [("status", PStr "PASS");
                      ("message", PStr "Firewall je aktívny");
                      ("firewall_status", PStr "active");
                      ("severity", PStr "INFO")] in
           let result_data :=
             if truthy check_rules && truthy (PList rules) then
               let result_data := set_item "active_rules" (PList rules) result_data in
               let result_data := set_item "rules_count" (len rules) result_data in
               if Nat.eqb (List.length rules) 0 then
                 set_item "recommendation"
                   (PStr "Definujte pravidlá firewallu pre potrebné služby")
                   (set_item "message"
                      (PStr "Firewall je aktívny, ale nie sú definované žiadne pravidlá")
                      (set_item "status" (PStr "WARNING") result_data))
               else result_data
             else result_data in
           ret result_data
         else
           ret (dict_of
                  [("status", PStr "WARNING");
                   ("message", PStr "Nepodarilo sa jednoznačne určiť stav firewallu");
                   ("firewall_output", PStr output);
                   ("recommendation",
                    PStr "Manuálne overte stav firewallu pomocou: sudo ufw status verbose")]))
    (fun e =>
       if String.eqb (class e) "TimeoutExpired" then
         ret (dict_of [("status", PStr "ERROR");
                       ("message", PStr "Timeout pri vykonávaní príkazu ufw");
                       ("error", PStr "Príkaz trval príliš dlho")])
       else if String.eqb (class e) "PermissionError" then
         ret (dict_of
                [("status", PStr "ERROR");
                 ("message", PStr "Nedostatočné oprávnenia");
                 ("error", PStr "Pre kontrolu stavu firewallu sú potrebné sudo oprávnenia");
                 ("recommendation", PStr "Spustite skript s sudo oprávneniami")])
       else if String.eqb (class e) "FileNotFoundError" then
         ret (dict_of [("status", PStr "ERROR");
                       ("message", PStr "Príkaz ufw alebo sudo nebol nájdený");
                       ("error", PStr "Systém neobsahuje potrebné nástroje")])
       else
         ret (dict_of [("status", PStr "ERROR");
                       ("message", PStr "Neočakávaná chyba pri teste firewallu");
                       ("error", PStr (str e))])).

Definition check_ufw_without_sudo (params : pyvalue) : C pyvalue :=
  try
    (result <- call (subprocess_run sys ["ufw"; "status"]) ;;
     if contains "must be root" (lower (stderr result))
        || contains "permission denied" (lower (stderr result)) then
       ret (dict_of
              [("status", PStr "WARNING");
               ("message",
                PStr "Nie je možné overiť stav firewallu bez sudo oprávnení");
               ("ufw_installed", PBool true);
               ("recommendation",
                PStr "Spustite test s sudo oprávneniami pre úplnú kontrolu")])
     else ret PNone)
    (fun _ => ret PNone).

End Run.

End firewallCheck.

(** ** [tests/securityUpdatesCheck.py] *)

Module securityUpdatesCheck.

Import Py.
Local Open Scope check_scope.

Definition not_space (c : ascii) : bool := negb (isspace c).

(** The pattern of [parse_upgradable_packages], its parts set apart:
    ^ ( [^\s/]+ ) /? ( [^\s]* ) \s+ ( [^\s]+ ) \s+ ( [^\s]+ ) \s*
    (?: \[upgradable from: \s* ( [^\]]+ ) \] )? *)
Definition package_pattern : re.regex :=
  re.seq
    [re.Group 1 (re.Many (fun c => not_space c && negb (Ascii.eqb c "/")) 1);
     re.Opt (re.Lit "/");
     re.Group 2 (re.Many not_space 0);
     re.Many isspace 1;
     re.Group 3 (re.Many not_space 1);
     re.Many isspace 1;
     re.Group 4 (re.Many not_space 1);
     re.Many isspace 0;
     re.Opt (re.seq [re.Lit "[upgradable from:";
                     re.Many isspace 0;
                     re.Group 5 (re.Many (fun c => negb (Ascii.eqb c "]")) 1);
                     re.Lit "]"])].

(** [m.group(i) if m.group(i) else 'unknown'] *)
Definition group_or_unknown (m : re.groups) (i : nat) : string :=
  match re.group m i with
  | Some text => if String.eqb text "" then "unknown" else text
  | None => "unknown"
  end.

(** The body of the loop of [parse_upgradable_packages]: the packages a
    line adds. *)
Definition parse_line (line : string) : list pyvalue :=
  if contains "Listing..." line || String.eqb (strip line) "" then []
  else
    match re.match_ package_pattern line with
    | Some m =>
        [dict_of [("name", PStr (get (re.group m 1) ""));
                  ("suite", PStr (group_or_unknown m 2));
                  ("current_version", PStr (group_or_unknown m 5));
                  ("available_version", PStr (get (re.group m 3) ""));
                  ("architecture", PStr (get (re.group m 4) ""))]]
    | None =>
        match split line with
        | part :: _ =>
            [dict_of [("name", PStr (hd "" (split_on "/" part)));
                      ("raw", PStr (strip line))]]
        | [] => []
        end
    end.

Definition parse_upgradable_packages (output : string) : list pyvalue :=
  flat_map parse_line (lines output).

(** The loop of [check_security_updates]: the second word of every line
    that holds [security], in any case, and [Inst]. *)
Definition security_packages (output : string) : list string :=
  flat_map
    (fun line =>
       if contains "security" (lower line) && contains "Inst" line then
         match split line with
         | _ :: package :: _ => [package]
         | _ => []
         end
       else [])
    (lines output).

Section Run.

Variable sys : System.

Definition check_security_updates : C (list string) :=
  try
    (result <- call (subprocess_run sys ["apt-get"; "--just-print"; "upgrade"]) ;;
     if Z.eqb (returncode result) 0 then ret (security_packages (stdout result))
     else ret [])
    (fun e =>
       print ("Chyba pri kontrole bezpečnostných aktualizácií: " ++ str e) ;;
       ret []).

Definition run (params : pyvalue) : C pyvalue :=
  print "Spúšťam test dostupných aktualizácií..." ;;
  max_updates_warning <- params_get params "max_updates_warning" (PInt 10) ;;
  max_updates_critical <- params_get params "max_updates_critical" (PInt 50) ;;
  check_security_only <- params_get params "check_security_only" (PBool false) ;;
  try
    (print "Aktualizujem zoznam balíkov..." ;;
     update_result <- call (subprocess_run sys ["sudo"; "apt"; "update"]) ;;
     (if negb (Z.eqb (returncode update_result) 0) then
        print ("Varovanie pri apt update: " ++ stderr update_result)
      else ret tt) ;;
     result <- call (subprocess_run sys ["apt"; "list"; "--upgradable"]) ;;
     if negb (Z.eqb (returncode result) 0) then
       ret (dict_of [("status", PStr "ERROR");
                     ("message", PStr "Nepodarilo sa získať zoznam aktualizácií");
                     ("error", PStr (strip (stderr result)))])
     else
       let output := strip (stdout result) in
       let upgradable_packages := parse_upgradable_packages output in
       security_updates <-
         (if truthy check_security_only then check_security_updates else ret []) ;;
       let total_updates := List.length upgradable_packages in
       print ("Nájdených " ++ str_of_nat total_updates ++ " aktualizovateľných balíkov") ;;
       if Nat.eqb total_updates 0 then
         ret (dict_of
                [("status", PStr "PASS");
                 ("message", PStr "Systém je aktuálny, žiadne dostupné aktualizácie");
                 ("upgradable_packages_count", PInt 0);
                 ("severity", PStr "INFO")])
       else
         (* what follows the choice of [status], [severity] and [message] *)
         let report := fun status severity message : string =>
           let result_data :=
             dict_of
               [("status", PStr status);
                ("message", PStr message);
                ("upgradable_packages_count", len upgradable_packages);
                ("upgradable_packages", PList (firstn 20 upgradable_packages));
                ("severity", PStr severity);
                ("security_risk",
                 PStr "Zastarané komponenty môžu obsahovať známe bezpečnostné zraniteľnosti");
                ("recommendation", PStr "Aktualizujte systém na najnovšie verzie balíkov");
                ("commands", PList [PStr "sudo apt update";
                                    PStr "sudo apt upgrade";
                                    PStr "sudo apt dist-upgrade"]);
                ("impact",
                 PStr "Zastarané komponenty sú jednou z najkritickejších oblastí správy serverov")] in
           let result_data :=
             if Nat.ltb 20 total_updates then
               set_item "full_list_available" (PBool true)
                 (set_item "note"
                    (PStr ("Zobrazených prvých 20 z " ++ str_of_nat total_updates
                             ++ " balíkov")) result_data)
             else result_data in
           let result_data :=
             if truthy check_security_only && truthy (PList (map PStr security_updates)) then
               let result_data :=
                 set_item "security_updates"
                   (PList (map PStr (firstn 10 security_updates)))
                   (set_item "security_updates_count" (len security_updates) result_data) in
               if Nat.ltb 0 (List.length security_updates) then
                 set_item "message"
                   (PStr ("Dostupné bezpečnostné aktualizácie: "
                            ++ str_of_nat (List.length security_updates) ++ " balíkov"))
                   (set_item "severity" (PStr "CRITICAL") result_data)
               else result_data
             else result_data in
           ret result_data in
         critical <- ge total_updates max_updates_critical ;;
         if critical then
           report "CRITICAL" "CRITICAL"
             ("Kritický počet dostupných aktualizácií: "
                ++ str_of_nat total_updates ++ " balíkov")%string
         else
           warning <- ge total_updates max_updates_warning ;;
           if warning then
             report "WARNING" "HIGH"
               ("Vysoký počet dostupných aktualizácií: "
                  ++ str_of_nat total_updates ++ " balíkov")%string
           else
             report "WARNING" "MEDIUM"
               ("Dostupné aktualizácie: "
                  ++ str_of_nat total_updates ++ " balíkov")%string)
    (fun e =>
       if String.eqb (class e) "TimeoutExpired" then
         ret (dict_of
                [("status", PStr "ERROR");
                 ("message", PStr "Timeout pri vykonávaní príkazu apt");
                 ("error",
                  PStr "Príkaz trval príliš dlho - možno problém so sieťou alebo repozitármi")])
       else if String.eqb (class e) "PermissionError" then
         ret (dict_of
                [("status", PStr "ERROR");
                 ("message", PStr "Nedostatočné oprávnenia");
                 ("error",
                  PStr "Pre aktualizáciu zoznamu balíkov sú potrebné sudo oprávnenia");
                 ("recommendation", PStr "Spustite skript s sudo oprávneniami")])
       else if String.eqb (class e) "FileNotFoundError" then
         ret (dict_of
                [("status", PStr "ERROR");
                 ("message", PStr "Príkaz apt nebol nájdený");
                 ("error", PStr "Systém neobsahuje APT package manager");
                 ("note", PStr "Tento test je určený pre Debian/Ubuntu systémy")])
       else
         ret (dict_of
                [("status", PStr "ERROR");
                 ("message", PStr "Neočakávaná chyba pri kontrole aktualizácií");
                 ("error", PStr (str e))])).

End Run.

End securityUpdatesCheck.

(** ** [tests/macSystemcheck.py] *)

Module macSystemcheck.

Import Py.
Local Open Scope check_scope.

(** The dict [parse_apparmor_status] fills. *)
Record ApparmorInfo : Type := {
  is_loaded : bool;
  profiles_loaded : Z;
  profiles_enforce : Z;
  profiles_complain : Z;
  processes_with_profiles : Z;
  profile_names : list string
}.

Definition set_profiles_loaded (n : Z) (info : ApparmorInfo) : ApparmorInfo :=
  {| is_loaded := is_loaded info; profiles_loaded := n;
     profiles_enforce := profiles_enforce info;
     profiles_complain := profiles_complain info;
     processes_with_profiles := processes_with_profiles info;
     profile_names := profile_names info |}.

Definition set_profiles_enforce (n : Z) (info : ApparmorInfo) : ApparmorInfo :=
  {| is_loaded := is_loaded info; profiles_loaded := profiles_loaded info;
     profiles_enforce := n;
     profiles_complain := profiles_complain info;
     processes_with_profiles := processes_with_profiles info;
     profile_names := profile_names info |}.

Definition set_profiles_complain (n : Z) (info : ApparmorInfo) : ApparmorInfo :=
  {| is_loaded := is_loaded info; profiles_loaded := profiles_loaded info;
     profiles_enforce := profiles_enforce info;
     profiles_complain := n;
     processes_with_profiles := processes_with_profiles info;
     profile_names := profile_names info |}.

Definition set_processes_with_profiles (n : Z) (info : ApparmorInfo) : ApparmorInfo :=
  {| is_loaded := is_loaded info; profiles_loaded := profiles_loaded info;
     profiles_enforce := profiles_enforce info;
     profiles_complain := profiles_complain info;
     processes_with_profiles := n;
     profile_names := profile_names info |}.

Definition set_is_loaded (info : ApparmorInfo) : ApparmorInfo :=
  {| is_loaded := true; profiles_loaded := profiles_loaded info;
     profiles_enforce := profiles_enforce info;
     profiles_complain := profiles_complain info;
     processes_with_profiles := processes_with_profiles info;
     profile_names := profile_names info |}.

Definition append_profile_name (n : string) (info : ApparmorInfo) : ApparmorInfo :=
  {| is_loaded := is_loaded info; profiles_loaded := profiles_loaded info;
     profiles_enforce := profiles_enforce info;
     profiles_complain := profiles_complain info;
     processes_with_profiles := processes_with_profiles info;
     profile_names := profile_names info ++ [n] |}.

Section Run.

Variable sys : System.

Definition detect_mac_system : string :=
  if shutil_which sys "aa-status" || os_path_exists sys "/sys/kernel/security/apparmor"
  then "apparmor"
  else if shutil_which sys "getenforce" || os_path_exists sys "/etc/selinux/config"
  then "selinux"
  else "none".

(** [parts = line.split(); if parts and parts[0].isdigit(): info[key] = int(parts[0])] *)
Definition count_of (line : string) (set : Z -> ApparmorInfo -> ApparmorInfo)
           (info : ApparmorInfo) : C ApparmorInfo :=
  match split line with
  | part :: _ =>
      if isdigit part then n <- int sys part ;; ret (set n info) else ret info
  | [] => ret info
  end.

(** The body of the loop of [parse_apparmor_status]. *)
Definition parse_status_line (line : string) (info : ApparmorInfo) : C ApparmorInfo :=
  let line_lower := lower line in
  let info :=
    if contains "apparmor module is loaded" line_lower then set_is_loaded info
    else info in
  info <-
    (if contains "profiles are loaded" line_lower
        || contains "profiles loaded" line_lower
     then count_of line set_profiles_loaded info else ret info) ;;
  info <-
    (if contains "profiles are in enforce mode" line_lower
     then count_of line set_profiles_enforce info else ret info) ;;
  info <-
    (if contains "profiles are in complain mode" line_lower
     then count_of line set_profiles_complain info else ret info) ;;
  info <-
    (if contains "processes have profiles defined" line_lower
        || contains "processes are defined" line_lower
     then count_of line set_processes_with_profiles info else ret info) ;;
  if startswith line "   /" || startswith line "      /" then
    let profile_name := strip line in
    if negb (String.eqb profile_name "") then ret (append_profile_name profile_name info)
    else ret info
  else ret info.

Fixpoint parse_status_lines (lines : list string) (info : ApparmorInfo)
  : C ApparmorInfo :=
  match lines with
  | [] => ret info
  | line :: lines' =>
      info <- parse_status_line line info ;;
      parse_status_lines lines' info
  end.

Definition parse_apparmor_status (output : string) : C ApparmorInfo :=
  parse_status_lines (lines output)
    {| is_loaded := false; profiles_loaded := 0; profiles_enforce := 0;
       profiles_complain := 0; processes_with_profiles := 0; profile_names := [] |}.

Definition check_apparmor (require_active check_profiles : pyvalue) : C pyvalue :=
  try
    (if negb (shutil_which sys "aa-status") then
       ret (dict_of
              [("status", PStr "ERROR");
               ("message",
                PStr "AppArmor je prítomný, ale príkaz aa-status nie je dostupný");
               ("mac_system", PStr "apparmor");
               ("recommendation",
                PStr "Nainštalujte apparmor-utils: sudo apt install apparmor-utils")])
     else
       result <- call (subprocess_run sys ["sudo"; "aa-status"]) ;;
       if negb (Z.eqb (returncode result) 0) then
         let stderr_output := lower (strip (stderr result)) in
         if contains "apparmor filesystem is not mounted" stderr_output
            || contains "apparmor is not enabled" stderr_output then
           ret (dict_of
                  [("status", PStr "FAIL");
                   ("message", PStr "AppArmor nie je aktívny");
                   ("mac_system", PStr "apparmor");
                   ("apparmor_status", PStr "inactive");
                   ("security_risk",
                    PStr "Absencia MAC (Mandatory Access Control) ochrany výrazne znižuje schopnosť systému obmedziť škody pri kompromitácii aplikácií");
                   ("severity", PStr "HIGH");
                   ("recommendation",
                    PStr "Aktivujte AppArmor pre zvýšenie bezpečnosti systému");
                   ("commands",
                    PList [PStr "sudo systemctl enable apparmor";
                           PStr "sudo systemctl start apparmor";
                           PStr "sudo aa-enforce /etc/apparmor.d/*"]);
                   ("impact",
                    PStr "Bez MAC ochrany môžu kompromitované aplikácie získať neobmedzený prístup k systémovým zdrojom")])
         else
           ret (dict_of
                  [("status", PStr "ERROR");
                   ("message", PStr "Chyba pri kontrole stavu AppArmor");
                   ("error", PStr (strip (stderr result)));
                   ("note",
                    PStr "Možno je potrebné spustiť skript s sudo oprávneniami")])
       else
         let output := stdout result in
         apparmor_info <- parse_apparmor_status output ;;
         print "AppArmor je aktívny" ;;
         print ("Profily v enforce mode: " ++ str_of_Z (profiles_enforce apparmor_info)) ;;
         print ("Profily v complain mode: " ++ str_of_Z (profiles_complain apparmor_info)) ;;
         if is_loaded apparmor_info then
           let result_data :=
             dict_of
               [("status", PStr "PASS");
                ("message", PStr "AppArmor je aktívny a načítaný");
                ("mac_system", PStr "apparmor");
                ("apparmor_status", PStr "active");
                ("profiles_loaded", PInt (profiles_loaded apparmor_info));
                ("profiles_enforce", PInt (profiles_enforce apparmor_info));
                ("profiles_complain", PInt (profiles_complain apparmor_info));
                ("processes_with_profiles",
                 PInt (processes_with_profiles apparmor_info));
                ("severity", PStr "INFO")] in
           let result_data :=
             if Z.gtb (profiles_complain apparmor_info) 0 then
               set_item "severity" (PStr "MEDIUM")
                 (set_item "recommendation"
                    (PStr "Zvážte aktivovanie complain profilov do enforce mode pre plnú ochranu")
                    (set_item "message"
                       (PStr ("AppArmor je aktívny, ale "
                                ++ str_of_Z (profiles_complain apparmor_info)
                                ++ " profilov je v complain mode"))
                       (set_item "status" (PStr "WARNING") result_data)))
             else result_data in
           let result_data :=
             if Z.eqb (profiles_loaded apparmor_info) 0 then
               set_item "severity" (PStr "MEDIUM")
                 (set_item "recommendation"
                    (PStr "Načítajte AppArmor profily pre kritické aplikácie")
                    (set_item "message"
                       (PStr "AppArmor je aktívny, ale nie sú načítané žiadne profily")
                       (set_item "status" (PStr "WARNING") result_data)))
             else result_data in
           let result_data :=
             if truthy check_profiles
                && truthy (PList (map PStr (profile_names apparmor_info))) then
               let result_data :=
                 set_item "active_profiles"
                   (PList (map PStr (firstn 10 (profile_names apparmor_info))))
                   result_data in
               if Nat.ltb 10 (List.length (profile_names apparmor_info)) then
                 set_item "note"
                   (PStr ("Zobrazených prvých 10 z "
                            ++ str_of_nat (List.length (profile_names apparmor_info))
                            ++ " profilov")) result_data
               else result_data
             else result_data in
           ret result_data
         else
           ret (dict_of
                  [("status", PStr "FAIL");
                   ("message", PStr "AppArmor nie je správne načítaný");
                   ("mac_system", PStr "apparmor");
                   ("apparmor_status", PStr "loaded_but_inactive");
                   ("severity", PStr "HIGH");
                   ("recommendation", PStr "Reštartujte AppArmor službu")]))
    (fun e =>
       if String.eqb (class e) "TimeoutExpired" then
         ret (dict_of [("status", PStr "ERROR");
                       ("message", PStr "Timeout pri vykonávaní príkazu aa-status");
                       ("error", PStr "Príkaz trval príliš dlho")])
       else if String.eqb (class e) "PermissionError" then
         ret (dict_of
                [("status", PStr "ERROR");
                 ("message", PStr "Nedostatočné oprávnenia");
                 ("error", PStr "Pre kontrolu stavu AppArmor sú potrebné sudo oprávnenia");
                 ("recommendation", PStr "Spustite skript s sudo oprávneniami")])
       else
         ret (dict_of [("status", PStr "ERROR");
                       ("message", PStr "Neočakávaná chyba pri kontrole AppArmor");
                       ("error", PStr (str e))])).

Definition check_selinux (require_active : pyvalue) : C pyvalue :=
  try
    (result <- call (subprocess_run sys ["getenforce"]) ;;
     if negb (Z.eqb (returncode result) 0) then
       ret (dict_of [("status", PStr "ERROR");
                     ("message", PStr "Chyba pri kontrole stavu SELinux");
                     ("error", PStr (strip (stderr result)))])
     else
       let selinux_status := lower (strip (stdout result)) in
       if String.eqb selinux_status "enforcing" then
         ret (dict_of [("status", PStr "PASS");
                       ("message", PStr "SELinux je aktívny v enforcing mode");
                       ("mac_system", PStr "selinux");
                       ("selinux_mode", PStr "enforcing");
                       ("severity", PStr "INFO")])
       else if String.eqb selinux_status "permissive" then
         ret (dict_of
                [("status", PStr "WARNING");
                 ("message", PStr "SELinux je v permissive mode (len loguje porušenia)");
                 ("mac_system", PStr "selinux");
                 ("selinux_mode", PStr "permissive");
                 ("recommendation", PStr "Aktivujte SELinux do enforcing mode");
                 ("severity", PStr "MEDIUM");
                 ("commands", PList [PStr "sudo setenforce 1"])])
       else if String.eqb selinux_status "disabled" then
         ret (dict_of
                [("status", PStr "FAIL");
                 ("message", PStr "SELinux je deaktivovaný");
                 ("mac_system", PStr "selinux");
                 ("selinux_mode", PStr "disabled");
                 ("security_risk", PStr "Absencia MAC ochrany");
                 ("recommendation",
                  PStr "Aktivujte SELinux v /etc/selinux/config a reštartujte systém");
                 ("severity", PStr "HIGH")])
       else
         ret (dict_of
                [("status", PStr "WARNING");
                 ("message", PStr ("Neznámy stav SELinux: " ++ selinux_status));
                 ("mac_system", PStr "selinux");
                 ("selinux_mode", PStr selinux_status)]))
    (fun e =>
       if String.eqb (class e) "FileNotFoundError" then
         ret (dict_of [("status", PStr "ERROR");
                       ("message", PStr "Príkaz getenforce nebol nájdený");
                       ("error", PStr "SELinux nástroje nie sú nainštalované")])
       else
         ret (dict_of [("status", PStr "ERROR");
                       ("message", PStr "Neočakávaná chyba pri kontrole SELinux");
                       ("error", PStr (str e))])).

Definition run (params : pyvalue) : C pyvalue :=
  print "Spúšťam test stavu MAC systému (AppArmor/SELinux)..." ;;
  preferred_mac <- params_get params "preferred_mac" (PStr "apparmor") ;;
  require_active <- params_get params "require_active" (PBool true) ;;
  check_profiles <- params_get params "check_profiles" (PBool true) ;;
  let mac_system := detect_mac_system in
  if String.eqb mac_system "none" then
    ret (dict_of
           [("status", PStr "SKIPPED");
            ("message",
             PStr "Žiadny MAC systém (AppArmor/SELinux) nie je nainštalovaný");
            ("mac_system", PStr "none");
            ("recommendation",
             PStr "Nainštalujte a aktivujte AppArmor alebo SELinux pre zvýšenie bezpečnosti");
            ("severity", PStr "HIGH");
            ("note", PStr "Absencia MAC ochrany výrazne znižuje bezpečnosť systému");
            ("commands",
             PList [PStr "sudo apt install apparmor apparmor-utils";
                    PStr "sudo systemctl enable apparmor";
                    PStr "sudo systemctl start apparmor"])])
  else
    print ("Detegovaný MAC systém: " ++ mac_system) ;;
    if String.eqb mac_system "apparmor" then check_apparmor require_active check_profiles
    else if String.eqb mac_system "selinux" then check_selinux require_active
    else
      ret (dict_of [("status", PStr "ERROR");
                    ("message", PStr "Neznámy MAC systém");
                    ("mac_system", PStr mac_system)]).

End Run.

End macSystemcheck.

(** ** Sample machines *)

Module Machines.

(** A machine on which every command returns 0 and prints [text], and no
    path exists. *)
Definition printing (text : string) : Py.System :=
  {| Py.subprocess_run := fun _ =>
       Py.Ok {| Py.returncode := 0; Py.stdout := text; Py.stderr := "" |};
     Py.shutil_which := fun _ => false;
     Py.os_listdir := fun _ => Py.Ok [];
     Py.os_stat := fun _ =>
       Py.Raise {| Py.class := "FileNotFoundError";
                   Py.str := "[Errno 2] No such file or directory" |};
     Py.pwd_getpwuid := fun _ => None;
     Py.stat_filemode := fun _ => "";
     Py.int_limit := fun _ => None;
     Py.re_type_error := fun _ => "expected string or bytes-like object" |}.

(** A machine whose [uname -r] prints the release. *)
Definition uname (release : string) : Py.System := printing release.

(** A machine whose [ufw status] prints a report in English. *)
Definition ufw_active : Py.System :=
  printing ("Status: active" ++ nl ++ nl
              ++ "To                         Action      From" ++ nl
              ++ "--                         ------      ----" ++ nl
              ++ "22/tcp                     ALLOW       Anywhere" ++ nl).

(** A machine whose [ufw status] prints a report in Slovak. *)
Definition ufw_aktivny : Py.System :=
  printing ("Stav: aktívny" ++ nl ++ nl
              ++ "To                         Action      From" ++ nl
              ++ "--                         ------      ----" ++ nl
              ++ "22/tcp                     ALLOW       Anywhere" ++ nl
              ++ "Anywhere" ++ nl).

(** [drwx------], [drwxr-xr-x], [drwxrwx---] and [drwx-----T]. *)
Definition mode_700 : Z := 16832.
Definition mode_755 : Z := 16877.
Definition mode_770 : Z := 16888.
Definition mode_1700 : Z := 17344.

(** A machine with entries under [/home], each with the mode [os.stat]
    gives for it; the owner of all of them is [1000], who has no entry in
    the password database.  An entry without a mode cannot be examined,
    and a path that is not listed is not there. *)
Definition homes (modes : list (string * option Z)) : Py.System :=
  {| Py.subprocess_run := fun _ =>
       Py.Raise {| Py.class := "FileNotFoundError";
                   Py.str := "[Errno 2] No such file or directory" |};
     Py.shutil_which := fun _ => false;
     Py.os_listdir := fun _ => Py.Ok (map fst modes);
     Py.os_stat := fun p =>
       if String.eqb p "/home" then Py.Ok (mode_755, 0%Z)
       else
         match dict_get p (map (fun nm => (os_path_join "/home" (fst nm), snd nm)) modes) with
         | Some (Some mode) => Py.Ok (mode, 1000%Z)
         | Some None => Py.Raise {| Py.class := "PermissionError";
                                    Py.str := "[Errno 13] Permission denied" |}
         | None => Py.Raise {| Py.class := "FileNotFoundError";
                               Py.str := "[Errno 2] No such file or directory" |}
         end;
     Py.pwd_getpwuid := fun _ => None;
     Py.stat_filemode := fun _ => "";
     Py.int_limit := fun _ => None;
     Py.re_type_error := fun _ => "expected string or bytes-like object" |}.

(** A machine whose kernel shows AppArmor, without [aa-status] and with
    the tools of SELinux. *)
Definition apparmor_without_tools : Py.System :=
  {| Py.subprocess_run := fun _ =>
       Py.Ok {| Py.returncode := 0; Py.stdout := "Enforcing"; Py.stderr := "" |};
     Py.shutil_which := fun cmd => String.eqb cmd "getenforce";
     Py.os_listdir := fun _ => Py.Ok [];
     Py.os_stat := fun p =>
       if String.eqb p "/sys/kernel/security/apparmor" then Py.Ok (mode_755, 0%Z)
       else Py.Raise {| Py.class := "FileNotFoundError";
                        Py.str := "[Errno 2] No such file or directory" |};
     Py.pwd_getpwuid := fun _ => None;
     Py.stat_filemode := fun _ => "";
     Py.int_limit := fun _ => None;
     Py.re_type_error := fun _ => "expected string or bytes-like object" |}.

(** What [aa-status] prints on a machine with two profiles. *)
Definition aa_status : string :=
  "apparmor module is loaded." ++ nl
  ++ "2 profiles are loaded." ++ nl
  ++ "2 profiles are in enforce mode." ++ nl
  ++ "   /usr/bin/man" ++ nl
  ++ "   /usr/sbin/cupsd" ++ nl
  ++ "0 profiles are in complain mode." ++ nl.

(** What [apt-get --just-print upgrade] prints for one security update. *)
Definition simulated_upgrade : string :=
  "Inst openssl [3.0.2-0ubuntu1.14] (3.0.2-0ubuntu1.15 Ubuntu:22.04/jammy-security [amd64])"
  ++ nl.

(** A machine whose [apt list] and [apt-get] print the given texts. *)
Definition apt (listing simulated : string) : Py.System :=
  {| Py.subprocess_run := fun args =>
       Py.Ok {| Py.returncode := 0;
                Py.stdout := if String.eqb (hd "" args) "apt" then listing
                             else if String.eqb (hd "" args) "apt-get" then simulated
                             else "";
                Py.stderr := "" |};
     Py.shutil_which := fun _ => false;
     Py.os_listdir := fun _ => Py.Ok [];
     Py.os_stat := fun _ =>
       Py.Raise {| Py.class := "FileNotFoundError";
                   Py.str := "[Errno 2] No such file or directory" |};
     Py.pwd_getpwuid := fun _ => None;
     Py.stat_filemode := fun _ => "";
     Py.int_limit := fun _ => None;
     Py.re_type_error := fun _ => "expected string or bytes-like object" |}.

(** What [apt list --upgradable] prints for one update. *)
Definition one_update : string :=
  "Listing... Done" ++ nl
  ++ "openssl/jammy-security 3.0.2-0ubuntu1.15 amd64 [upgradable from: 3.0.2-0ubuntu1.14]"
  ++ nl.

End Machines.

(** ** Verdicts *)

(** The verdict of a check: the string its report holds under [status]. *)
Definition verdict_of (o : outcome) : option string :=
  match o with
  | Returns (PDict report) =>
      match Py.lookup "status" report with
      | Some (PStr s) => Some s
      | _ => None
      end
  | _ => None
  end.

(** A computation that returns a report whose verdict is one of [allowed]. *)
Definition decides (allowed : list string) (c : Py.C pyvalue) : Prop :=
  exists s, verdict_of (Py.as_outcome c) = Some s /\ In s allowed.

(** A computation that does so unless it raises. *)
Definition settles (allowed : list string) (c : Py.C pyvalue) : Prop :=
  match Py.returned c with
  | Py.Ok v => exists s, verdict_of (Returns v) = Some s /\ In s allowed
  | Py.Raise _ => True
  end.

(** A computation whose value, when it returns one, satisfies [P]. *)
Definition ensures (P : pyvalue -> Prop) (c : Py.C pyvalue) : Prop :=
  match Py.returned c with
  | Py.Ok v => P v
  | Py.Raise _ => True
  end.

(** * Properties *)

#[local] Arguments String.append : simpl never.
#[local] Arguments json_encode : simpl never.

Section DictFacts.

Context {V : Type}.
Implicit Types (d : dict V) (k : string) (v : V).

(** ** Dicts *)

Lemma dict_get_None k d : dict_get k d = None <-> ~ In k (keys d).
Proof.
  induction d as [|[k' v'] d IH]; simpl.
  - tauto.
  - destruct (String.eqb_spec k k') as [->|Hne].
    + split; [discriminate | intros H; exfalso; apply H; now left].
    + rewrite IH. split.
      * intros H [E|I]; [congruence | tauto].
      * tauto.
Qed.

Lemma dict_get_In k v d : dict_get k d = Some v -> In (k, v) d.
Proof.
  induction d as [|[k' v'] d IH]; simpl; [discriminate|].
  destruct (String.eqb_spec k k') as [->|Hne].
  - intros [= ->]. now left.
  - intros H. right. auto.
Qed.

Lemma In_dict_get k v d : NoDup (keys d) -> In (k, v) d -> dict_get k d = Some v.
Proof.
  induction d as [|[k' v'] d IH]; simpl; [tauto|].
  intros Hnd [E|I].
  - injection E as -> ->. now rewrite String.eqb_refl.
  - inversion Hnd as [|? ? Hnotin Hnd']; subst.
    destruct (String.eqb_spec k k') as [->|Hne].
    + exfalso. apply Hnotin. change k' with (fst (k', v)). now apply in_map.
    + auto.
Qed.

Lemma dict_get_set_eq k v d : dict_get k (dict_set k v d) = Some v.
Proof.
  induction d as [|[k' v'] d IH]; simpl.
  - now rewrite String.eqb_refl.
  - destruct (String.eqb_spec k k') as [->|Hne]; simpl.
    + now rewrite String.eqb_refl.
    + destruct (String.eqb_spec k k'); [contradiction | assumption].
Qed.

Lemma dict_get_set_neq k k' v d :
  k <> k' -> dict_get k (dict_set k' v d) = dict_get k d.
Proof.
  intros Hne. induction d as [|[k0 v0] d IH]; simpl.
  - destruct (String.eqb_spec k k'); [contradiction | reflexivity].
  - destruct (String.eqb_spec k' k0) as [->|Hne0]; simpl.
    + destruct (String.eqb_spec k k0); [contradiction | reflexivity].
    + destruct (String.eqb_spec k k0); [reflexivity | assumption].
Qed.

(** Assigning to a key that is not there appends it. *)
Lemma dict_set_fresh k v d : ~ In k (keys d) -> dict_set k v d = d ++ [(k, v)].
Proof.
  induction d as [|[k' v'] d IH]; simpl; intros Hnotin.
  - reflexivity.
  - destruct (String.eqb_spec k k') as [->|Hne].
    + exfalso. apply Hnotin. now left.
    + f_equal. apply IH. tauto.
Qed.

(** Assigning to a key that is there leaves the keys as they are. *)
Lemma keys_dict_set_present k v d : In k (keys d) -> keys (dict_set k v d) = keys d.
Proof.
  induction d as [|[k' v'] d IH]; simpl; intros Hin.
  - contradiction.
  - destruct (String.eqb_spec k k') as [->|Hne]; simpl.
    + reflexivity.
    + f_equal. apply IH. destruct Hin; [congruence | assumption].
Qed.

Lemma In_keys_dict_set k k' v d :
  In k (keys (dict_set k' v d)) <-> k = k' \/ In k (keys d).
Proof.
  induction d as [|[k0 v0] d IH]; simpl.
  - intuition congruence.
  - destruct (String.eqb_spec k' k0) as [->|Hne]; simpl.
    + intuition congruence.
    + rewrite IH. intuition congruence.
Qed.

Lemma NoDup_keys_dict_set k v d : NoDup (keys d) -> NoDup (keys (dict_set k v d)).
Proof.
  induction d as [|[k' v'] d IH]; simpl; intros Hnd.
  - constructor; [simpl; tauto | constructor].
  - inversion Hnd as [|? ? Hnotin Hnd']; subst.
    destruct (String.eqb_spec k k') as [->|Hne]; simpl.
    + now constructor.
    + constructor; [|now apply IH].
      change (~ In k' (keys (dict_set k v d))).
      rewrite In_keys_dict_set. intuition congruence.
Qed.

End DictFacts.


(** ** What each method computes *)

Section ViewsFacts.

Variable env : Env.

Lemma discover_test_eq dir tc p :
  discover_test env dir tc p =
    (match crash env dir tc with Some e => Err e | None => Val tt end,
     {| self := with_tests (register env dir (tests (self p)) tc) (self p);
        trace := trace p ++ discover_events env dir tc;
        clock := clock p; disk := disk p |}).
Proof.
  destruct p as [[cp c t r] tr cl dk].
  unfold discover_test, crash, register, discover_events, step_of, load_entry,
    load_test_module, getitem, path_join, pure, bind, print, emit, update, ret, raise,
    with_tests, set_test.
  cbn [self trace clock disk tests config_path config results].
  destruct (get (enabled tc) false); cbn [negb].
  - destruct (file tc) as [v|]; [|now rewrite app_nil_r].
    destruct dir; try (now rewrite app_nil_r).
    destruct v; try (now rewrite app_nil_r).
    destruct (path_exists env (os_path_join s s0)); cbn [negb]; [|reflexivity].
    destruct (exec_module env (os_path_join s s0)) as [m|e|e];
      [destruct (hasattr_run m); [destruct (name tc) as [n|]|]| |];
      cbn [self trace clock disk tests config_path config results app];
      rewrite <- ?app_assoc; reflexivity.
  - destruct (name tc) as [n|]; [reflexivity | now rewrite app_nil_r].
Qed.

Lemma discover_loop_eq dir entries p :
  for_each entries (discover_test env dir) p =
    (match crash_of env dir entries with Some e => Err e | None => Val tt end,
     {| self := with_tests (fold_left (register env dir) (reached env dir entries)
                              (tests (self p))) (self p);
        trace := trace p ++ flat_map (discover_events env dir) (reached env dir entries);
        clock := clock p; disk := disk p |}).
Proof.
  revert p. induction entries as [|tc entries IH]; intros p.
  - destruct p as [[cp c t r] tr cl dk]; simpl. unfold ret, with_tests; simpl.
    now rewrite app_nil_r.
  - cbn [for_each reached crash_of]. unfold bind. rewrite discover_test_eq.
    destruct (crash env dir tc) as [e|].
    + cbn [fold_left flat_map]. now rewrite app_nil_r.
    + rewrite IH. cbn [self trace clock disk tests with_tests fold_left flat_map].
      now rewrite <- app_assoc.
Qed.

Lemma run_test_eq test_name info p :
  run_test env test_name info p =
    match make_result (outcome_of info) (now_isoformat env (clock p)) with
    | Some r =>
        (Val tt,
         {| self := with_results (dict_set test_name r (results (self p))) (self p);
            trace := trace p ++ run_events test_name info;
            clock := S (clock p); disk := disk p |})
    | None =>
        (match escape info with Some e => Err e | None => Val tt end,
         {| self := self p; trace := trace p ++ run_events test_name info;
            clock := clock p; disk := disk p |})
    end.
Proof.
  destruct p as [[cp c t r] tr cl dk].
  unfold run_test, run_events, escape, outcome_of, params_of, print, emit, bind, now,
    update, raise.
  simpl.
  destruct (call_run (ti_module info) (get (parameters (ti_config info)) (PDict [])));
    simpl; now rewrite <- ?app_assoc.
Qed.

Lemma make_result_escape info t :
  make_result (outcome_of info) t = None <-> escape info <> None.
Proof.
  unfold escape. destruct (outcome_of info); simpl; split; congruence.
Qed.

Lemma make_result_no_escape info t r :
  make_result (outcome_of info) t = Some r -> escape info = None.
Proof.
  unfold escape. destruct (outcome_of info); simpl; congruence.
Qed.

Lemma run_loop_eq items p :
  for_each items (fun item => run_test env (fst item) (snd item)) p =
    (match escape_of items with Some e => Err e | None => Val tt end,
     {| self := with_results (run_results env (clock p) (results (self p)) items) (self p);
        trace := trace p
                 ++ flat_map (fun item => run_events (fst item) (snd item)) (called items);
        clock := List.length (completed items) + clock p; disk := disk p |}).
Proof.
  revert p. induction items as [|[n info] items IH]; intros p.
  - destruct p as [[cp c t r] tr cl dk]; simpl. unfold ret, with_results; simpl.
    now rewrite app_nil_r.
  - cbn [for_each called completed escape_of run_results]. unfold bind.
    cbn [fst snd]. rewrite run_test_eq.
    destruct (make_result (outcome_of info) (now_isoformat env (clock p))) as [r|] eqn:Hr.
    + rewrite (make_result_no_escape _ _ _ Hr). rewrite IH.
      cbn [self trace clock disk results flat_map fst snd List.length].
      unfold with_results. cbn [config_path config tests results].
      rewrite <- app_assoc. do 2 f_equal. lia.
    + apply make_result_escape in Hr. destruct (escape info) as [e|]; [|congruence].
      destruct p as [[cp c t r] tr cl dk].
      cbn [self trace clock disk results with_results flat_map fst snd List.length].
      now rewrite app_nil_r.
Qed.

End ViewsFacts.

Section WholeFacts.

Variable env : Env.

Lemma save_results_eq p :
  save_results env p =
    (Val tt,
     {| self := self p;
        trace := trace p ++ save_events env (config (self p)) (results (self p));
        clock := clock p;
        disk := save_disk env (config (self p)) (results (self p)) (disk p) |}).
Proof.
  destruct p as [[cp c t r] tr cl dk].
  unfold save_results, save_events, save_disk, output_file_of, bind, gets; simpl.
  destruct (open_w env (get (cfg_output_file c) "enumeration_results.json"));
    [reflexivity|].
  unfold write_file; simpl.
  destruct (json_encode (results_value r)); reflexivity.
Qed.

Lemma print_summary_eq p :
  print_summary env p =
    (Val tt,
     {| self := self p;
        trace := trace p ++ report_events env (config (self p)) (results (self p));
        clock := clock p;
        disk := report_disk env (config (self p)) (results (self p)) (disk p) |}).
Proof.
  unfold print_summary, report_events, report_disk, summary_events.
  unfold bind at 1 2 3 4 5 6 7 8. unfold print, emit, gets. simpl.
  destruct (get (cfg_save_results (config (self p))) false).
  - rewrite save_results_eq. simpl. now rewrite <- !app_assoc.
  - destruct p as [[cp c t r] tr cl dk]. unfold ret. simpl.
    now rewrite <- !app_assoc.
Qed.

Lemma run_all_tests_eq p :
  run_all_tests env p =
    match tests (self p) with
    | [] =>
        (Val tt,
         {| self := self p;
            trace := trace p ++ [Print "[!] No tests loaded to execute"];
            clock := clock p; disk := disk p |})
    | _ :: _ =>
        let rs := run_results env (clock p) (results (self p)) (tests (self p)) in
        match escape_of (tests (self p)) with
        | Some e =>
            (Err e,
             {| self := with_results rs (self p);
                trace := trace p ++ [starting (tests (self p))]
                         ++ calls_of (tests (self p));
                clock := List.length (completed (tests (self p))) + clock p;
                disk := disk p |})
        | None =>
            (Val tt,
             {| self := with_results rs (self p);
                trace := trace p ++ [starting (tests (self p))]
                         ++ calls_of (tests (self p))
                         ++ report_events env (config (self p)) rs;
                clock := List.length (completed (tests (self p))) + clock p;
                disk := report_disk env (config (self p)) rs (disk p) |})
        end
    end.
Proof.
  unfold run_all_tests. unfold bind at 1. unfold gets.
  destruct (tests (self p)) as [|item reg] eqn:Ht; [reflexivity|].
  generalize (item :: reg) as l. intros l.
  unfold bind at 1. unfold print, emit. unfold bind.
  rewrite run_loop_eq.
  cbn [self trace clock disk with_results config results].
  destruct (escape_of l) as [e|].
  - cbv zeta. unfold starting, calls_of. now rewrite <- !app_assoc.
  - rewrite print_summary_eq.
    cbn [self trace clock disk with_results config results].
    unfold starting, calls_of.
    now rewrite <- !app_assoc.
Qed.

Lemma load_config_eq p :
  load_config env p =
    match read_json env (config_path (self p)) with
    | ReadOk c =>
        (Val true,
         {| self := set_config c (self p);
            trace := trace p
                     ++ [Print ("[+] Configuration loaded from " ++ config_path (self p))];
            clock := clock p; disk := disk p |})
    | FileNotFoundError =>
        (Val false,
         {| self := self p;
            trace := trace p
                     ++ [Print ("[!] Configuration file not found: "
                                  ++ config_path (self p))];
            clock := clock p; disk := disk p |})
    | JSONDecodeError e =>
        (Val false,
         {| self := self p;
            trace := trace p ++ [Print ("[!] Error parsing configuration file: " ++ e)];
            clock := clock p; disk := disk p |})
    | OtherError c e => (Err (Uncaught c e), p)
    end.
Proof.
  unfold load_config. unfold bind at 1. unfold gets.
  destruct (read_json env (config_path (self p))); reflexivity.
Qed.

Lemma discover_tests_eq p :
  discover_tests env p =
    match cfg_tests (config (self p)) with
    | None =>
        (Val false,
         {| self := self p;
            trace := trace p ++ [Print "[!] No tests defined in configuration"];
            clock := clock p; disk := disk p |})
    | Some entries =>
        let dir := tests_dir_of (config (self p)) in
        let reg := fold_left (register env dir) (reached env dir entries) (tests (self p)) in
        (match crash_of env dir entries with
         | Some e => Err e
         | None => Val (Nat.ltb 0 (List.length reg))
         end,
         {| self := with_tests reg (self p);
            trace := trace p ++ flat_map (discover_events env dir) (reached env dir entries);
            clock := clock p; disk := disk p |})
    end.
Proof.
  unfold discover_tests. unfold bind at 1. unfold gets.
  destruct (cfg_tests (config (self p))) as [entries|]; [|reflexivity].
  unfold bind. rewrite discover_loop_eq. unfold tests_dir_of.
  now destruct (crash_of env _ entries).
Qed.

Lemma completed_no_escape items : escape_of items = None -> completed items = items.
Proof.
  induction items as [|[n info] items IH]; simpl; [reflexivity|].
  destruct (escape info); [discriminate|]. intros H. now rewrite IH.
Qed.


Lemma main_eq argv : main env argv (start "config.json") = main_spec env argv.
Proof.
  unfold main, main_spec. fold (script_arg argv).
  generalize (script_arg argv) as path. intros path.
  unfold bind at 1 2. unfold print, emit, update, start.
  cbn [self trace clock disk app].
  unfold bind at 1. rewrite load_config_eq.
  cbn [self trace clock disk app init config_path].
  destruct (read_json env path) as [cfg| |e|c e]; try reflexivity.
  cbn [negb]. unfold bind at 1. rewrite discover_tests_eq.
  cbn [self trace clock disk app set_config config tests init config_path results
       with_tests].
  destruct (cfg_tests cfg) as [entries|]; [|reflexivity].
  cbv zeta. unfold finish, registry, discovery_events.
  destruct (crash_of env (tests_dir_of cfg) entries) as [e|]; [reflexivity|].
  destruct (fold_left (register env (tests_dir_of cfg))
              (reached env (tests_dir_of cfg) entries) []) as [|item reg] eqn:Hreg.
  - cbn [List.length Nat.ltb Nat.leb negb].
    unfold bind, print, emit, raise. cbn [self trace clock disk].
    now rewrite <- !app_assoc.
  - cbn [List.length Nat.ltb Nat.leb negb].
    assert (Hne : item :: reg <> []) by discriminate.
    replace (S (List.length reg)) with (List.length (item :: reg)) by reflexivity.
    revert Hne. generalize (item :: reg) as l. intros l Hne. clear Hreg.
    unfold bind at 1. rewrite run_all_tests_eq.
    cbn [self trace clock disk with_tests tests results config with_results
         config_path set_config init].
    destruct l as [|i l]; [contradiction|].
    revert Hne. generalize (i :: l) as l'. intros l' _.
    cbv zeta. destruct (escape_of l') as [e|] eqn:Hesc.
    + rewrite <- !app_assoc. cbn [app]. rewrite Nat.add_0_r. reflexivity.
    + unfold print, emit. cbn [self trace clock disk].
      rewrite (completed_no_escape _ Hesc).
      rewrite <- !app_assoc. cbn [app]. rewrite Nat.add_0_r. reflexivity.
Qed.

Lemma run_eq argv :
  run env argv = (exit_status (fst (main_spec env argv)), snd (main_spec env argv)).
Proof.
  unfold run. rewrite main_eq. now destruct (main_spec env argv).
Qed.

End WholeFacts.

(** ** The steps of the discovery loop *)

Section StepFacts.

Variable env : Env.
Variable dir : pyvalue.

Lemma loads_step tc m :
  loads env dir tc = Some m <-> exists path n, step_of env dir tc = Registers path n m.
Proof.
  unfold loads. destruct (step_of env dir tc); split;
    try discriminate; try (intros (p & k & H); discriminate).
  - intros [= <-]. eauto.
  - intros (p & k & [= _ _ <-]). reflexivity.
Qed.

Lemma crash_step tc e :
  crash env dir tc = Some e <-> exists done, step_of env dir tc = Crashes done e.
Proof.
  unfold crash. destruct (step_of env dir tc); split;
    try discriminate; try (intros (d & H); discriminate).
  - intros [= <-]. eauto.
  - intros (d & [= _ <-]). reflexivity.
Qed.

(** What it takes for an entry to be registered. *)
Lemma step_registers tc path n m :
  step_of env dir tc = Registers path n m <->
  get (enabled tc) false = true
  /\ name tc = Some n
  /\ exists d f,
       dir = PStr d /\ file tc = Some (PStr f) /\ path = os_path_join d f
       /\ path_exists env path = true
       /\ exec_module env path = Loaded m
       /\ hasattr_run m = true.
Proof.
  unfold step_of, getitem. split.
  - destruct (get (enabled tc) false); [|destruct (name tc); discriminate].
    destruct (file tc) as [v|]; [|discriminate].
    destruct dir; try discriminate. destruct v; try discriminate.
    destruct (path_exists env (os_path_join s s0)) eqn:Hex; [|discriminate].
    destruct (exec_module env (os_path_join s s0)) as [m'|e|e] eqn:Hm; try discriminate.
    destruct (hasattr_run m') eqn:Hrun; [|discriminate].
    destruct (name tc) as [n'|]; [|discriminate].
    intros [= <- <- <-]. repeat split. exists s, s0. repeat split; assumption.
  - intros (Hon & Hn & d & f & -> & Hf & -> & Hex & Hm & Hrun).
    now rewrite Hon, Hf, Hex, Hm, Hrun, Hn.
Qed.

Lemma loads_name tc m : loads env dir tc = Some m -> exists n, name tc = Some n.
Proof.
  intros H. apply loads_step in H as (path & n & H).
  apply step_registers in H as (_ & Hn & _). eauto.
Qed.

Lemma loads_no_crash tc m : loads env dir tc = Some m -> crash env dir tc = None.
Proof.
  unfold loads, crash. now destruct (step_of env dir tc).
Qed.


Lemma register_loads t tc m n :
  loads env dir tc = Some m -> name tc = Some n ->
  register env dir t tc = dict_set n {| ti_module := m; ti_config := tc |} t.
Proof.
  intros Hl Hn. apply loads_step in Hl as (path & n' & Hs).
  pose proof Hs as Hs'. apply step_registers in Hs' as (_ & Hn' & _).
  unfold register. rewrite Hs. congruence.
Qed.

Lemma register_skip t tc : loads env dir tc = None -> register env dir t tc = t.
Proof. unfold register, loads. now destruct (step_of env dir tc). Qed.

Lemma loads_enabled tc m : loads env dir tc = Some m -> enabled tc = Some true.
Proof.
  intros H. apply loads_step in H as (path & n & H).
  apply step_registers in H as (Hon & _).
  destruct (enabled tc) as [[|]|]; simpl in Hon; congruence.
Qed.

Lemma step_disabled tc :
  get (enabled tc) false = false ->
  step_of env dir tc = match name tc with
                       | Some n => Skips n
                       | None => Crashes [] (Uncaught "KeyError" "'name'")
                       end.
Proof. unfold step_of, getitem. intros ->. now destruct (name tc). Qed.

Lemma loads_disabled tc : get (enabled tc) false = false -> loads env dir tc = None.
Proof.
  intros H. unfold loads. rewrite (step_disabled tc H). now destruct (name tc).
Qed.

(** The loop and the entries it gets to. *)

Lemma reached_no_crash entries :
  crash_of env dir entries = None -> reached env dir entries = entries.
Proof.
  induction entries as [|tc entries IH]; simpl; [reflexivity|].
  destruct (crash env dir tc); [discriminate|]. intros H. now rewrite IH.
Qed.

Lemma reached_incl entries tc : In tc (reached env dir entries) -> In tc entries.
Proof.
  induction entries as [|tc' entries IH]; simpl; [tauto|].
  destruct (crash env dir tc'); simpl; tauto.
Qed.

Lemma crash_of_app l1 l2 :
  crash_of env dir (l1 ++ l2)
  = match crash_of env dir l1 with
    | Some e => Some e
    | None => crash_of env dir l2
    end.
Proof.
  induction l1 as [|tc l1 IH]; simpl; [reflexivity|].
  destruct (crash env dir tc); [reflexivity | assumption].
Qed.

Lemma reached_app l1 l2 :
  reached env dir (l1 ++ l2)
  = match crash_of env dir l1 with
    | Some _ => reached env dir l1
    | None => l1 ++ reached env dir l2
    end.
Proof.
  induction l1 as [|tc l1 IH]; simpl; [reflexivity|].
  destruct (crash env dir tc); [reflexivity|].
  rewrite IH. now destruct (crash_of env dir l1).
Qed.

Lemma crash_of_None entries tc :
  crash_of env dir entries = None -> In tc entries -> crash env dir tc = None.
Proof.
  induction entries as [|tc' entries IH]; simpl; [tauto|].
  destruct (crash env dir tc') eqn:Hc; [discriminate|].
  intros H [<- | Hin]; auto.
Qed.

Lemma crash_of_Some entries e :
  crash_of env dir entries = Some e ->
  exists l1 tc l2,
    entries = l1 ++ tc :: l2 /\ crash_of env dir l1 = None /\ crash env dir tc = Some e.
Proof.
  induction entries as [|tc entries IH]; simpl; [discriminate|].
  destruct (crash env dir tc) as [e'|] eqn:Hc.
  - intros [= <-]. exists [], tc, entries. auto.
  - intros H. destruct (IH H) as (l1 & tc' & l2 & -> & Hl1 & Htc).
    exists (tc :: l1), tc', l2. simpl. rewrite Hc. auto.
Qed.

End StepFacts.

(** ** The registry the discovery loop builds *)

Section RegistryFacts.

Variable env : Env.
Variable dir : pyvalue.

Lemma registry_NoDup entries t :
  NoDup (keys t) -> NoDup (keys (fold_left (register env dir) entries t)).
Proof.
  revert t. induction entries as [|tc entries IH]; intros t Hnd; simpl; [assumption|].
  apply IH. unfold register.
  destruct (step_of env dir tc); try assumption. now apply NoDup_keys_dict_set.
Qed.

(** An entry that does not load leaves no mark on the registry. *)
Lemma registry_erase l1 tc l2 t :
  loads env dir tc = None ->
  fold_left (register env dir) (l1 ++ tc :: l2) t
  = fold_left (register env dir) (l1 ++ l2) t.
Proof.
  intros Hskip. rewrite !fold_left_app. simpl. now rewrite register_skip.
Qed.

(** Every registered name comes from an entry that loaded. *)
Lemma registry_origin entries t n info :
  dict_get n (fold_left (register env dir) entries t) = Some info ->
  dict_get n t = Some info \/
  exists tc, In tc entries /\ name tc = Some n /\ ti_config info = tc
             /\ loads env dir tc = Some (ti_module info).
Proof.
  revert t. induction entries as [|tc entries IH]; intros t H; simpl in *; [now left|].
  destruct (IH _ H) as [Ht | (tc' & Hin & Hn & Hc & Hl)].
  - destruct (loads env dir tc) as [m|] eqn:Hl.
    + destruct (loads_name env dir tc m Hl) as (k & Hk).
      rewrite (register_loads env dir t tc m k Hl Hk) in Ht.
      destruct (String.eqb_spec n k) as [->|Hne].
      * rewrite dict_get_set_eq in Ht. injection Ht as <-.
        right. exists tc. simpl. auto.
      * rewrite dict_get_set_neq in Ht by assumption. now left.
    + rewrite register_skip in Ht by assumption. now left.
  - right. exists tc'. auto.
Qed.


(** A name is registered exactly when some entry of that name loads. *)
Lemma registry_keys entries t n :
  In n (keys (fold_left (register env dir) entries t)) <->
  In n (keys t)
  \/ exists tc, In tc entries /\ name tc = Some n /\ loads env dir tc <> None.
Proof.
  revert t. induction entries as [|tc entries IH]; intros t; simpl.
  - split; [tauto | intros [H | (tc & [] & _)]; assumption].
  - rewrite IH.
    destruct (loads env dir tc) as [m|] eqn:Hl.
    + destruct (loads_name env dir tc m Hl) as (k & Hk).
      rewrite (register_loads env dir t tc m k Hl Hk).
      rewrite In_keys_dict_set. split.
      * intros [[-> | H] | (tc' & Hin & Hn & Hl')]; [right | now left | right].
        -- exists tc. rewrite Hl. repeat split; auto. discriminate.
        -- exists tc'. auto.
      * intros [H | (tc' & [-> | Hin] & Hn & Hl')]; [tauto | left; left; congruence |].
        right. exists tc'. auto.
    + rewrite register_skip by assumption. split.
      * intros [H | (tc' & Hin & Hn & Hl')]; [now left | right; exists tc'; auto].
      * intros [H | (tc' & [-> | Hin] & Hn & Hl')]; [now left | congruence |].
        right. exists tc'. auto.
Qed.


(** Taking out an entry that neither loads nor raises changes neither the
    registry nor the way the loop ends. *)
Lemma reached_erase l1 tc l2 t :
  loads env dir tc = None -> crash env dir tc = None ->
  fold_left (register env dir) (reached env dir (l1 ++ tc :: l2)) t
  = fold_left (register env dir) (reached env dir (l1 ++ l2)) t
  /\ crash_of env dir (l1 ++ tc :: l2) = crash_of env dir (l1 ++ l2).
Proof.
  intros Hl Hc. rewrite !reached_app, !crash_of_app. cbn [reached crash_of].
  rewrite Hc. destruct (crash_of env dir l1); [auto|].
  split; [|reflexivity]. now apply registry_erase.
Qed.

End RegistryFacts.

(** ** The results the execution loop builds *)

Section ExecutionFacts.

Variable env : Env.

Lemma keys_stamped k items : keys (stamped env k items) = keys (completed items).
Proof.
  revert k. induction items as [|[n info] items IH]; intros k; simpl; [reflexivity|].
  destruct (make_result (outcome_of info) (now_isoformat env k)) as [r|] eqn:Hr.
  - rewrite (make_result_no_escape _ _ _ Hr). simpl. f_equal. apply IH.
  - apply make_result_escape in Hr. now destruct (escape info).
Qed.


Lemma run_results_fresh k rs items :
  NoDup (keys rs ++ keys items) ->
  run_results env k rs items = rs ++ stamped env k items.
Proof.
  revert k rs. induction items as [|[n info] items IH]; intros k rs Hnd; simpl.
  - now rewrite app_nil_r.
  - destruct (make_result (outcome_of info) (now_isoformat env k)) as [r|];
      [|now rewrite app_nil_r].
    assert (Hfresh : ~ In n (keys rs)).
    { intros Hin. apply NoDup_remove_2 in Hnd. apply Hnd.
      apply in_or_app. now left. }
    rewrite dict_set_fresh by assumption.
    rewrite IH.
    + now rewrite <- app_assoc.
    + unfold keys in *. rewrite map_app, <- app_assoc. exact Hnd.
Qed.

Lemma run_results_nil k items :
  NoDup (keys items) -> run_results env k [] items = stamped env k items.
Proof. intros Hnd. now rewrite run_results_fresh. Qed.

Lemma escape_of_app l1 l2 :
  escape_of (l1 ++ l2)
  = match escape_of l1 with Some e => Some e | None => escape_of l2 end.
Proof.
  induction l1 as [|[n info] l1 IH]; simpl; [reflexivity|].
  destruct (escape info); [reflexivity | assumption].
Qed.

Lemma completed_app l1 l2 :
  escape_of l1 = None -> completed (l1 ++ l2) = l1 ++ completed l2.
Proof.
  induction l1 as [|[n info] l1 IH]; simpl; [reflexivity|].
  destruct (escape info); [discriminate|]. intros H. now rewrite IH.
Qed.

Lemma called_app l1 l2 :
  escape_of l1 = None -> called (l1 ++ l2) = l1 ++ called l2.
Proof.
  induction l1 as [|[n info] l1 IH]; simpl; [reflexivity|].
  destruct (escape info); [discriminate|]. intros H. now rewrite IH.
Qed.

Lemma called_escape l1 n info l2 e :
  escape_of l1 = None -> escape info = Some e ->
  called (l1 ++ (n, info) :: l2) = l1 ++ [(n, info)]
  /\ completed (l1 ++ (n, info) :: l2) = l1.
Proof.
  intros H1 He. rewrite called_app, completed_app by assumption. simpl.
  rewrite He. now rewrite app_nil_r.
Qed.

Lemma completed_incl items item : In item (completed items) -> In item items.
Proof.
  induction items as [|[n info] items IH]; simpl; [tauto|].
  destruct (escape info); simpl; tauto.
Qed.

Lemma called_incl items item : In item (called items) -> In item items.
Proof.
  induction items as [|[n info] items IH]; simpl; [tauto|].
  destruct (escape info); simpl; tauto.
Qed.

Lemma completed_called items item : In item (completed items) -> In item (called items).
Proof.
  induction items as [|[n info] items IH]; simpl; [tauto|].
  destruct (escape info); simpl; tauto.
Qed.

(** What comes before a check that is called does not escape. *)
Lemma called_before l1 n info l2 :
  NoDup (keys (l1 ++ (n, info) :: l2)) ->
  In n (keys (called (l1 ++ (n, info) :: l2))) ->
  escape_of l1 = None.
Proof.
  induction l1 as [|[n' info'] l1 IH]; simpl; intros Hnd Hin; [reflexivity|].
  inversion Hnd as [|? ? Hnotin Hnd']; subst.
  destruct (escape info') eqn:He.
  - exfalso. simpl in Hin. destruct Hin as [-> | []].
    apply Hnotin. unfold keys. rewrite map_app. apply in_or_app. right. now left.
  - simpl in Hin. destruct Hin as [-> | Hin].
    + exfalso. apply Hnotin. unfold keys. rewrite map_app. apply in_or_app.
      right. now left.
    + now apply IH.
Qed.

Lemma stamped_app k l1 l2 :
  escape_of l1 = None ->
  stamped env k (l1 ++ l2) = stamped env k l1 ++ stamped env (List.length l1 + k) l2.
Proof.
  revert k. induction l1 as [|[n info] l1 IH]; intros k; simpl; [reflexivity|].
  destruct (escape info) eqn:He; [discriminate|]. intros H.
  destruct (make_result (outcome_of info) (now_isoformat env k)) as [r|] eqn:Hr.
  - simpl. f_equal. rewrite IH by assumption. do 2 f_equal. lia.
  - apply make_result_escape in Hr. congruence.
Qed.

Lemma stamped_In k items n r :
  In (n, r) (stamped env k items) ->
  exists info t, In (n, info) items /\ make_result (outcome_of info) t = Some r.
Proof.
  revert k. induction items as [|[n' info'] items IH]; intros k; simpl; [tauto|].
  destruct (make_result (outcome_of info') (now_isoformat env k)) as [r'|] eqn:Hr;
    [|intros []].
  intros [E | Hin].
  - injection E as -> <-. exists info', (now_isoformat env k). split; [now left | assumption].
  - destruct (IH _ Hin) as (info & t & Hi & Hres). exists info, t.
    split; [now right | assumption].
Qed.


Lemma make_result_well_formed o t r : make_result o t = Some r -> well_formed r.
Proof.
  destruct o; simpl; intros [= <-]; [left | right]; simpl; repeat split; discriminate.
Qed.

Lemma calls_app a b : calls (a ++ b) = calls a ++ calls b.
Proof. apply flat_map_app. Qed.

Lemma execs_app a b : execs (a ++ b) = execs a ++ execs b.
Proof. apply flat_map_app. Qed.

Lemma calls_discover_events dir tc : calls (discover_events env dir tc) = [].
Proof.
  unfold discover_events, step_of, getitem.
  destruct (get (enabled tc) false); [|destruct (name tc); reflexivity].
  destruct (file tc) as [v|]; [|reflexivity].
  destruct dir; try reflexivity. destruct v; try reflexivity.
  destruct (path_exists env _); [|reflexivity].
  destruct (exec_module env _) as [m|e|e];
    [destruct (hasattr_run m); [destruct (name tc)|]| |]; reflexivity.
Qed.

Lemma calls_discover dir entries :
  calls (flat_map (discover_events env dir) entries) = [].
Proof.
  induction entries as [|tc entries IH]; simpl; [reflexivity|].
  now rewrite calls_app, IH, app_nil_r, calls_discover_events.
Qed.

Lemma calls_run_events items :
  calls (flat_map (fun item => run_events (fst item) (snd item)) items)
  = map (fun item => (fst item, params_of (snd item))) items.
Proof.
  induction items as [|[n info] items IH]; [reflexivity|].
  cbn [flat_map map fst snd]. rewrite calls_app, IH.
  unfold run_events. rewrite calls_app.
  destruct (outcome_of info); reflexivity.
Qed.

Lemma calls_calls_of reg :
  calls (calls_of reg) = map (fun item => (fst item, params_of (snd item))) (called reg).
Proof. apply calls_run_events. Qed.

Lemma calls_report cfg rs : calls (report_events env cfg rs) = [].
Proof.
  unfold report_events. rewrite calls_app. simpl.
  destruct (get (cfg_save_results cfg) false); [|reflexivity].
  unfold save_events. destruct (open_w env _); [reflexivity|].
  destruct (json_encode _); reflexivity.
Qed.

Lemma execs_calls_of reg : execs (calls_of reg) = [].
Proof.
  unfold calls_of. induction (called reg) as [|[n info] items IH]; [reflexivity|].
  cbn [flat_map map fst snd]. rewrite execs_app, IH.
  unfold run_events. rewrite execs_app.
  destruct (outcome_of info); reflexivity.
Qed.

Lemma execs_report cfg rs : execs (report_events env cfg rs) = [].
Proof.
  unfold report_events. rewrite execs_app. simpl.
  destruct (get (cfg_save_results cfg) false); [|reflexivity].
  unfold save_events. destruct (open_w env _); [reflexivity|].
  destruct (json_encode _); reflexivity.
Qed.

End ExecutionFacts.

(** ** Whole runs *)

Section RunsFacts.

Variable env : Env.

Lemma registry_keys_NoDup dir entries : NoDup (keys (registry env dir entries)).
Proof. unfold registry. apply registry_NoDup. constructor. Qed.

Lemma finish_ending path cfg entries :
  fst (finish env path cfg entries) = ending env (tests_dir_of cfg) entries.
Proof.
  unfold finish, ending.
  destruct (crash_of env (tests_dir_of cfg) entries); [reflexivity|].
  destruct (registry env (tests_dir_of cfg) entries) as [|item reg]; [reflexivity|].
  now destruct (escape_of (item :: reg)).
Qed.

(** What a run with a loaded configuration that names its entries ends in. *)
Lemma final_loaded argv cfg entries :
  read_json env (script_arg argv) = ReadOk cfg ->
  cfg_tests cfg = Some entries ->
  let dir := tests_dir_of cfg in
  let reg := registry env dir entries in
  fst (main env argv (start "config.json")) = ending env dir entries
  /\ exit_code env argv = exit_status (ending env dir entries)
  /\ tests (self (final env argv)) = reg
  /\ execs (trace (final env argv)) = execs (discovery_events env dir entries)
  /\ results (self (final env argv))
     = match crash_of env dir entries with
       | Some _ => []
       | None => stamped env 0 reg
       end
  /\ calls (trace (final env argv))
     = match crash_of env dir entries with
       | Some _ => []
       | None => map (fun item => (fst item, params_of (snd item))) (called reg)
       end
  /\ clock (final env argv)
     = match crash_of env dir entries with
       | Some _ => 0
       | None => List.length (completed reg)
       end
  /\ disk (final env argv)
     = match ending env dir entries with
       | Val _ => report_disk env cfg (stamped env 0 reg) []
       | Err _ => []
       end.
Proof.
  intros Hread Htests dir reg.
  pose proof (registry_keys_NoDup dir entries) as Hnd. fold reg in Hnd.
  unfold final, exit_code. rewrite run_eq, main_eq. unfold main_spec.
  rewrite Hread, Htests. rewrite finish_ending. fold dir.
  split; [reflexivity|]. split; [reflexivity|].
  unfold finish, ending, discovery_events. fold dir. fold reg.
  assert (Hlen : escape_of reg = None -> List.length reg = List.length (completed reg)).
  { intros H. now rewrite completed_no_escape. }
  destruct (crash_of env dir entries) as [e|];
    [|destruct reg as [|item reg'] eqn:Hreg;
      [|rewrite <- Hreg in *; clear Hreg; destruct (escape_of reg) as [e|]]];
    cbn [snd self tests results trace clock disk]; repeat split;
    try (now apply run_results_nil); try (now apply Hlen);
    try (now rewrite run_results_nil);
    change (Print "Start" :: ?l) with ([Print "Start"] ++ l);
    rewrite ?execs_app, ?calls_app, ?calls_discover, ?calls_calls_of, ?calls_report,
      ?execs_calls_of, ?execs_report;
    cbn [execs calls flat_map app]; rewrite ?app_nil_r; reflexivity.
Qed.

(** What a run without a configuration that names its entries ends in. *)
Lemma final_unloaded argv :
  (forall cfg entries,
      read_json env (script_arg argv) = ReadOk cfg -> cfg_tests cfg <> Some entries) ->
  tests (self (final env argv)) = []
  /\ results (self (final env argv)) = []
  /\ calls (trace (final env argv)) = []
  /\ execs (trace (final env argv)) = []
  /\ clock (final env argv) = 0
  /\ disk (final env argv) = []
  /\ exit_code env argv = 1.
Proof.
  intros Hno. unfold final, exit_code. rewrite run_eq. unfold main_spec.
  destruct (read_json env (script_arg argv)) as [cfg| |e|c e]; try (repeat split; fail).
  destruct (cfg_tests cfg) as [entries|] eqn:Htests; [|repeat split].
  now elim (Hno cfg entries).
Qed.

Lemma loaded_or_not argv :
  (exists cfg entries,
      read_json env (script_arg argv) = ReadOk cfg /\ cfg_tests cfg = Some entries)
  \/ (forall cfg entries,
         read_json env (script_arg argv) = ReadOk cfg -> cfg_tests cfg <> Some entries).
Proof.
  destruct (read_json env (script_arg argv)) as [cfg| |e|c e];
    try (right; intros; discriminate).
  destruct (cfg_tests cfg) as [entries|] eqn:Htests.
  - left. eauto.
  - right. intros cfg' entries [= <-]. congruence.
Qed.

Lemma final_tests_NoDup argv : NoDup (keys (tests (self (final env argv)))).
Proof.
  destruct (loaded_or_not argv) as [(cfg & entries & Hread & Htests) | Hno].
  - destruct (final_loaded argv cfg entries Hread Htests) as (_ & _ & -> & _).
    apply registry_keys_NoDup.
  - destruct (final_unloaded argv Hno) as (-> & _). constructor.
Qed.

(** Either the execution loop was entered, and the result set, the calls
    and the clock are those of the registry's checks up to the first that
    escapes, or nothing was called. *)
Lemma final_execution argv :
  (results (self (final env argv)) = stamped env 0 (tests (self (final env argv)))
   /\ calls (trace (final env argv))
      = map (fun item => (fst item, params_of (snd item)))
          (called (tests (self (final env argv))))
   /\ clock (final env argv) = List.length (completed (tests (self (final env argv)))))
  \/ (results (self (final env argv)) = []
      /\ calls (trace (final env argv)) = []
      /\ clock (final env argv) = 0).
Proof.
  destruct (loaded_or_not argv) as [(cfg & entries & Hread & Htests) | Hno].
  - destruct (final_loaded argv cfg entries Hread Htests)
      as (_ & _ & Ht & _ & Hr & Hc & Hk & _).
    rewrite Ht, Hr, Hc, Hk.
    destruct (crash_of env (tests_dir_of cfg) entries); [right | left]; auto.
  - destruct (final_unloaded argv Hno) as (_ & -> & -> & _ & -> & _). right. auto.
Qed.

(** The keys of the result set are distinct. *)
Lemma final_results_NoDup argv : NoDup (keys (results (self (final env argv)))).
Proof.
  destruct (final_execution argv) as [(-> & _) | (-> & _)]; [|constructor].
  rewrite keys_stamped.
  pose proof (final_tests_NoDup argv) as Hnd.
  revert Hnd. generalize (tests (self (final env argv))) as items.
  induction items as [|[n info] items IH]; simpl; intros Hnd; [constructor|].
  inversion Hnd as [|? ? Hnotin Hnd']; subst.
  destruct (escape info); [constructor|].
  simpl. constructor; [|now apply IH].
  intros Hin. apply Hnotin. unfold keys in *.
  apply in_map_iff in Hin as (item & <- & Hin).
  apply in_map. now apply completed_incl.
Qed.

(** Every result is the result of a registered check, stamped in its turn. *)
Lemma final_result_origin argv n r :
  dict_get n (results (self (final env argv))) = Some r ->
  exists info t,
    dict_get n (tests (self (final env argv))) = Some info
    /\ make_result (outcome_of info) t = Some r.
Proof.
  intros Hget. apply dict_get_In in Hget.
  destruct (final_execution argv) as [(Hr & _) | (Hr & _)]; rewrite Hr in Hget;
    [|contradiction].
  destruct (stamped_In env _ _ _ _ Hget) as (info & t & Hin & Hres).
  exists info, t. split; [|assumption].
  apply In_dict_get; [apply final_tests_NoDup | assumption].
Qed.

End RunsFacts.

(** ** Changing the configuration an installation holds *)

Section ComparisonFacts.

Variable env : Env.


(** Two lists of entries that build the same registry, the loop ending in
    the same way, end in the same result set, calls, exit status, files and
    clock. *)
Lemma final_same_registry argv cfg entries entries' :
  read_json env (script_arg argv) = ReadOk cfg ->
  cfg_tests cfg = Some entries ->
  registry env (tests_dir_of cfg) entries = registry env (tests_dir_of cfg) entries' ->
  crash_of env (tests_dir_of cfg) entries = crash_of env (tests_dir_of cfg) entries' ->
  let env' := map_config (set_entries entries') env in
  tests (self (final env argv)) = tests (self (final env' argv))
  /\ results (self (final env argv)) = results (self (final env' argv))
  /\ calls (trace (final env argv)) = calls (trace (final env' argv))
  /\ exit_code env argv = exit_code env' argv
  /\ disk (final env argv) = disk (final env' argv)
  /\ clock (final env argv) = clock (final env' argv).
Proof.
  intros Hread Htests Hreg Hcrash env'.
  assert (Hread' : read_json env' (script_arg argv) = ReadOk (set_entries entries' cfg)).
  { unfold env', map_config; simpl. now rewrite Hread. }
  destruct (final_loaded env argv cfg entries Hread Htests)
    as (_ & Hx & Ht & _ & Hr & Hc & Hk & Hd).
  destruct (final_loaded env' argv _ entries' Hread' eq_refl)
    as (_ & Hx' & Ht' & _ & Hr' & Hc' & Hk' & Hd').
  change (tests_dir_of (set_entries entries' cfg)) with (tests_dir_of cfg) in *.
  change (registry env' (tests_dir_of cfg) entries')
    with (registry env (tests_dir_of cfg) entries') in *.
  change (crash_of env' (tests_dir_of cfg) entries')
    with (crash_of env (tests_dir_of cfg) entries') in *.
  change (ending env' (tests_dir_of cfg) entries')
    with (ending env (tests_dir_of cfg) entries') in *.
  change (stamped env') with (stamped env) in *.
  change (report_disk env' (set_entries entries' cfg))
    with (report_disk env cfg) in *.
  assert (Hend : ending env (tests_dir_of cfg) entries
                 = ending env (tests_dir_of cfg) entries').
  { unfold ending. now rewrite Hreg, Hcrash. }
  rewrite Hx, Ht, Hr, Hc, Hk, Hd, Hx', Ht', Hr', Hc', Hk', Hd'.
  rewrite <- Hreg, <- Hcrash, <- Hend. repeat split.
Qed.

(** With the same diagnostics as well, they end in the same trace. *)
Lemma final_same_discovery argv cfg entries entries' :
  read_json env (script_arg argv) = ReadOk cfg ->
  cfg_tests cfg = Some entries ->
  registry env (tests_dir_of cfg) entries = registry env (tests_dir_of cfg) entries' ->
  crash_of env (tests_dir_of cfg) entries = crash_of env (tests_dir_of cfg) entries' ->
  discovery_events env (tests_dir_of cfg) entries
  = discovery_events env (tests_dir_of cfg) entries' ->
  let env' := map_config (set_entries entries') env in
  trace (final env argv) = trace (final env' argv).
Proof.
  intros Hread Htests Hreg Hcrash Hdisc env'.
  assert (Hread' : read_json env' (script_arg argv) = ReadOk (set_entries entries' cfg)).
  { unfold env', map_config; simpl. now rewrite Hread. }
  unfold final. rewrite !run_eq. unfold main_spec.
  rewrite Hread, Hread', Htests. cbn [set_entries cfg_tests].
  unfold finish.
  change (tests_dir_of (set_entries entries' cfg)) with (tests_dir_of cfg).
  change (registry env' (tests_dir_of cfg) entries')
    with (registry env (tests_dir_of cfg) entries').
  change (crash_of env' (tests_dir_of cfg) entries')
    with (crash_of env (tests_dir_of cfg) entries').
  change (discovery_events env' (tests_dir_of cfg) entries')
    with (discovery_events env (tests_dir_of cfg) entries').
  rewrite <- Hreg, <- Hcrash, <- Hdisc.
  destruct (crash_of env (tests_dir_of cfg) entries); [reflexivity|].
  destruct (registry env (tests_dir_of cfg) entries) as [|item reg]; [reflexivity|].
  destruct (escape_of (item :: reg)); reflexivity.
Qed.

(** Every result of a run is the outcome of a registered check, and the
    registered checks are entries that loaded. *)
Lemma final_origin argv cfg entries n r :
  read_json env (script_arg argv) = ReadOk cfg ->
  cfg_tests cfg = Some entries ->
  dict_get n (results (self (final env argv))) = Some r ->
  exists info t,
    dict_get n (tests (self (final env argv))) = Some info
    /\ make_result (outcome_of info) t = Some r
    /\ In (ti_config info) entries
    /\ name (ti_config info) = Some n
    /\ loads env (tests_dir_of cfg) (ti_config info) = Some (ti_module info).
Proof.
  intros Hread Htests Hget.
  destruct (final_result_origin env argv n r Hget) as (info & t & Hinfo & Hres).
  exists info, t. split; [assumption|]. split; [assumption|].
  destruct (final_loaded env argv cfg entries Hread Htests) as (_ & _ & Ht & _).
  rewrite Ht in Hinfo. unfold registry in Hinfo.
  destruct (registry_origin env _ _ _ _ _ Hinfo) as [Hnil | (tc & Hi & Hn & Hc & Hl)].
  - discriminate.
  - subst tc. split; [|auto]. eapply reached_incl; eassumption.
Qed.

(** A run that is not cut short names, in its result set, exactly the
    entries that load. *)
Lemma final_names argv cfg entries n :
  read_json env (script_arg argv) = ReadOk cfg ->
  cfg_tests cfg = Some entries ->
  crash_of env (tests_dir_of cfg) entries = None ->
  escape_of (registry env (tests_dir_of cfg) entries) = None ->
  In n (keys (results (self (final env argv)))) <->
  exists tc, In tc entries /\ name tc = Some n /\ loads env (tests_dir_of cfg) tc <> None.
Proof.
  intros Hread Htests Hcrash Hesc.
  destruct (final_loaded env argv cfg entries Hread Htests) as (_ & _ & _ & _ & Hr & _).
  rewrite Hr, Hcrash, keys_stamped, (completed_no_escape _ Hesc). unfold registry.
  rewrite (reached_no_crash _ _ _ Hcrash), registry_keys. simpl. tauto.
Qed.

(** When no entry of a name loads, the name is not in the result set. *)
Lemma final_name_absent argv cfg entries n :
  read_json env (script_arg argv) = ReadOk cfg ->
  cfg_tests cfg = Some entries ->
  (forall c, In c entries -> name c = Some n -> loads env (tests_dir_of cfg) c = None) ->
  dict_get n (results (self (final env argv))) = None.
Proof.
  intros Hread Htests Hnone.
  destruct (dict_get n (results (self (final env argv)))) as [r|] eqn:Hget; [|reflexivity].
  destruct (final_origin argv cfg entries n r Hread Htests Hget)
    as (info & t & _ & _ & Hin & Hn & Hl).
  rewrite (Hnone _ Hin Hn) in Hl. discriminate.
Qed.

End ComparisonFacts.

(** ** Results and calls at a place of the registry *)

Section PlaceFacts.

Variable env : Env.

Lemma dict_get_app_fresh {V : Type} k (d1 d2 : dict V) :
  ~ In k (keys d1) -> dict_get k (d1 ++ d2) = dict_get k d2.
Proof.
  induction d1 as [|[k' v'] d1 IH]; simpl; intros Hnotin; [reflexivity|].
  destruct (String.eqb_spec k k') as [->|Hne]; [exfalso; apply Hnotin; now left|].
  apply IH. tauto.
Qed.

Lemma NoDup_keys_middle {V : Type} (l1 : dict V) n v l2 :
  NoDup (keys (l1 ++ (n, v) :: l2)) -> ~ In n (keys l1) /\ ~ In n (keys l2).
Proof.
  unfold keys. rewrite map_app. simpl. intros Hnd.
  apply NoDup_remove_2 in Hnd. rewrite in_app_iff in Hnd. tauto.
Qed.

(** The result of the check at a place all checks before which come back. *)
Lemma stamped_at k l1 n info l2 :
  NoDup (keys (l1 ++ (n, info) :: l2)) ->
  escape_of l1 = None ->
  dict_get n (stamped env k (l1 ++ (n, info) :: l2))
  = make_result (outcome_of info) (now_isoformat env (List.length l1 + k)).
Proof.
  intros Hnd Hesc. rewrite stamped_app by assumption.
  rewrite dict_get_app_fresh.
  - simpl. destruct (make_result _ _); [|reflexivity].
    simpl. now rewrite String.eqb_refl.
  - rewrite keys_stamped, (completed_no_escape _ Hesc).
    now apply NoDup_keys_middle in Hnd.
Qed.

(** No result for a check that comes after one that escapes. *)
Lemma stamped_after k l1 n info l2 x n' :
  NoDup (keys (l1 ++ (n, info) :: l2)) ->
  escape_of l1 = None -> escape info = Some x ->
  In n' (keys l2) ->
  dict_get n' (stamped env k (l1 ++ (n, info) :: l2)) = None.
Proof.
  intros Hnd Hesc Hx Hin. apply dict_get_None.
  rewrite keys_stamped.
  destruct (called_escape l1 n info l2 x Hesc Hx) as (_ & ->).
  intros Hin1. unfold keys in *. rewrite map_app in Hnd. simpl in Hnd.
  apply NoDup_remove_1 in Hnd.
  apply in_split in Hin1 as (a1 & a2 & Ha). rewrite Ha in Hnd.
  rewrite <- app_assoc in Hnd. simpl in Hnd.
  apply NoDup_remove_2 in Hnd. apply Hnd.
  rewrite !in_app_iff. auto.
Qed.

(** No call for a check that comes after one that escapes. *)
Lemma called_after l1 n info l2 x n' :
  NoDup (keys (l1 ++ (n, info) :: l2)) ->
  escape_of l1 = None -> escape info = Some x ->
  In n' (keys l2) ->
  ~ In n' (keys (called (l1 ++ (n, info) :: l2))).
Proof.
  intros Hnd Hesc Hx Hin.
  destruct (called_escape l1 n info l2 x Hesc Hx) as (-> & _).
  intros Hin1. unfold keys in *. rewrite map_app in Hnd, Hin1. simpl in Hnd, Hin1.
  apply in_split in Hin as (b1 & b2 & Hb). rewrite Hb in Hnd.
  replace (map fst l1 ++ n :: b1 ++ n' :: b2)
    with ((map fst l1 ++ n :: b1) ++ n' :: b2) in Hnd
    by (now rewrite <- app_assoc).
  apply NoDup_remove_2 in Hnd. apply Hnd.
  rewrite !in_app_iff in *. simpl in *. tauto.
Qed.

Lemma keys_calls items :
  map fst (map (fun item : string * test_info => (fst item, params_of (snd item))) items)
  = keys items.
Proof. unfold keys. rewrite map_map. reflexivity. Qed.

Lemma In_calls_keys n ps items :
  In (n, ps) (map (fun item : string * test_info => (fst item, params_of (snd item))) items)
  -> In n (keys items).
Proof.
  intros Hin. apply in_map_iff in Hin as ([n' info'] & [= <- _] & Hin).
  change n' with (fst (n', info')). now apply in_map.
Qed.

End PlaceFacts.

(** * The properties the specification states *)

(** ** C1: a check that raises *)

(** C1, as stated, fails: the recorded error message is [str(e)], and that is
    the empty string for an exception raised without a message.  Here check
    [A] is loaded, its call raises, and the result recorded for it has status
    [error] and the empty string as its message. *)
Lemma empty_error_message :
  In ("A", {| ti_module := Samples.fails_silently;
              ti_config := Samples.spec "A" "a.py" Samples.on (Some (PDict [])) |})
     (tests (self (final Samples.silent_failure Samples.argv)))
  /\ outcome_of {| ti_module := Samples.fails_silently;
                   ti_config := Samples.spec "A" "a.py" Samples.on (Some (PDict [])) |}
     = Raises ""
  /\ dict_get "A" (results (self (final Samples.silent_failure Samples.argv)))
     = Some {| status := "error"; result := None; error := Some "";
               timestamp := "2024-05-01T10:00:00" |}.
Proof.
  split; [|split].
  - vm_compute. left. reflexivity.
  - vm_compute. reflexivity.
  - vm_compute. reflexivity.
Qed.

(** C1 (amended): when the call of a loaded check raises an exception below
    [Exception], the result recorded under its name has status [error], no
    payload, and the stringified failure as its message (whatever that
    string is), stamped with the clock reading of its turn.  A check loaded
    after it, up to and including the first whose call raises outside
    [Exception], is still called, and has the result its own outcome gives
    (none for the one that raises outside [Exception]); the checks after
    that one are not called and have no result. *)
Theorem failure_recorded_and_isolated
  (env : Env) (argv : list string)
  (l1 : dict test_info) (n : string) (info : test_info) (l2 : dict test_info)
  (e : string) :
  tests (self (final env argv)) = l1 ++ (n, info) :: l2 ->
  In (n, params_of info) (calls (trace (final env argv))) ->
  outcome_of info = Raises e ->
  dict_get n (results (self (final env argv)))
  = Some {| status := "error"; result := None; error := Some e;
            timestamp := now_isoformat env (List.length l1) |}
  /\ (forall l2a n' info' l2b,
         l2 = l2a ++ (n', info') :: l2b ->
         escape_of l2a = None ->
         In (n', params_of info') (calls (trace (final env argv)))
         /\ dict_get n' (results (self (final env argv)))
            = make_result (outcome_of info')
                (now_isoformat env (List.length l1 + S (List.length l2a))))
  /\ (forall l2a n' info' l2b x,
         l2 = l2a ++ (n', info') :: l2b ->
         escape_of l2a = None ->
         outcome_of info' = Escapes x ->
         fst (main env argv (start "config.json")) = Err x
         /\ forall n'', In n'' (keys l2b) ->
              ~ In n'' (map fst (calls (trace (final env argv))))
              /\ dict_get n'' (results (self (final env argv))) = None).
Proof.
  intros Htests Hcalled Hraises.
  pose proof (final_tests_NoDup env argv) as Hnd.
  assert (Hrun : results (self (final env argv))
                 = stamped env 0 (tests (self (final env argv)))
                 /\ calls (trace (final env argv))
                    = map (fun item => (fst item, params_of (snd item)))
                        (called (tests (self (final env argv))))).
  { destruct (final_execution env argv) as [(Hr & Hc & _) | (_ & Hc & _)]; [auto|].
    rewrite Hc in Hcalled. contradiction. }
  destruct Hrun as (Hres & Hcalls).
  rewrite Htests in Hnd, Hres, Hcalls.
  assert (Hbefore : escape_of l1 = None).
  { apply (called_before l1 n info l2 Hnd).
    rewrite Hcalls in Hcalled. now apply In_calls_keys in Hcalled. }
  assert (Hself : escape info = None).
  { unfold escape. now rewrite Hraises. }
  assert (Hupto : forall l2a, escape_of l2a = None ->
                    escape_of (l1 ++ (n, info) :: l2a) = None).
  { intros l2a Ha. rewrite escape_of_app, Hbefore. simpl. now rewrite Hself. }
  split; [|split].
  - rewrite Hres, (stamped_at env 0 l1 n info l2 Hnd Hbefore), Hraises, Nat.add_0_r.
    reflexivity.
  - intros l2a n' info' l2b -> Ha.
    assert (Heq : l1 ++ (n, info) :: l2a ++ (n', info') :: l2b
                  = (l1 ++ (n, info) :: l2a) ++ (n', info') :: l2b).
    { now rewrite <- app_assoc. }
    rewrite Heq in Hnd, Hres, Hcalls. split.
    + rewrite Hcalls, called_app by auto.
      apply (in_map (fun item => (fst item, params_of (snd item))) _ (n', info')).
      apply in_or_app. right. simpl. destruct (escape info'); now left.
    + rewrite Hres, (stamped_at env 0 _ n' info' l2b Hnd (Hupto l2a Ha)).
      do 2 f_equal. rewrite length_app. simpl. lia.
  - intros l2a n' info' l2b x -> Ha Hx.
    assert (Heq : l1 ++ (n, info) :: l2a ++ (n', info') :: l2b
                  = (l1 ++ (n, info) :: l2a) ++ (n', info') :: l2b).
    { now rewrite <- app_assoc. }
    assert (Hesc : escape info' = Some x).
    { unfold escape. now rewrite Hx. }
    split.
    + destruct (loaded_or_not env argv) as [(cfg & entries & Hread & Hcfg) | Hno].
      * destruct (final_loaded env argv cfg entries Hread Hcfg)
          as (Hend & _ & Ht & _ & _ & Hc & _).
        rewrite Hend. unfold ending.
        destruct (crash_of env (tests_dir_of cfg) entries).
        { rewrite Hc in Hcalled. contradiction. }
        rewrite <- Ht, Htests, Heq.
        destruct ((l1 ++ (n, info) :: l2a) ++ (n', info') :: l2b) eqn:Hl.
        { now destruct l1. }
        rewrite <- Hl, escape_of_app, (Hupto l2a Ha). simpl. now rewrite Hesc.
      * destruct (final_unloaded env argv Hno) as (_ & _ & Hc & _).
        rewrite Hc in Hcalled. contradiction.
    + intros n'' Hin. rewrite Heq in Hnd, Hres, Hcalls. split.
      * rewrite Hcalls, keys_calls.
        exact (called_after _ n' info' l2b x n'' Hnd (Hupto l2a Ha) Hesc Hin).
      * rewrite Hres. exact (stamped_after env 0 _ n' info' l2b x n'' Hnd (Hupto l2a Ha) Hesc Hin).
Qed.

(** Three checks, the middle one raising [RuntimeError("boom")]. *)
Lemma failure_recorded_and_isolated_witness :
  dict_get "B" (results (self (final Samples.three_checks Samples.argv)))
  = Some {| status := "error"; result := None; error := Some "boom";
            timestamp := now_isoformat Samples.three_checks 1 |}
  /\ dict_get "C" (results (self (final Samples.three_checks Samples.argv)))
     = Some {| status := "success";
               result := Some (PDict [(KStr "status", PStr "completed")]);
               error := None;
               timestamp := now_isoformat Samples.three_checks 2 |}.
Proof.
  pose proof (failure_recorded_and_isolated Samples.three_checks Samples.argv
           [("A", {| ti_module := Samples.completes;
                     ti_config := Samples.spec "A" "a.py" Samples.on (Some (PDict [])) |})]
           "B"
           {| ti_module := Samples.booms;
              ti_config := Samples.spec "B" "b.py" Samples.on (Some (PDict [])) |}
           [("C", {| ti_module := Samples.completes;
                     ti_config := Samples.spec "C" "c.py" Samples.on (Some (PDict [])) |})]
           "boom" eq_refl) as H.
  destruct H as (HB & HC & _).
  - vm_compute. right. left. reflexivity.
  - reflexivity.
  - split; [exact HB|].
    exact (proj2 (HC [] "C" _ [] eq_refl eq_refl)).
Defined.

(** A check that calls [sys.exit(3)] between two that return: the run ends
    there with status 3, the check has no result and the one after it is not
    called. *)
Example exit_inside_a_check :
  exit_code Samples.exit_in_the_middle Samples.argv = 3
  /\ keys (tests (self (final Samples.exit_in_the_middle Samples.argv))) = ["A"; "B"; "C"]
  /\ map fst (calls (trace (final Samples.exit_in_the_middle Samples.argv))) = ["A"; "B"]
  /\ keys (results (self (final Samples.exit_in_the_middle Samples.argv))) = ["A"].
Proof. vm_compute. repeat split. Qed.

(** ** C2: entries that fail to load *)







(** The run with the five entries: [A] and [C] are registered and run. *)
Example faulty_entries_run :
  keys (results (self (final Samples.faulty_entries Samples.argv))) = ["A"; "C"]
  /\ prints (discovery_events Samples.faulty_entries (PStr "tests")
               [Samples.spec "A" "a.py" Samples.on (Some (PDict []));
                Samples.spec "M" "missing.py" Samples.on (Some (PDict []));
                Samples.spec "S" "syntax.py" Samples.on (Some (PDict []));
                Samples.spec "R" "runless.py" Samples.on (Some (PDict []));
                Samples.spec "C" "c.py" Samples.on (Some (PDict []))])
     = ["[+] Loaded test: A";
        "[!] Test file not found: tests/missing.py";
        "[!] Error loading test module tests/syntax.py: invalid syntax (syntax.py, line 1)";
        "[!] Test module syntax.py missing 'run' function";
        "[!] Test module runless.py missing 'run' function";
        "[+] Loaded test: C"].
Proof. split; vm_compute; reflexivity. Qed.

(** ** C3: the exit status *)






(** What that run leaves behind. *)
Example failures_do_not_change_the_exit_status :
  count_status "error" (results (self (final Samples.all_fail_and_no_report Samples.argv))) = 2
  /\ In (Print "Error saving results: [Errno 13] Permission denied: '/proc/report.json'")
        (trace (final Samples.all_fail_and_no_report Samples.argv))
  /\ disk (final Samples.all_fail_and_no_report Samples.argv) = [].
Proof.
  split; [|split]; vm_compute; auto 30.
Qed.

(** A configuration with an empty list of entries: status 1 and no result. *)
Example empty_list_of_entries :
  let env := Samples.installation (Samples.configuration [] None) [] in
  exit_code env Samples.argv = 1
  /\ results (self (final env Samples.argv)) = []
  /\ prints (trace (final env Samples.argv))
     = ["Start"; "[+] Configuration loaded from config.json";
        "No tests loaded. Exiting."].
Proof.
  split; [|split]; vm_compute; reflexivity.
Qed.

(** ** C4: the shape of a result *)

(** C4: every result [run_test] places, and so every result of the result
    set a run ends with, has status [success], a payload and no message, or
    status [error], a message and no payload.  ([run_test] places a result
    unless the call of the check leaves it by an exception outside
    [Exception], and then it leaves the result set as it was.) *)
Theorem result_shape_follows_status (env : Env) :
  (forall test_name info p,
      (exists r,
          fst (run_test env test_name info p) = Val tt
          /\ results (self (snd (run_test env test_name info p)))
             = dict_set test_name r (results (self p))
          /\ ((status r = "success" /\ result r <> None /\ error r = None)
              \/ (status r = "error" /\ error r <> None /\ result r = None)))
      \/ (exists x,
             outcome_of info = Escapes x
             /\ fst (run_test env test_name info p) = Err x
             /\ results (self (snd (run_test env test_name info p)))
                = results (self p)))
  /\ (forall argv n r,
         dict_get n (results (self (final env argv))) = Some r ->
         (status r = "success" /\ result r <> None /\ error r = None)
         \/ (status r = "error" /\ error r <> None /\ result r = None)).
Proof.
  split.
  - intros test_name info p. rewrite run_test_eq.
    destruct (make_result (outcome_of info) (now_isoformat env (clock p)))
      as [r|] eqn:Hr.
    + left. exists r. cbn [fst snd self with_results results].
      split; [reflexivity|]. split; [reflexivity|].
      eapply make_result_well_formed; eassumption.
    + right. unfold escape. destruct (outcome_of info) as [v|e|x]; try discriminate.
      exists x. cbn [fst snd self]. auto.
  - intros argv n r Hget.
    destruct (final_result_origin env argv n r Hget) as (info & t & _ & Hres).
    eapply make_result_well_formed; eassumption.
Qed.

(** The result of the check that raises, in the batch of three. *)
Lemma result_shape_follows_status_witness :
  let r := {| status := "error"; result := None; error := Some "boom";
              timestamp := "2024-05-01T10:00:01" |} in
  (status r = "success" /\ result r <> None /\ error r = None)
  \/ (status r = "error" /\ error r <> None /\ result r = None).
Proof.
  apply (proj2 (result_shape_follows_status Samples.three_checks) Samples.argv "B").
  vm_compute. reflexivity.
Defined.

(** ** C5: the summary *)




(** ** C6: disabled entries *)

(** Taking out an entry that executes no file and does not raise leaves
    the files the discovery loop executes as they are. *)
Lemma execs_discovery_erase env dir l1 tc l2 :
  crash env dir tc = None ->
  execs (discover_events env dir tc) = [] ->
  execs (discovery_events env dir (l1 ++ tc :: l2))
  = execs (discovery_events env dir (l1 ++ l2)).
Proof.
  intros Hc He. unfold discovery_events. rewrite !reached_app.
  destruct (crash_of env dir l1); [reflexivity|].
  cbn [reached]. rewrite Hc, !flat_map_app, !execs_app. cbn [flat_map].
  now rewrite execs_app, He.
Qed.

(** What a run without the entry between [l1] and [l2] shares with the run
    that has it, when the entry neither loads nor raises. *)
Lemma unloaded_entry_erased env argv cfg l1 tc l2 :
  read_json env (script_arg argv) = ReadOk cfg ->
  cfg_tests cfg = Some (l1 ++ tc :: l2) ->
  loads env (tests_dir_of cfg) tc = None ->
  crash env (tests_dir_of cfg) tc = None ->
  let without := map_config (set_entries (l1 ++ l2)) env in
  tests (self (final env argv)) = tests (self (final without argv))
  /\ results (self (final env argv)) = results (self (final without argv))
  /\ calls (trace (final env argv)) = calls (trace (final without argv))
  /\ exit_code env argv = exit_code without argv
  /\ disk (final env argv) = disk (final without argv)
  /\ clock (final env argv) = clock (final without argv).
Proof.
  intros Hread Htests Hl Hc without.
  destruct (reached_erase env _ l1 tc l2 [] Hl Hc) as (Hreg & Hcr).
  exact (final_same_registry env argv cfg _ _ Hread Htests Hreg Hcr).
Qed.

Lemma execs_erased env argv cfg l1 tc l2 :
  read_json env (script_arg argv) = ReadOk cfg ->
  cfg_tests cfg = Some (l1 ++ tc :: l2) ->
  crash env (tests_dir_of cfg) tc = None ->
  execs (discover_events env (tests_dir_of cfg) tc) = [] ->
  let without := map_config (set_entries (l1 ++ l2)) env in
  execs (trace (final env argv)) = execs (trace (final without argv)).
Proof.
  intros Hread Htests Hc He without.
  assert (Hread' : read_json without (script_arg argv)
                   = ReadOk (set_entries (l1 ++ l2) cfg)).
  { unfold without, map_config; simpl. now rewrite Hread. }
  destruct (final_loaded env argv cfg _ Hread Htests) as (_ & _ & _ & Hx & _).
  destruct (final_loaded without argv _ (l1 ++ l2) Hread' eq_refl)
    as (_ & _ & _ & Hx' & _).
  rewrite Hx, Hx'.
  change (discovery_events without (tests_dir_of (set_entries (l1 ++ l2) cfg)))
    with (discovery_events env (tests_dir_of cfg)).
  now apply execs_discovery_erase.
Qed.

(** Whether the name of an entry that does not load is in the result set of
    a run that nothing cuts short. *)
Lemma unloaded_name_absent env argv cfg l1 tc l2 n :
  read_json env (script_arg argv) = ReadOk cfg ->
  cfg_tests cfg = Some (l1 ++ tc :: l2) ->
  loads env (tests_dir_of cfg) tc = None ->
  crash_of env (tests_dir_of cfg) (l1 ++ tc :: l2) = None ->
  escape_of (registry env (tests_dir_of cfg) (l1 ++ tc :: l2)) = None ->
  dict_get n (results (self (final env argv))) = None
  <-> forall c, In c (l1 ++ l2) -> name c = Some n -> loads env (tests_dir_of cfg) c = None.
Proof.
  intros Hread Htests Hskip Hcrash Hesc.
  rewrite dict_get_None, (final_names env argv cfg _ n Hread Htests Hcrash Hesc).
  split.
  - intros Hno c Hin Hname.
    destruct (loads env (tests_dir_of cfg) c) as [m|] eqn:Hl; [|reflexivity].
    exfalso. apply Hno. exists c. repeat split; [|assumption|congruence].
    apply in_app_or in Hin. apply in_or_app. simpl. tauto.
  - intros Hothers (c & Hin & Hname & Hl).
    apply in_app_or in Hin. destruct Hin as [Hin | [<- | Hin]].
    + apply Hl, Hothers; [apply in_or_app; now left | assumption].
    + contradiction.
    + apply Hl, Hothers; [apply in_or_app; now right | assumption].
Qed.

(** The name of an entry that does not load is not in the result set when
    no other entry of that name loads. *)
Lemma unloaded_name_not_recorded env argv cfg l1 tc l2 n :
  read_json env (script_arg argv) = ReadOk cfg ->
  cfg_tests cfg = Some (l1 ++ tc :: l2) ->
  loads env (tests_dir_of cfg) tc = None ->
  (forall c, In c (l1 ++ l2) -> name c = Some n -> loads env (tests_dir_of cfg) c = None) ->
  dict_get n (results (self (final env argv))) = None.
Proof.
  intros Hread Htests Hskip Hothers.
  apply (final_name_absent env argv cfg _ n Hread Htests).
  intros c Hin Hn. apply in_app_or in Hin. destruct Hin as [Hin | [<- | Hin]].
  - apply Hothers; [apply in_or_app; now left | assumption].
  - assumption.
  - apply Hothers; [apply in_or_app; now right | assumption].
Qed.

(** C6, as stated, fails when an enabled entry carries the name of the
    disabled one: the result set then has an entry under that name. *)
Lemma disabled_name_in_result_set :
  cfg_tests (config (self (final Samples.shadowed Samples.argv)))
  = Some [Samples.spec "A" "a.py" Samples.off (Some (PDict []));
          Samples.spec "A" "b.py" Samples.on (Some (PDict []))]
  /\ enabled (Samples.spec "A" "a.py" Samples.off (Some (PDict []))) = Some false
  /\ dict_get "A" (results (self (final Samples.shadowed Samples.argv)))
     = Some {| status := "success";
               result := Some (PDict [(KStr "status", PStr "completed")]);
               error := None; timestamp := "2024-05-01T10:00:00" |}.
Proof.
  split; [|split]; vm_compute; reflexivity.
Qed.

(** C6 (amended): the iteration for an entry with [enabled] false, named
    [n], prints the skip line and does nothing else; the run executes the
    same files, makes the same calls and ends with the same registry and
    result set as the run without that entry; its name is absent from the
    result set when no other entry of that name loads, and, in a run that
    nothing cuts short, only then. *)
Theorem disabled_entry_is_never_run
  (env : Env) (argv : list string) (cfg : RunConfiguration)
  (l1 : list CheckSpec) (tc : CheckSpec) (l2 : list CheckSpec) (n : string) :
  read_json env (script_arg argv) = ReadOk cfg ->
  cfg_tests cfg = Some (l1 ++ tc :: l2) ->
  enabled tc = Some false ->
  name tc = Some n ->
  let dir := tests_dir_of cfg in
  let without := map_config (set_entries (l1 ++ l2)) env in
  (forall p,
      discover_test env dir tc p
      = (Val tt,
         {| self := self p;
            trace := trace p ++ [Print ("[-] Skipping disabled test: " ++ n)];
            clock := clock p; disk := disk p |}))
  /\ execs (trace (final env argv)) = execs (trace (final without argv))
  /\ calls (trace (final env argv)) = calls (trace (final without argv))
  /\ tests (self (final env argv)) = tests (self (final without argv))
  /\ results (self (final env argv)) = results (self (final without argv))
  /\ ((forall c, In c (l1 ++ l2) -> name c = Some n -> loads env dir c = None) ->
      dict_get n (results (self (final env argv))) = None)
  /\ (uninterrupted env argv ->
      (dict_get n (results (self (final env argv))) = None
       <-> forall c, In c (l1 ++ l2) -> name c = Some n -> loads env dir c = None)).
Proof.
  intros Hread Htests Hoff Hname dir without.
  assert (Hget : get (enabled tc) false = false) by now rewrite Hoff.
  pose proof (step_disabled env dir tc Hget) as Hstep. rewrite Hname in Hstep.
  assert (Hl : loads env dir tc = None) by (unfold loads; now rewrite Hstep).
  assert (Hc : crash env dir tc = None) by (unfold crash; now rewrite Hstep).
  assert (He : execs (discover_events env dir tc) = []).
  { unfold discover_events. now rewrite Hstep. }
  split.
  - intros p. rewrite discover_test_eq, Hc, (register_skip env dir _ tc Hl).
    unfold discover_events. rewrite Hstep.
    now destruct p as [[cp c t r] tr cl dk].
  - destruct (unloaded_entry_erased env argv cfg l1 tc l2 Hread Htests Hl Hc)
      as (Ht & Hr & Hcl & _).
    split; [exact (execs_erased env argv cfg l1 tc l2 Hread Htests Hc He)|].
    repeat (split; [assumption|]).
    split.
    + now apply (unloaded_name_not_recorded env argv cfg l1 tc l2 n).
    + intros Hquiet. destruct (Hquiet cfg _ Hread Htests) as (Hcrash & Hesc).
      exact (unloaded_name_absent env argv cfg l1 tc l2 n Hread Htests Hl Hcrash Hesc).
Qed.

(** Entry [B] is disabled and no other entry is called [B]. *)
Lemma disabled_entry_is_never_run_witness :
  let env := Samples.one_disabled in
  let tc := Samples.spec "B" "b.py" Samples.off (Some (PDict [])) in
  let l1 := [Samples.spec "A" "a.py" Samples.on (Some (PDict []))] in
  let l2 := [Samples.spec "C" "c.py" Samples.on (Some (PDict []))] in
  let without := map_config (set_entries (l1 ++ l2)) env in
  (forall p,
      discover_test env (PStr "tests") tc p
      = (Val tt,
         {| self := self p;
            trace := trace p ++ [Print "[-] Skipping disabled test: B"];
            clock := clock p; disk := disk p |}))
  /\ execs (trace (final env Samples.argv)) = execs (trace (final without Samples.argv))
  /\ calls (trace (final env Samples.argv)) = calls (trace (final without Samples.argv))
  /\ tests (self (final env Samples.argv)) = tests (self (final without Samples.argv))
  /\ results (self (final env Samples.argv)) = results (self (final without Samples.argv))
  /\ ((forall c, In c (l1 ++ l2) -> name c = Some "B" -> loads env (PStr "tests") c = None) ->
      dict_get "B" (results (self (final env Samples.argv))) = None)
  /\ (uninterrupted env Samples.argv ->
      (dict_get "B" (results (self (final env Samples.argv))) = None
       <-> forall c, In c (l1 ++ l2) -> name c = Some "B"
                     -> loads env (PStr "tests") c = None)).
Proof.
  exact (disabled_entry_is_never_run Samples.one_disabled Samples.argv
           (Samples.configuration
              [Samples.spec "A" "a.py" Samples.on (Some (PDict []));
               Samples.spec "B" "b.py" Samples.off (Some (PDict []));
               Samples.spec "C" "c.py" Samples.on (Some (PDict []))] None)
           [Samples.spec "A" "a.py" Samples.on (Some (PDict []))]
           (Samples.spec "B" "b.py" Samples.off (Some (PDict [])))
           [Samples.spec "C" "c.py" Samples.on (Some (PDict []))]
           "B" eq_refl eq_refl eq_refl eq_refl).
Defined.

(** ** C7: two entries under one name *)




(** The run of that configuration: [A] keeps the first position and holds
    the outcome of the later file. *)
Example duplicate_names_run :
  results (self (final Samples.duplicate_names Samples.argv))
  = [("A", {| status := "error"; result := None; error := Some "boom";
              timestamp := "2024-05-01T10:00:00" |});
     ("B", {| status := "success";
              result := Some (PDict [(KStr "status", PStr "completed")]);
              error := None; timestamp := "2024-05-01T10:00:01" |})].
Proof. vm_compute. reflexivity. Qed.

(** ** C8: the defaults *)

Section DefaultsFacts.

Variable env : Env.
Variable dir : pyvalue.

Lemma same_entry_step tc tc' :
  same_entry tc tc' -> step_of env dir tc = step_of env dir tc'.
Proof.
  intros (Hn & Hf & He & Hp). unfold step_of. now rewrite He, Hf, Hn.
Qed.

Lemma same_entry_crash tc tc' :
  same_entry tc tc' -> crash env dir tc = crash env dir tc'.
Proof. intros H. unfold crash. now rewrite (same_entry_step tc tc' H). Qed.

Lemma same_entry_events tc tc' :
  same_entry tc tc' -> discover_events env dir tc = discover_events env dir tc'.
Proof. intros H. unfold discover_events. now rewrite (same_entry_step tc tc' H). Qed.

Lemma same_check_dict_set t t' n info info' :
  Forall2 same_check t t' ->
  same_check (n, info) (n, info') ->
  Forall2 same_check (dict_set n info t) (dict_set n info' t').
Proof.
  intros Hall Hnew. induction Hall as [|[k v] [k' v'] t t' Hhead Hall IH]; simpl.
  - constructor; [assumption | constructor].
  - destruct Hhead as (Hk & Hm & Hc). simpl in Hk. subst k'.
    destruct (String.eqb n k).
    + constructor; [|assumption].
      destruct Hnew as (_ & Hm' & Hc'). split; [reflexivity | split; assumption].
    + constructor; [|assumption]. split; [reflexivity | split; assumption].
Qed.

Lemma same_registry entries entries' t t' :
  Forall2 same_entry entries entries' ->
  Forall2 same_check t t' ->
  Forall2 same_check (fold_left (register env dir) entries t)
                     (fold_left (register env dir) entries' t').
Proof.
  intros Hentries. revert t t'.
  induction Hentries as [|tc tc' entries entries' Hsame Hentries IH];
    intros t t' Ht; simpl; [assumption|].
  apply IH. unfold register. rewrite <- (same_entry_step tc tc' Hsame).
  destruct (step_of env dir tc); try assumption.
  apply same_check_dict_set; [assumption|].
  split; [reflexivity | split; [reflexivity|]]. exact Hsame.
Qed.

Lemma same_reached entries entries' :
  Forall2 same_entry entries entries' ->
  Forall2 same_entry (reached env dir entries) (reached env dir entries')
  /\ crash_of env dir entries = crash_of env dir entries'.
Proof.
  induction 1 as [|tc tc' entries entries' Hsame _ (IH & IHc)]; simpl.
  - split; [constructor | reflexivity].
  - rewrite <- (same_entry_crash tc tc' Hsame).
    destruct (crash env dir tc); split; auto.
Qed.

Lemma same_events entries entries' :
  Forall2 same_entry entries entries' ->
  flat_map (discover_events env dir) entries
  = flat_map (discover_events env dir) entries'.
Proof.
  induction 1 as [|tc tc' entries entries' Hsame _ IH]; simpl; [reflexivity|].
  now rewrite IH, (same_entry_events tc tc' Hsame).
Qed.

Lemma same_check_outcome item item' :
  same_check item item' ->
  outcome_of (snd item) = outcome_of (snd item')
  /\ params_of (snd item) = params_of (snd item').
Proof.
  intros (_ & Hm & _ & _ & _ & Hp). unfold outcome_of, params_of.
  now rewrite Hm, Hp.
Qed.

Lemma same_check_stamped k reg reg' :
  Forall2 same_check reg reg' -> stamped env k reg = stamped env k reg'.
Proof.
  intros Hall. revert k.
  induction Hall as [|[n info] [n' info'] reg reg' Hsame _ IH]; intros k; simpl;
    [reflexivity|].
  destruct (same_check_outcome _ _ Hsame) as (Ho & _). simpl in Ho.
  destruct Hsame as (Hn & _). simpl in Hn. now rewrite IH, Ho, Hn.
Qed.

Lemma same_check_calls reg reg' :
  Forall2 same_check reg reg' ->
  calls_of reg = calls_of reg'
  /\ escape_of reg = escape_of reg'
  /\ List.length (completed reg) = List.length (completed reg').
Proof.
  induction 1 as [|[n info] [n' info'] reg reg' Hsame _ (IH & IHe & IHl)];
    [repeat split|].
  unfold calls_of in *. cbn [called completed escape_of].
  destruct (same_check_outcome _ _ Hsame) as (Ho & Hp). simpl in Ho, Hp.
  destruct Hsame as (Hn & _). simpl in Hn. subst n'.
  unfold escape. rewrite <- Ho.
  destruct (outcome_of info) eqn:Hout; cbn [flat_map fst snd List.length];
    rewrite ?IH, ?IHl; unfold run_events; rewrite <- ?Ho, <- ?Hp, ?Hout; auto.
Qed.

Lemma same_check_keys reg reg' :
  Forall2 same_check reg reg' -> keys reg = keys reg'.
Proof.
  induction 1 as [|item item' reg reg' Hsame _ IH]; simpl; [reflexivity|].
  destruct Hsame as (Hn & _). now rewrite IH, Hn.
Qed.

(** The first thing an iteration of the loop of [discover_tests] does is
    never the line printed for a configuration without [tests]; an
    iteration that does nothing raises. *)
Lemma discover_events_head tc :
  (discover_events env dir tc = [] /\ crash env dir tc <> None)
  \/ exists e rest,
       discover_events env dir tc = e :: rest
       /\ e <> Print "[!] No tests defined in configuration".
Proof.
  unfold discover_events, crash, step_of, getitem.
  destruct (get (enabled tc) false);
    [destruct (file tc) as [v|];
     [destruct dir; try (left; split; [reflexivity | discriminate]);
      destruct v; try (left; split; [reflexivity | discriminate]);
      destruct (path_exists env _);
      [destruct (exec_module env _) as [m|e|e];
       [destruct (hasattr_run m); [destruct (name tc)|]| |]|]|]
    |destruct (name tc)];
    first [left; split; [reflexivity | discriminate]
          |right; eexists; eexists; split; [reflexivity | discriminate]].
Qed.

End DefaultsFacts.

Lemma report_same_reading env cfg cfg' rs dk :
  get (cfg_save_results cfg) false = get (cfg_save_results cfg') false ->
  get (cfg_output_file cfg) "enumeration_results.json"
  = get (cfg_output_file cfg') "enumeration_results.json" ->
  report_events env cfg rs = report_events env cfg' rs
  /\ report_disk env cfg rs dk = report_disk env cfg' rs dk.
Proof.
  intros Hsave Hout.
  unfold report_events, report_disk, save_events, save_disk, output_file_of.
  now rewrite Hsave, Hout.
Qed.

Lemma finish_same_reading env path cfg cfg' entries entries' :
  same_reading cfg cfg' ->
  Forall2 same_entry entries entries' ->
  let a := finish env path cfg entries in
  let b := finish env path cfg' entries' in
  exit_status (fst a) = exit_status (fst b)
  /\ trace (snd a) = trace (snd b)
  /\ results (self (snd a)) = results (self (snd b))
  /\ disk (snd a) = disk (snd b)
  /\ clock (snd a) = clock (snd b)
  /\ keys (tests (self (snd a))) = keys (tests (self (snd b))).
Proof.
  intros (Hdir & Hsave & Hout & _) Hentries. cbv zeta. unfold finish.
  unfold tests_dir_of. rewrite <- Hdir.
  set (dir := get (cfg_tests_directory cfg) (PStr "tests")).
  destruct (same_reached env dir _ _ Hentries) as (Hreached & Hcrash).
  unfold discovery_events. rewrite <- (same_events env dir _ _ Hreached), <- Hcrash.
  assert (Hreg : Forall2 same_check (registry env dir entries) (registry env dir entries')).
  { unfold registry. apply same_registry; [assumption | constructor]. }
  pose proof (registry_keys_NoDup env dir entries) as Hnd.
  pose proof (registry_keys_NoDup env dir entries') as Hnd'.
  revert Hreg Hnd Hnd'.
  generalize (registry env dir entries) as reg.
  generalize (registry env dir entries') as reg'.
  intros reg' reg Hreg Hnd Hnd'.
  pose proof (same_check_stamped env 0 _ _ Hreg) as Hst.
  destruct (same_check_calls _ _ Hreg) as (Hcalls & Hesc & Hcompleted).
  pose proof (same_check_keys _ _ Hreg) as Hkeys.
  pose proof (Forall2_length Hreg) as Hlen.
  destruct (crash_of env dir entries); [repeat split; assumption|].
  destruct Hreg as [|item item' reg reg' Hitem Hreg].
  - repeat split.
  - rewrite <- Hesc. rewrite !run_results_nil by assumption.
    rewrite <- Hst.
    destruct (report_same_reading env cfg cfg'
                (stamped env 0 (item :: reg)) [] Hsave Hout) as (Hre & Hrd).
    destruct (escape_of (item :: reg));
      cbn [fst snd exit_status self trace results disk clock tests];
      rewrite <- ?Hre, <- ?Hrd, <- ?Hcalls; unfold starting; rewrite <- ?Hlen;
      repeat split; assumption.
Qed.

Lemma fill_defaults_same_reading cfg : same_reading cfg (fill_defaults cfg).
Proof.
  unfold same_reading, fill_defaults; simpl. repeat split.
  destruct (cfg_tests cfg) as [entries|]; simpl; [|exact I].
  induction entries as [|tc entries IH]; simpl; constructor; [|assumption].
  repeat split.
Qed.

(** The third thing a run with a list of entries does, if there is one, is
    not the line printed for a configuration without [tests]. *)
Lemma finish_third env path cfg entries :
  nth_error (trace (snd (finish env path cfg entries))) 2
  <> Some (Print "[!] No tests defined in configuration").
Proof.
  unfold finish, discovery_events.
  destruct entries as [|tc entries].
  - cbn. discriminate.
  - cbn [reached crash_of].
    destruct (discover_events_head env (tests_dir_of cfg) tc)
      as [(Hnil & Hcrash) | (e & rest & Hhead & Hne)].
    + destruct (crash env (tests_dir_of cfg) tc); [|congruence].
      cbn [flat_map snd trace]. rewrite Hnil. cbn. discriminate.
    + assert (Hthird : forall l tl,
                 nth_error (([Print "Start";
                              Print ("[+] Configuration loaded from " ++ path)]
                               ++ flat_map (discover_events env (tests_dir_of cfg))
                                    (tc :: l)) ++ tl) 2 = Some e).
      { intros l tl. cbn [flat_map]. rewrite Hhead. reflexivity. }
      assert (Hthird' : forall l,
                 nth_error ([Print "Start";
                             Print ("[+] Configuration loaded from " ++ path)]
                              ++ flat_map (discover_events env (tests_dir_of cfg))
                                   (tc :: l)) 2 = Some e).
      { intros l. cbn [flat_map]. rewrite Hhead. reflexivity. }
      destruct (crash env (tests_dir_of cfg) tc);
        [|destruct (crash_of env (tests_dir_of cfg) entries);
          [|destruct (registry env (tests_dir_of cfg) (tc :: entries));
            [|destruct (escape_of _)]]];
        cbn [snd trace]; rewrite ?Hthird, ?Hthird'; congruence.
Qed.

(** C8, as stated, fails: three more keys have a default.  In this run the
    configuration leaves out [save_results], the [parameters] of [E] and the
    [enabled] of [D]; the check [E] is called with the empty dict, [D] is
    skipped as disabled, nothing is saved, and the run is the run of the
    configuration that writes [false], [{}] and [false] there. *)
Lemma more_than_two_defaults :
  (read_json Samples.defaults_omitted "config.json"
   = ReadOk (Samples.configuration
               [Samples.spec "E" "e.py" Samples.on None;
                Samples.spec "D" "d.py" None None] None))
  /\ calls (trace (final Samples.defaults_omitted Samples.argv)) = [("E", PDict [])]
  /\ In (Print "[-] Skipping disabled test: D")
        (trace (final Samples.defaults_omitted Samples.argv))
  /\ disk (final Samples.defaults_omitted Samples.argv) = []
  /\ trace (final Samples.defaults_omitted Samples.argv)
     = trace (final Samples.defaults_written Samples.argv)
  /\ results (self (final Samples.defaults_omitted Samples.argv))
     = results (self (final Samples.defaults_written Samples.argv))
  /\ exit_code Samples.defaults_omitted Samples.argv
     = exit_code Samples.defaults_written Samples.argv.
Proof.
  split; [reflexivity|].
  split; [vm_compute; reflexivity|].
  split; [vm_compute; auto 10|].
  split; [vm_compute; reflexivity|].
  split; [vm_compute; reflexivity|].
  split; vm_compute; reflexivity.
Qed.

(** C8 (amended): five keys have an implicit default: [tests_directory]
    ("tests"), [output_file] ("enumeration_results.json"), [save_results]
    (false), and in each entry [enabled] (false) and [parameters] (the empty
    dict).  Rewriting a configuration so that it reads the same once these
    defaults are supplied changes nothing in the exit status, the trace, the
    result set, the files written, the clock or the registered names.  The
    key [tests] has no default: a configuration without it prints a line
    that no configuration with a list of entries prints in that place. *)
Theorem defaults_of_the_configuration (env : Env) (argv : list string) :
  (forall f : RunConfiguration -> RunConfiguration,
      (forall cfg, same_reading cfg (f cfg)) ->
      exit_code env argv = exit_code (map_config f env) argv
      /\ trace (final env argv) = trace (final (map_config f env) argv)
      /\ results (self (final env argv)) = results (self (final (map_config f env) argv))
      /\ disk (final env argv) = disk (final (map_config f env) argv)
      /\ clock (final env argv) = clock (final (map_config f env) argv)
      /\ keys (tests (self (final env argv)))
         = keys (tests (self (final (map_config f env) argv))))
  /\ (forall cfg entries,
         read_json env (script_arg argv) = ReadOk cfg ->
         cfg_tests cfg = None ->
         trace (final env argv)
         <> trace (final (map_config (set_entries entries) env) argv)).
Proof.
  split.
  - intros f Hsame. unfold exit_code, final. rewrite !run_eq. unfold main_spec.
    cbn [map_config read_json].
    destruct (read_json env (script_arg argv)) as [cfg| |e|c e];
      try (repeat split; fail).
    specialize (Hsame cfg). pose proof Hsame as (_ & _ & _ & Htests).
    destruct (cfg_tests cfg) as [entries|], (cfg_tests (f cfg)) as [entries'|];
      try contradiction; [|repeat split].
    cbn [fst snd].
    change (finish (map_config f env)) with (finish env).
    now apply finish_same_reading.
  - intros cfg entries Hread Htests.
    unfold final. rewrite !run_eq. unfold main_spec.
    cbn [map_config read_json]. rewrite Hread, Htests.
    cbn [set_entries cfg_tests snd trace].
    intros Heq.
    apply (finish_third (map_config (set_entries entries) env) (script_arg argv)
             (set_entries entries cfg) entries).
    cbn [set_entries] in Heq. cbn [set_entries]. now rewrite <- Heq.
Qed.

(** The sample configuration and the one with its defaults written out; and
    a configuration without [tests] against one with an empty list. *)
Lemma defaults_of_the_configuration_witness :
  (exit_code Samples.defaults_omitted Samples.argv
   = exit_code (map_config fill_defaults Samples.defaults_omitted) Samples.argv
   /\ trace (final Samples.defaults_omitted Samples.argv)
      = trace (final (map_config fill_defaults Samples.defaults_omitted) Samples.argv)
   /\ results (self (final Samples.defaults_omitted Samples.argv))
      = results (self (final (map_config fill_defaults Samples.defaults_omitted)
                         Samples.argv))
   /\ disk (final Samples.defaults_omitted Samples.argv)
      = disk (final (map_config fill_defaults Samples.defaults_omitted) Samples.argv)
   /\ clock (final Samples.defaults_omitted Samples.argv)
      = clock (final (map_config fill_defaults Samples.defaults_omitted) Samples.argv)
   /\ keys (tests (self (final Samples.defaults_omitted Samples.argv)))
      = keys (tests (self (final (map_config fill_defaults Samples.defaults_omitted)
                             Samples.argv))))
  /\ trace (final Samples.no_tests_key Samples.argv)
     <> trace (final (map_config (set_entries []) Samples.no_tests_key) Samples.argv).
Proof.
  split.
  - exact (proj1 (defaults_of_the_configuration Samples.defaults_omitted Samples.argv)
             fill_defaults fill_defaults_same_reading).
  - exact (proj2 (defaults_of_the_configuration Samples.no_tests_key Samples.argv)
             _ [] eq_refl eq_refl).
Defined.

(** ** C9: writing the report and reading it back *)

Section PyvalueInductionFacts.

Variable P : pyvalue -> Prop.
Hypothesis HNone : P PNone.
Hypothesis HBool : forall b, P (PBool b).
Hypothesis HInt : forall z, P (PInt z).
Hypothesis HStr : forall s, P (PStr s).
Hypothesis HList : forall l, Forall P l -> P (PList l).
Hypothesis HTuple : forall l, Forall P l -> P (PTuple l).
Hypothesis HDict : forall d, Forall (fun kv => P (snd kv)) d -> P (PDict d).
Hypothesis HObject : forall ty, P (PObject ty).

(** Induction on values, through the lists they hold. *)

Fixpoint pyvalue_induction (v : pyvalue) : P v :=
  match v with
  | PNone => HNone
  | PBool b => HBool b
  | PInt z => HInt z
  | PStr s => HStr s
  | PList l =>
      HList l
        ((fix all (l : list pyvalue) : Forall P l :=
            match l with
            | [] => Forall_nil P
            | x :: l' => Forall_cons x (pyvalue_induction x) (all l')
            end) l)
  | PTuple l =>
      HTuple l
        ((fix all (l : list pyvalue) : Forall P l :=
            match l with
            | [] => Forall_nil P
            | x :: l' => Forall_cons x (pyvalue_induction x) (all l')
            end) l)
  | PDict d =>
      HDict d
        ((fix all (d : list (pykey * pyvalue)) : Forall (fun kv => P (snd kv)) d :=
            match d with
            | [] => Forall_nil _
            | kv :: d' => Forall_cons kv (pyvalue_induction (snd kv)) (all d')
            end) d)
  | PObject ty => HObject ty
  end.

End PyvalueInductionFacts.

Lemma distinct_NoDup l : distinct l = true -> NoDup l.
Proof.
  induction l as [|x l IH]; simpl; intros H; constructor.
  - apply andb_prop in H as [Hx _]. intros Hin.
    assert (Hex : existsb (String.eqb x) l = true).
    { apply existsb_exists. exists x. split; [assumption | apply String.eqb_refl]. }
    now rewrite Hex in Hx.
  - apply andb_prop in H as [_ Hl]. auto.
Qed.

Lemma NoDup_distinct l : NoDup l -> distinct l = true.
Proof.
  induction 1 as [|x l Hnotin _ IH]; simpl; [reflexivity|].
  rewrite IH, andb_true_r. apply negb_true_iff.
  destruct (existsb (String.eqb x) l) eqn:Hex; [|reflexivity].
  apply existsb_exists in Hex as (y & Hin & Heq).
  apply String.eqb_eq in Heq. subst y. contradiction.
Qed.

(** Pairs with different names, inserted one after the other, stay as they
    are. *)
Lemma dict_of_pairs_NoDup {V : Type} (l : list (string * V)) :
  NoDup (keys l) -> dict_of_pairs l = l.
Proof.
  unfold dict_of_pairs.
  assert (Hgen : forall acc : dict V,
             NoDup (keys acc ++ keys l) ->
             fold_left (fun d kv => dict_set (fst kv) (snd kv) d) l acc = acc ++ l).
  { induction l as [|[k v] l IH]; intros acc Hnd; simpl.
    - now rewrite app_nil_r.
    - rewrite dict_set_fresh.
      + rewrite IH; [now rewrite <- app_assoc|].
        unfold keys in *. rewrite map_app, <- app_assoc. exact Hnd.
      + intros Hin. apply NoDup_remove_2 in Hnd. apply Hnd.
        apply in_or_app. now left. }
  intros Hnd. apply (Hgen []). exact Hnd.
Qed.

Lemma encode_each_inv {A B : Type} (f : A -> encoded B) l js :
  encode_each f l = Encoded js -> Forall2 (fun x j => f x = Encoded j) l js.
Proof.
  revert js. induction l as [|x l IH]; simpl; intros js H.
  - injection H as <-. constructor.
  - destruct (f x) as [j|c m] eqn:Hx; [|discriminate].
    destruct (encode_each f l) as [js'|c m]; [|discriminate].
    injection H as <-. constructor; auto.
Qed.

Lemma int_repr_inv z z' : int_repr z = Encoded z' -> z' = z.
Proof.
  unfold int_repr. destruct (Nat.ltb _ _); [discriminate|]. now intros [= <-].
Qed.

(** What [json.dump] writes for a native value, [json.load] reads back as
    that value. *)
Lemma json_round_trip v :
  json_native v = true ->
  forall j, json_encode v = Encoded j -> json_decode j = v.
Proof.
  induction v as [| b | z | s | l IH | l IH | d IH | ty] using pyvalue_induction;
    intros Hnative j Hj; try discriminate;
    unfold json_encode in Hj; fold json_encode in Hj.
  - now injection Hj as <-.
  - now injection Hj as <-.
  - destruct (int_repr z) as [z'|c m] eqn:Hz; [|discriminate].
    injection Hj as <-. apply int_repr_inv in Hz. now subst z'.
  - now injection Hj as <-.
  - destruct (encode_each json_encode l) as [js|c m] eqn:Hjs; [|discriminate].
    injection Hj as <-. apply encode_each_inv in Hjs.
    simpl. f_equal. simpl in Hnative.
    induction Hjs as [|x jx l js Hx _ IHl]; [reflexivity|].
    simpl in Hnative. apply andb_prop in Hnative as [Hnx Hnl].
    inversion IH as [|? ? Px Pl]; subst.
    simpl. rewrite (Px Hnx jx Hx). f_equal. now apply IHl.
  - match type of Hj with
    | match ?e with _ => _ end = _ => destruct e as [ms|c m] eqn:Hms; [|discriminate]
    end.
    injection Hj as <-. apply encode_each_inv in Hms.
    simpl in Hnative. apply andb_prop in Hnative as [Hvals Hkeys].
    apply distinct_NoDup in Hkeys.
    assert (Hall : map fst ms
                   = map (fun kv => match fst kv with KStr s => s | _ => "" end) d
                   /\ map (fun kv => (KStr (fst kv), json_decode (snd kv))) ms = d).
    { clear Hkeys. induction Hms as [|[k x] [s j] d ms Hx _ IHd]; [split; reflexivity|].
      simpl in Hvals. apply andb_prop in Hvals as [Hnx Hnd].
      inversion IH as [|? ? Px Pd]; subst.
      destruct k as [| | |s'|ty]; try discriminate.
      cbn [fst snd encode_key] in Hx.
      destruct (json_encode x) as [j'|c m] eqn:Hjx; [|discriminate].
      injection Hx as <- <-.
      destruct (IHd Pd Hnd) as (Hfst & Hdec).
      simpl. rewrite Hfst, Hdec. cbn [snd] in Px. rewrite (Px Hnx j' Hjx).
      split; reflexivity. }
    destruct Hall as (Hfst & Hdec).
    simpl. rewrite dict_of_pairs_NoDup.
    + rewrite map_map. simpl. now rewrite Hdec.
    + assert (Hk : keys (map (fun kv => (fst kv, json_decode (snd kv))) ms) = map fst ms).
      { unfold keys. rewrite map_map. apply map_ext. reflexivity. }
      now rewrite Hk, Hfst.
Qed.

Lemma result_value_native r :
  (forall v, result r = Some v -> json_native v = true) ->
  json_native (result_value r) = true.
Proof.
  intros Hpayload. unfold result_value.
  destruct (result r) as [v|]; destruct (error r) as [e|]; simpl;
    try rewrite (Hpayload v eq_refl); reflexivity.
Qed.

Lemma results_value_native rs :
  NoDup (keys rs) ->
  (forall n r v, In (n, r) rs -> result r = Some v -> json_native v = true) ->
  json_native (results_value rs) = true.
Proof.
  intros Hnd Hpayload. unfold results_value.
  cbn [json_native]. apply andb_true_intro. split.
  - apply forallb_forall. intros kv Hin.
    apply in_map_iff in Hin as ([n r] & <- & Hin). cbn [fst snd].
    apply result_value_native. intros v. now apply (Hpayload n).
  - rewrite map_map. cbn [fst]. now apply NoDup_distinct.
Qed.

(** A complete document on disk is what [json.dump] made of the result set. *)
Lemma final_disk_saved env argv path doc :
  dict_get path (disk (final env argv)) = Some (Some doc) ->
  json_encode (results_value (results (self (final env argv)))) = Encoded doc.
Proof.
  unfold final. rewrite run_eq. unfold main_spec.
  destruct (read_json env (script_arg argv)) as [cfg| |e|c e];
    try (cbn; discriminate).
  destruct (cfg_tests cfg) as [entries|]; [|cbn; discriminate].
  unfold finish.
  destruct (crash_of env (tests_dir_of cfg) entries); [cbn; discriminate|].
  destruct (registry env (tests_dir_of cfg) entries) as [|item reg];
    [cbn; discriminate|].
  destruct (escape_of (item :: reg)); [cbn; discriminate|].
  cbn [snd self results disk].
  generalize (run_results env 0 [] (item :: reg)) as rs. intros rs.
  unfold report_disk, save_disk.
  destruct (get (cfg_save_results cfg) false); [|cbn; discriminate].
  destruct (open_w env (output_file_of cfg)); [cbn; discriminate|].
  destruct (json_encode (results_value rs)) as [doc'|c m]; simpl;
    rewrite ?String.eqb_refl; simpl;
    destruct (String.eqb path (output_file_of cfg)); congruence.
Qed.

(** C9, as stated, fails for a payload that holds a tuple: the report is
    written, and reading it back gives a list where the result set has the
    tuple. *)
Lemma tuple_comes_back_as_list :
  dict_get "enumeration_results.json" (disk (final Samples.tuple_payload Samples.argv))
  = Some (Some Samples.tuple_document)
  /\ dict_get "K" (results (self (final Samples.tuple_payload Samples.argv)))
     = Some {| status := "success";
               result := Some (PDict [(KStr "version", PTuple [PInt 5; PInt 4])]);
               error := None; timestamp := "2024-05-01T10:00:00" |}
  /\ json_decode Samples.tuple_document
     = PDict [(KStr "K",
               PDict [(KStr "status", PStr "success");
                      (KStr "result", PDict [(KStr "version", PList [PInt 5; PInt 4])]);
                      (KStr "timestamp", PStr "2024-05-01T10:00:00")])]
  /\ json_decode Samples.tuple_document
     <> results_value (results (self (final Samples.tuple_payload Samples.argv))).
Proof.
  split; [vm_compute; reflexivity|].
  split; [vm_compute; reflexivity|].
  split; [vm_compute; reflexivity|].
  vm_compute. discriminate.
Qed.

(** C9 (amended): when a run leaves a complete report on disk and every
    payload of the result set is made of values [json] has a type for
    ([None], booleans, integers, strings, lists, dicts with string keys),
    reading the report back gives the result set: the same names in the same
    order, each with the same status, payload, error message and timestamp. *)
Theorem report_round_trip
  (env : Env) (argv : list string) (path : string) (doc : json) :
  dict_get path (disk (final env argv)) = Some (Some doc) ->
  (forall n r v,
      dict_get n (results (self (final env argv))) = Some r ->
      result r = Some v -> json_native v = true) ->
  json_decode doc = results_value (results (self (final env argv))).
Proof.
  intros Hdisk Hpayload.
  apply final_disk_saved in Hdisk.
  pose proof (final_results_NoDup env argv) as Hnd.
  apply json_round_trip; [|assumption].
  apply results_value_native; [assumption|].
  intros n r v Hin. apply (Hpayload n). now apply In_dict_get.
Qed.

(** A report with a success, whose payload is a dict holding a list, and an
    error. *)
Lemma report_round_trip_witness :
  json_decode Samples.saved_document
  = results_value (results (self (final Samples.saved_report Samples.argv))).
Proof.
  apply (report_round_trip Samples.saved_report Samples.argv
           "enumeration_results.json" Samples.saved_document).
  - vm_compute. reflexivity.
  - assert (Hres : results (self (final Samples.saved_report Samples.argv))
                   = [("E", {| status := "success";
                               result := Some (PDict [(KStr "paths",
                                                       PList [PStr "/etc"; PStr "/home"]);
                                                      (KStr "depth", PInt 2)]);
                               error := None; timestamp := "2024-05-01T10:00:00" |});
                      ("B", {| status := "error"; result := None;
                               error := Some "boom";
                               timestamp := "2024-05-01T10:00:01" |})])
      by (vm_compute; reflexivity).
    rewrite Hres. intros n r v Hr Hv. cbn [dict_get] in Hr.
    destruct (String.eqb n "E").
    + injection Hr as <-. injection Hv as <-. reflexivity.
    + destruct (String.eqb n "B"); [|discriminate].
      injection Hr as <-. discriminate.
Defined.

(** ** C10: entries that do not say whether they are enabled *)

(** Replacing an entry that does not load by one that takes the same step
    changes neither the registry, nor how the loop ends, nor what it prints
    and executes. *)
Lemma replace_unloaded env dir l1 tc tc' l2 :
  step_of env dir tc = step_of env dir tc' ->
  loads env dir tc = None ->
  registry env dir (l1 ++ tc :: l2) = registry env dir (l1 ++ tc' :: l2)
  /\ crash_of env dir (l1 ++ tc :: l2) = crash_of env dir (l1 ++ tc' :: l2)
  /\ discovery_events env dir (l1 ++ tc :: l2)
     = discovery_events env dir (l1 ++ tc' :: l2).
Proof.
  intros Hstep Hl.
  assert (Hl' : loads env dir tc' = None) by (unfold loads in *; now rewrite <- Hstep).
  assert (Hc : crash env dir tc = crash env dir tc') by (unfold crash; now rewrite Hstep).
  assert (He : discover_events env dir tc = discover_events env dir tc').
  { unfold discover_events. now rewrite Hstep. }
  unfold registry, discovery_events. rewrite !reached_app, !crash_of_app.
  destruct (crash_of env dir l1); [auto|].
  cbn [reached crash_of]. rewrite <- Hc.
  destruct (crash env dir tc);
    rewrite !fold_left_app, !flat_map_app; cbn [fold_left flat_map];
    rewrite !register_skip, He by assumption; auto.
Qed.

(** C10, as stated, fails when an enabled entry carries the name of the
    entry without [enabled]: the result set then has an entry under that
    name. *)
Lemma absent_enabled_name_in_result_set :
  cfg_tests (config (self (final Samples.shadowed_without_enabled Samples.argv)))
  = Some [Samples.spec "A" "a.py" None (Some (PDict []));
          Samples.spec "A" "b.py" Samples.on (Some (PDict []))]
  /\ enabled (Samples.spec "A" "a.py" None (Some (PDict []))) = None
  /\ dict_get "A" (results (self (final Samples.shadowed_without_enabled Samples.argv)))
     = Some {| status := "success";
               result := Some (PDict [(KStr "status", PStr "completed")]);
               error := None; timestamp := "2024-05-01T10:00:00" |}.
Proof.
  split; [|split]; vm_compute; reflexivity.
Qed.

(** C10 (amended): an entry without [enabled] is treated as one with
    [enabled] false: the run is, in exit status, trace, registry, result
    set, files and clock, the run of the configuration that says [false]
    there, and its iteration is the iteration for the entry that says
    [false]: when the entry has a name, it prints the skip line and does
    nothing else.  Every result of the result set is the outcome of a
    registered entry whose [enabled] is [true], so none is this entry's; its
    name is absent from the result set when no other entry of that name
    loads, and, in a run that nothing cuts short, only then. *)
Theorem absent_enabled_is_disabled
  (env : Env) (argv : list string) (cfg : RunConfiguration)
  (l1 : list CheckSpec) (tc : CheckSpec) (l2 : list CheckSpec) :
  read_json env (script_arg argv) = ReadOk cfg ->
  cfg_tests cfg = Some (l1 ++ tc :: l2) ->
  enabled tc = None ->
  let dir := tests_dir_of cfg in
  let explicit :=
    map_config (set_entries (l1 ++ set_enabled (Some false) tc :: l2)) env in
  (exit_code env argv = exit_code explicit argv
   /\ trace (final env argv) = trace (final explicit argv)
   /\ tests (self (final env argv)) = tests (self (final explicit argv))
   /\ results (self (final env argv)) = results (self (final explicit argv))
   /\ disk (final env argv) = disk (final explicit argv)
   /\ clock (final env argv) = clock (final explicit argv))
  /\ (forall p,
         discover_test env dir tc p
         = discover_test env dir (set_enabled (Some false) tc) p)
  /\ (forall n p,
         name tc = Some n ->
         discover_test env dir tc p
         = (Val tt,
            {| self := self p;
               trace := trace p ++ [Print ("[-] Skipping disabled test: " ++ n)];
               clock := clock p; disk := disk p |}))
  /\ (forall n r,
         dict_get n (results (self (final env argv))) = Some r ->
         exists info t,
           dict_get n (tests (self (final env argv))) = Some info
           /\ make_result (outcome_of info) t = Some r
           /\ enabled (ti_config info) = Some true)
  /\ (forall n,
         name tc = Some n ->
         ((forall c, In c (l1 ++ l2) -> name c = Some n -> loads env dir c = None) ->
          dict_get n (results (self (final env argv))) = None)
         /\ (uninterrupted env argv ->
             (dict_get n (results (self (final env argv))) = None
              <-> forall c, In c (l1 ++ l2) -> name c = Some n ->
                            loads env dir c = None))).
Proof.
  intros Hread Htests Habsent dir explicit.
  assert (Hget : get (enabled tc) false = false) by now rewrite Habsent.
  assert (Hstep : step_of env dir tc = step_of env dir (set_enabled (Some false) tc)).
  { unfold step_of, set_enabled. cbn [enabled file name get]. now rewrite Hget. }
  pose proof (loads_disabled env dir tc Hget) as Hl.
  destruct (replace_unloaded env dir l1 tc _ l2 Hstep Hl) as (Hreg & Hcr & Hdisc).
  split; [|split; [|split; [|split]]].
  - destruct (final_same_registry env argv cfg _ _ Hread Htests Hreg Hcr)
      as (Ht & Hr & _ & Hx & Hd & Hcl).
    pose proof (final_same_discovery env argv cfg _ _ Hread Htests Hreg Hcr Hdisc)
      as Htr.
    repeat split; assumption.
  - intros p. rewrite !discover_test_eq.
    pose proof (step_disabled env dir tc Hget) as Hs.
    unfold crash, register, discover_events. rewrite <- Hstep, Hs.
    now destruct (name tc).
  - intros n p Hname.
    pose proof (step_disabled env dir tc Hget) as Hs. rewrite Hname in Hs.
    rewrite discover_test_eq. unfold crash, register, discover_events.
    rewrite Hs. now destruct p as [[cp c t r] tr cl dk].
  - intros n r Hr.
    destruct (final_origin env argv cfg _ n r Hread Htests Hr)
      as (info & t & Hinfo & Hres & _ & _ & Hld).
    exists info, t. repeat split; try assumption.
    eapply loads_enabled; eassumption.
  - intros n Hname.
    pose proof (step_disabled env dir tc Hget) as Hs. rewrite Hname in Hs.
    split.
    + now apply (unloaded_name_not_recorded env argv cfg l1 tc l2 n).
    + intros Hquiet. destruct (Hquiet cfg _ Hread Htests) as (Hcrash & Hesc).
      exact (unloaded_name_absent env argv cfg l1 tc l2 n Hread Htests Hl Hcrash Hesc).
Qed.

(** Entry [B] has no [enabled] key. *)
Lemma absent_enabled_is_disabled_witness :
  let env := Samples.enabled_omitted in
  let tc := Samples.spec "B" "b.py" None (Some (PDict [])) in
  let explicit :=
    map_config
      (set_entries
         ([Samples.spec "A" "a.py" Samples.on (Some (PDict []))]
          ++ set_enabled (Some false) tc
          :: [Samples.spec "C" "c.py" Samples.on (Some (PDict []))])) env in
  exit_code env Samples.argv = exit_code explicit Samples.argv
  /\ trace (final env Samples.argv) = trace (final explicit Samples.argv)
  /\ tests (self (final env Samples.argv)) = tests (self (final explicit Samples.argv))
  /\ results (self (final env Samples.argv)) = results (self (final explicit Samples.argv))
  /\ disk (final env Samples.argv) = disk (final explicit Samples.argv)
  /\ clock (final env Samples.argv) = clock (final explicit Samples.argv).
Proof.
  exact (proj1 (absent_enabled_is_disabled Samples.enabled_omitted Samples.argv
           (Samples.configuration
              [Samples.spec "A" "a.py" Samples.on (Some (PDict []));
               Samples.spec "B" "b.py" None (Some (PDict []));
               Samples.spec "C" "c.py" Samples.on (Some (PDict []))] None)
           [Samples.spec "A" "a.py" Samples.on (Some (PDict []))]
           (Samples.spec "B" "b.py" None (Some (PDict [])))
           [Samples.spec "C" "c.py" Samples.on (Some (PDict []))]
           eq_refl eq_refl eq_refl)).
Defined.

(** ** Further properties of a run *)

(** X1: a configuration file that is not there ends the run with status 1
    before discovery: nothing is executed, registered or recorded. *)
Theorem missing_configuration_stops_the_run (env : Env) (argv : list string) :
  read_json env (script_arg argv) = FileNotFoundError ->
  exit_code env argv = 1
  /\ trace (final env argv)
     = [Print "Start";
        Print ("[!] Configuration file not found: " ++ script_arg argv)]
  /\ tests (self (final env argv)) = []
  /\ results (self (final env argv)) = []
  /\ disk (final env argv) = [].
Proof.
  intros Hread. unfold exit_code, final. rewrite run_eq. unfold main_spec.
  rewrite Hread. repeat split.
Qed.

(** The sample installations hold [config.json] only. *)
Lemma missing_configuration_stops_the_run_witness :
  exit_code Samples.three_checks ["main.py"; "other.json"] = 1
  /\ trace (final Samples.three_checks ["main.py"; "other.json"])
     = [Print "Start"; Print "[!] Configuration file not found: other.json"]
  /\ tests (self (final Samples.three_checks ["main.py"; "other.json"])) = []
  /\ results (self (final Samples.three_checks ["main.py"; "other.json"])) = []
  /\ disk (final Samples.three_checks ["main.py"; "other.json"]) = [].
Proof.
  exact (missing_configuration_stops_the_run Samples.three_checks
           ["main.py"; "other.json"] eq_refl).
Defined.


Lemma discover_test_fst env dir tc p :
  fst (discover_test env dir tc p)
  = match crash env dir tc with Some e => Err e | None => Val tt end.
Proof. now rewrite discover_test_eq. Qed.



(** An enabled entry without a name does not end the run when its file is
    not there: the name is read only after the import. *)
Example nameless_entry_with_a_missing_file :
  exit_code Samples.nameless_missing Samples.argv = 0
  /\ keys (results (self (final Samples.nameless_missing Samples.argv))) = ["C"]
  /\ In (Print "[!] Test file not found: tests/missing.py")
        (trace (final Samples.nameless_missing Samples.argv)).
Proof. split; [|split]; vm_compute; auto 10. Qed.

(** [tests_directory] set to [5]: the first enabled entry raises. *)
Example directory_that_is_a_number :
  fst (main Samples.directory_is_a_number Samples.argv (start "config.json"))
  = Err (Uncaught "TypeError" "expected str, bytes or os.PathLike object, not int")
  /\ exit_code Samples.directory_is_a_number Samples.argv = 1
  /\ tests (self (final Samples.directory_is_a_number Samples.argv)) = [].
Proof. split; [|split]; vm_compute; reflexivity. Qed.

(** X3: a run that exits with status 1 writes no report; a run whose
    configuration does not ask for one writes none either. *)
Theorem no_report_without_a_run (env : Env) (argv : list string) :
  (exit_code env argv = 1 -> disk (final env argv) = [])
  /\ (forall cfg,
         read_json env (script_arg argv) = ReadOk cfg ->
         get (cfg_save_results cfg) false = false ->
         disk (final env argv) = []).
Proof.
  unfold exit_code, final. rewrite run_eq. unfold main_spec.
  destruct (read_json env (script_arg argv)) as [cfg| |msg|c msg];
    try (split; [reflexivity | discriminate]).
  destruct (cfg_tests cfg) as [entries|].
  - unfold finish.
    destruct (crash_of env (tests_dir_of cfg) entries); [split; reflexivity|].
    destruct (registry env (tests_dir_of cfg) entries); [split; reflexivity|].
    destruct (escape_of _); [split; reflexivity|]. cbn.
    split; [discriminate|]. intros cfg' [= <-] Hsave.
    unfold report_disk. now rewrite Hsave.
  - split; [reflexivity | reflexivity].
Qed.

(** The batch of three does not ask for a report. *)
Lemma no_report_without_a_run_witness :
  disk (final Samples.three_checks Samples.argv) = [].
Proof.
  exact (proj2 (no_report_without_a_run Samples.three_checks Samples.argv)
           _ eq_refl eq_refl).
Defined.

(** A check that returns [{"status": "completed"}]: one result, a success
    that carries the returned value. *)
Example scenario_check_returns :
  results (self (final (Samples.one_check Samples.completes) Samples.argv))
  = [("A", {| status := "success";
              result := Some (PDict [(KStr "status", PStr "completed")]);
              error := None; timestamp := "2024-05-01T10:00:00" |})]
  /\ exit_code (Samples.one_check Samples.completes) Samples.argv = 0.
Proof. split; vm_compute; reflexivity. Qed.

(** The same check raising [RuntimeError("boom")]: one result, an error that
    carries the message. *)
Example scenario_check_raises :
  results (self (final (Samples.one_check Samples.booms) Samples.argv))
  = [("A", {| status := "error"; result := None; error := Some "boom";
              timestamp := "2024-05-01T10:00:00" |})]
  /\ exit_code (Samples.one_check Samples.booms) Samples.argv = 0.
Proof. split; vm_compute; reflexivity. Qed.

(** One entry whose file is there and one whose file is not: one check is
    registered and run. *)
Example scenario_one_valid_one_missing :
  keys (tests (self (final Samples.one_valid_one_missing Samples.argv))) = ["A"]
  /\ keys (results (self (final Samples.one_valid_one_missing Samples.argv))) = ["A"]
  /\ In (Print "[!] Test file not found: tests/missing.py")
        (trace (final Samples.one_valid_one_missing Samples.argv))
  /\ exit_code Samples.one_valid_one_missing Samples.argv = 0.
Proof. split; [|split; [|split]]; vm_compute; auto 10. Qed.

(** ** The order of a run *)

Lemma unseen_same_seen seen seen' l :
  (forall x, In x seen <-> In x seen') -> unseen seen l = unseen seen' l.
Proof.
  revert seen seen'. induction l as [|x l IH]; intros seen seen' Hsame; simpl;
    [reflexivity|].
  assert (Hmem : existsb (String.eqb x) seen = existsb (String.eqb x) seen').
  { apply eq_true_iff_eq. rewrite !existsb_exists. split.
    - intros (y & Hin & Heq). exists y. split; [now apply Hsame | assumption].
    - intros (y & Hin & Heq). exists y. split; [now apply Hsame | assumption]. }
  rewrite Hmem. destruct (existsb (String.eqb x) seen').
  - now apply IH.
  - f_equal. apply IH. intros y. simpl. now rewrite Hsame.
Qed.

Lemma existsb_eqb_In x l : existsb (String.eqb x) l = true <-> In x l.
Proof.
  rewrite existsb_exists. split.
  - intros (y & Hin & Heq). apply String.eqb_eq in Heq. now subst.
  - intros Hin. exists x. split; [assumption | apply String.eqb_refl].
Qed.

Lemma keys_registry_unseen env dir entries t :
  keys (fold_left (register env dir) entries t)
  = keys t ++ unseen (keys t) (flat_map (registered_name env dir) entries).
Proof.
  revert t. induction entries as [|tc entries IH]; intros t; simpl.
  - now rewrite app_nil_r.
  - rewrite IH. unfold register, registered_name at 2.
    destruct (step_of env dir tc) as [| | | |path n m|]; try reflexivity.
    simpl.
    destruct (existsb (String.eqb n) (keys t)) eqn:Hmem.
    + apply existsb_eqb_In in Hmem.
      now rewrite keys_dict_set_present.
    + assert (Hfresh : ~ In n (keys t)).
      { intros Hin. apply existsb_eqb_In in Hin. congruence. }
      rewrite dict_set_fresh by assumption.
      unfold keys at 1 2. rewrite map_app. simpl. rewrite <- app_assoc. simpl.
      do 2 f_equal. apply unseen_same_seen.
      intros x. rewrite in_app_iff. simpl. unfold keys. tauto.
Qed.

(** The checks whose call comes back are the first of those called, which
    are the first of the registry. *)
Lemma called_prefix items :
  exists rest, items = called items ++ rest.
Proof.
  induction items as [|[n info] items (rest & IH)]; [now exists []|].
  simpl. destruct (escape info).
  - now exists items.
  - exists rest. simpl. now rewrite <- IH.
Qed.

Lemma completed_prefix items :
  exists rest, called items = completed items ++ rest.
Proof.
  induction items as [|[n info] items (rest & IH)]; [now exists []|].
  simpl. destruct (escape info).
  - now exists [(n, info)].
  - exists rest. simpl. now rewrite <- IH.
Qed.



(** X4: the registry lists the loaded names in the order in which each name
    first loads: a later entry that takes over a name takes the place of the
    earlier one; the result set lists the first of them, and, in a run that
    nothing cuts short, all of them. *)
Theorem results_follow_first_occurrence
  (env : Env) (argv : list string) (cfg : RunConfiguration)
  (entries : list CheckSpec) :
  read_json env (script_arg argv) = ReadOk cfg ->
  cfg_tests cfg = Some entries ->
  keys (tests (self (final env argv)))
  = first_occurrences (loaded_names env (tests_dir_of cfg) entries)
  /\ (exists rest,
         first_occurrences (loaded_names env (tests_dir_of cfg) entries)
         = keys (results (self (final env argv))) ++ rest)
  /\ (uninterrupted env argv ->
      keys (results (self (final env argv)))
      = first_occurrences (loaded_names env (tests_dir_of cfg) entries)).
Proof.
  intros Hread Htests.
  destruct (final_loaded env argv cfg entries Hread Htests)
    as (_ & _ & Ht & _ & Hr & _).
  assert (Hk : keys (tests (self (final env argv)))
               = first_occurrences (loaded_names env (tests_dir_of cfg) entries)).
  { rewrite Ht. unfold registry. now rewrite keys_registry_unseen. }
  split; [assumption|]. rewrite <- Hk, Hr, Ht. split.
  - destruct (crash_of env (tests_dir_of cfg) entries); [now eexists|].
    rewrite keys_stamped.
    destruct (called_prefix (registry env (tests_dir_of cfg) entries)) as (r1 & H1).
    destruct (completed_prefix (registry env (tests_dir_of cfg) entries)) as (r2 & H2).
    exists (keys (r2 ++ r1)). unfold keys. rewrite <- map_app, app_assoc.
    now rewrite <- H2, <- H1.
  - intros Hquiet. destruct (Hquiet cfg entries Hread Htests) as (-> & Hesc).
    now rewrite keys_stamped, (completed_no_escape _ Hesc).
Qed.

(** Entries [A], [B], [A]: the result set lists [A] first. *)
Lemma results_follow_first_occurrence_witness :
  keys (tests (self (final Samples.duplicate_names Samples.argv)))
  = first_occurrences (loaded_names Samples.duplicate_names (PStr "tests")
       [Samples.spec "A" "a.py" Samples.on (Some (PDict []));
        Samples.spec "B" "b.py" Samples.on (Some (PDict []));
        Samples.spec "A" "c.py" Samples.on (Some (PDict []))]).
Proof.
  exact (proj1 (results_follow_first_occurrence Samples.duplicate_names Samples.argv
                  _ _ eq_refl eq_refl)).
Defined.



(** ** Diagnostics of the discovery loop *)

(** X6: a check file that fails to import is reported twice, by two lines that
    follow its execution: the import error, and then the line that says its
    module lacks [run]. *)
Theorem import_error_is_reported_twice
  (env : Env) (argv : list string) (cfg : RunConfiguration)
  (entries : list CheckSpec) (tc : CheckSpec) (d f e : string) :
  read_json env (script_arg argv) = ReadOk cfg ->
  cfg_tests cfg = Some entries ->
  In tc (reached env (tests_dir_of cfg) entries) ->
  get (enabled tc) false = true ->
  tests_dir_of cfg = PStr d ->
  file tc = Some (PStr f) ->
  path_exists env (os_path_join d f) = true ->
  exec_module env (os_path_join d f) = LoadRaises e ->
  exists before after,
    trace (final env argv)
    = before
      ++ [ExecModule (os_path_join d f);
          Print ("[!] Error loading test module " ++ os_path_join d f ++ ": " ++ e);
          Print ("[!] Test module " ++ f ++ " missing 'run' function")]
      ++ after.
Proof.
  intros Hread Htests Hin Hon Hdir Hfile Hex Hload.
  apply in_split in Hin as (l1 & l2 & Hreached).
  assert (Hev : discover_events env (tests_dir_of cfg) tc
                = [ExecModule (os_path_join d f);
                   Print ("[!] Error loading test module "
                            ++ os_path_join d f ++ ": " ++ e);
                   Print ("[!] Test module " ++ f ++ " missing 'run' function")]).
  { unfold discover_events, step_of, getitem. now rewrite Hon, Hfile, Hdir, Hex, Hload. }
  unfold final. rewrite run_eq. unfold main_spec. rewrite Hread, Htests.
  unfold finish, discovery_events. rewrite Hreached, flat_map_app. cbn [flat_map].
  rewrite Hev.
  generalize (flat_map (discover_events env (tests_dir_of cfg)) l1) as d1.
  generalize (flat_map (discover_events env (tests_dir_of cfg)) l2) as d2.
  intros d2 d1.
  destruct (crash_of env (tests_dir_of cfg) entries);
    [|destruct (registry env (tests_dir_of cfg) entries);
      [|destruct (escape_of _)]]; cbn [snd trace].
  - exists ([Print "Start"; Print ("[+] Configuration loaded from " ++ script_arg argv)]
            ++ d1), d2.
    now rewrite <- !app_assoc.
  - exists ([Print "Start"; Print ("[+] Configuration loaded from " ++ script_arg argv)]
            ++ d1), (d2 ++ [Print "No tests loaded. Exiting."]).
    now rewrite <- !app_assoc.
  - eexists ([Print "Start"; Print ("[+] Configuration loaded from " ++ script_arg argv)]
             ++ d1), (d2 ++ _).
    rewrite <- !app_assoc. reflexivity.
  - eexists ([Print "Start"; Print ("[+] Configuration loaded from " ++ script_arg argv)]
             ++ d1), (d2 ++ _).
    rewrite <- !app_assoc. reflexivity.
Qed.

(** The entry [S] of the five names a file with a syntax error. *)
Lemma import_error_is_reported_twice_witness :
  exists before after,
    trace (final Samples.faulty_entries Samples.argv)
    = before
      ++ [ExecModule (os_path_join "tests" "syntax.py");
          Print ("[!] Error loading test module " ++ os_path_join "tests" "syntax.py"
                   ++ ": " ++ "invalid syntax (syntax.py, line 1)");
          Print ("[!] Test module " ++ "syntax.py" ++ " missing 'run' function")]
      ++ after.
Proof.
  apply (import_error_is_reported_twice Samples.faulty_entries Samples.argv _ _
           (Samples.spec "S" "syntax.py" Samples.on (Some (PDict [])))
           "tests" "syntax.py"
           "invalid syntax (syntax.py, line 1)" eq_refl eq_refl).
  - simpl. auto.
  - reflexivity.
  - reflexivity.
  - reflexivity.
  - reflexivity.
  - reflexivity.
Defined.

(** A file named by an absolute path is looked for in the same place
    whatever string the directory is. *)
Lemma step_absolute env d d' tc f :
  file tc = Some (PStr f) -> String.prefix "/" f = true ->
  step_of env (PStr d) tc = step_of env (PStr d') tc.
Proof.
  intros Hfile Habs. unfold step_of, getitem, os_path_join. now rewrite Hfile, Habs.
Qed.

(** Two directories in which every entry takes the same step give the same
    discovery. *)
Lemma same_steps env dir dir' entries :
  Forall (fun tc => step_of env dir tc = step_of env dir' tc) entries ->
  crash_of env dir entries = crash_of env dir' entries
  /\ discovery_events env dir entries = discovery_events env dir' entries
  /\ forall t,
       fold_left (register env dir) (reached env dir entries) t
       = fold_left (register env dir') (reached env dir' entries) t.
Proof.
  unfold discovery_events.
  induction 1 as [|tc entries Htc _ (IHc & IHd & IHr)]; [repeat split|].
  assert (Hcr : crash env dir' tc = crash env dir tc).
  { unfold crash. now rewrite Htc. }
  assert (He : discover_events env dir' tc = discover_events env dir tc).
  { unfold discover_events. now rewrite Htc. }
  assert (Hr : forall t, register env dir' t tc = register env dir t tc).
  { intros t. unfold register. now rewrite Htc. }
  cbn [crash_of reached]. rewrite Hcr.
  destruct (crash env dir tc); cbn [flat_map fold_left];
    rewrite ?He, ?IHd; repeat split; try assumption;
    intros t; rewrite Hr; [reflexivity | apply IHr].
Qed.

(** X7: when every entry names its file by an absolute path, the key
    [tests_directory] has no effect on the run as long as it is a string or
    is missing: whatever string it is set to, the run prints, executes,
    calls, records, writes and exits the same.  A [tests_directory] that is
    not a string makes the iteration for an enabled entry with a [file]
    raise [TypeError], absolute path or not. *)
Theorem absolute_files_ignore_the_directory
  (env : Env) (argv : list string) (cfg : RunConfiguration)
  (entries : list CheckSpec) (d0 : string) (d : option string) :
  read_json env (script_arg argv) = ReadOk cfg ->
  cfg_tests cfg = Some entries ->
  tests_dir_of cfg = PStr d0 ->
  Forall (fun tc => exists f, file tc = Some (PStr f) /\ String.prefix "/" f = true)
         entries ->
  let env' := map_config (set_tests_directory (option_map PStr d)) env in
  (trace (final env' argv) = trace (final env argv)
   /\ tests (self (final env' argv)) = tests (self (final env argv))
   /\ results (self (final env' argv)) = results (self (final env argv))
   /\ disk (final env' argv) = disk (final env argv)
   /\ exit_code env' argv = exit_code env argv)
  /\ (forall v tc p,
         (forall s, v <> PStr s) ->
         get (enabled tc) false = true -> file tc <> None ->
         fst (discover_test env v tc p) = Err (fspath_error v)).
Proof.
  intros Hread Htests Hdir Habs env'. split.
  - assert (Hread' : read_json env' (script_arg argv)
                     = ReadOk (set_tests_directory (option_map PStr d) cfg)).
    { unfold env', map_config; simpl. now rewrite Hread. }
    assert (Hdir' : exists d', tests_dir_of (set_tests_directory (option_map PStr d) cfg)
                               = PStr d').
    { unfold tests_dir_of, set_tests_directory. cbn [cfg_tests_directory].
      destruct d; simpl; eauto. }
    destruct Hdir' as (d' & Hdir').
    assert (Hsteps : Forall (fun tc => step_of env (PStr d') tc = step_of env (PStr d0) tc)
                            entries).
    { eapply Forall_impl; [|exact Habs]. intros tc (f & Hfile & Hf).
      now apply (step_absolute env d' d0 tc f). }
    destruct (same_steps env _ _ entries Hsteps) as (Hc & Hd & Hr).
    unfold final, exit_code. rewrite !run_eq. unfold main_spec.
    rewrite Hread, Hread'. cbn [set_tests_directory cfg_tests]. rewrite Htests.
    unfold finish.
    change (registry env' ?dir entries) with (registry env dir entries).
    change (crash_of env' ?dir entries) with (crash_of env dir entries).
    change (discovery_events env' ?dir entries) with (discovery_events env dir entries).
    rewrite Hdir', Hdir. unfold registry. rewrite Hc, Hd, (Hr []).
    destruct (crash_of env (PStr d0) entries); [cbn; auto|].
    destruct (fold_left (register env (PStr d0)) (reached env (PStr d0) entries) [])
      as [|item reg].
    + cbn. auto.
    + change (run_results env' 0 [] (item :: reg))
        with (run_results env 0 [] (item :: reg)).
      destruct (escape_of (item :: reg));
        cbn [fst snd self trace clock disk tests results exit_status];
        generalize (run_results env 0 [] (item :: reg)) as rs; intros rs;
        (split; [|split; [|split; [|split]]]); reflexivity.
  - intros v tc p Hv Hon Hfile. rewrite discover_test_fst.
    unfold crash, step_of, getitem. rewrite Hon.
    destruct (file tc) as [w|]; [|congruence].
    destruct v; try reflexivity. now elim (Hv s).
Qed.

(** The two checks under [/opt/checks], [tests_directory] set to [/srv]. *)
Lemma absolute_files_ignore_the_directory_witness :
  let env' := map_config (set_tests_directory (Some (PStr "/srv")))
                Samples.absolute_files in
  trace (final env' Samples.argv) = trace (final Samples.absolute_files Samples.argv)
  /\ tests (self (final env' Samples.argv))
     = tests (self (final Samples.absolute_files Samples.argv))
  /\ results (self (final env' Samples.argv))
     = results (self (final Samples.absolute_files Samples.argv))
  /\ disk (final env' Samples.argv) = disk (final Samples.absolute_files Samples.argv)
  /\ exit_code env' Samples.argv = exit_code Samples.absolute_files Samples.argv.
Proof.
  apply (absolute_files_ignore_the_directory Samples.absolute_files Samples.argv
           _ _ "tests" (Some "/srv") eq_refl eq_refl eq_refl).
  constructor; [exists "/opt/checks/a.py"; split; reflexivity|].
  constructor; [exists "/opt/checks/b.py"; split; reflexivity|]. constructor.
Defined.

(** ** Payloads the report cannot hold *)








(** The check [P] returns a dict with a tuple for a key. *)
Example tuple_key_loses_the_report :
  disk (final Samples.tuple_key_payload Samples.argv)
  = [("enumeration_results.json", None)]
  /\ In (Print "Error saving results: keys must be str, int, float, bool or None, not tuple")
        (trace (final Samples.tuple_key_payload Samples.argv))
  /\ exit_code Samples.tuple_key_payload Samples.argv = 0.
Proof. split; [|split]; vm_compute; auto 30. Qed.

(** ** Running the registry again *)

Lemma dict_get_run_results_other env k rs items n :
  ~ In n (keys (completed items)) ->
  dict_get n (run_results env k rs items) = dict_get n rs.
Proof.
  revert k rs. induction items as [|[n' info] items IH]; intros k rs Hnot;
    cbn [run_results completed] in *; [reflexivity|].
  destruct (make_result (outcome_of info) (now_isoformat env k)) as [r|] eqn:Hr;
    [|reflexivity].
  rewrite (make_result_no_escape _ _ _ Hr) in Hnot.
  rewrite IH.
  - apply dict_get_set_neq. intros ->. apply Hnot. now left.
  - intros Hin. apply Hnot. now right.
Qed.

Lemma dict_get_run_results_nth env k rs items i n info :
  NoDup (keys items) ->
  nth_error (completed items) i = Some (n, info) ->
  exists r,
    make_result (outcome_of info) (now_isoformat env (k + i)) = Some r
    /\ dict_get n (run_results env k rs items) = Some r.
Proof.
  revert k rs i. induction items as [|[n' info'] items IH]; intros k rs i Hnd Hnth.
  - destruct i; discriminate.
  - cbn [keys map fst] in Hnd. apply NoDup_cons_iff in Hnd as [Hfresh Hnd].
    cbn [completed run_results] in *.
    destruct (make_result (outcome_of info') (now_isoformat env k)) as [r'|] eqn:Hr.
    + rewrite (make_result_no_escape _ _ _ Hr) in Hnth.
      destruct i as [|i]; cbn [nth_error] in Hnth.
      * injection Hnth as -> ->. exists r'. rewrite Nat.add_0_r.
        split; [assumption|].
        rewrite dict_get_run_results_other.
        -- apply dict_get_set_eq.
        -- intros Hin. apply Hfresh. unfold keys in *.
           apply in_map_iff in Hin as (item & <- & Hin).
           apply in_map. now apply completed_incl.
      * destruct (IH (S k) (dict_set n' r' rs) i Hnd Hnth) as (r & Hres & Hget).
        exists r. split; [|assumption]. rewrite <- Hres. do 2 f_equal. lia.
    + apply make_result_escape in Hr. destruct (escape info'); [|congruence].
      destruct i; discriminate.
Qed.

(** X9: [run_all_tests] on any framework object whose registry has distinct
    names: it returns, unless the call of a check raises outside
    [Exception], and then it ends by that exception; it leaves the registry
    as it is, reads the clock once per check whose call comes back, replaces
    the result of each of these by the outcome of a new call stamped with
    the reading of its turn, and keeps the results recorded under other
    names; when no call raises outside [Exception] these checks are all the
    registered ones.  A registered module [k] without [run] is recorded with
    the message of the [AttributeError] that names [k]. *)
Theorem run_all_tests_refreshes_the_registered (env : Env) (p : Process) :
  NoDup (keys (tests (self p))) ->
  fst (run_all_tests env p)
  = match escape_of (tests (self p)) with Some e => Err e | None => Val tt end
  /\ tests (self (snd (run_all_tests env p))) = tests (self p)
  /\ clock (snd (run_all_tests env p))
     = List.length (completed (tests (self p))) + clock p
  /\ (forall i n info,
         nth_error (completed (tests (self p))) i = Some (n, info) ->
         exists r,
           make_result (outcome_of info) (now_isoformat env (clock p + i)) = Some r
           /\ dict_get n (results (self (snd (run_all_tests env p)))) = Some r)
  /\ (forall n,
         ~ In n (keys (completed (tests (self p)))) ->
         dict_get n (results (self (snd (run_all_tests env p))))
         = dict_get n (results (self p)))
  /\ (escape_of (tests (self p)) = None ->
      completed (tests (self p)) = tests (self p))
  /\ (forall info k,
         attr_run (ti_module info) = None ->
         mod_name (ti_module info) = Some k ->
         outcome_of info = Raises ("module '" ++ k ++ "' has no attribute 'run'")).
Proof.
  intros Hnd. rewrite run_all_tests_eq.
  split; [|split; [|split; [|split; [|split; [|split]]]]].
  - destruct (tests (self p)) as [|item reg]; [reflexivity|].
    cbv zeta. now destruct (escape_of (item :: reg)).
  - destruct (tests (self p)) as [|item reg] eqn:Ht; [exact Ht|].
    cbv zeta. destruct (escape_of (item :: reg)); exact Ht.
  - destruct (tests (self p)) as [|item reg] eqn:Ht; [reflexivity|].
    cbv zeta. now destruct (escape_of (item :: reg)).
  - intros i n info Hnth.
    destruct (dict_get_run_results_nth env (clock p) (results (self p)) _ i n info
                Hnd Hnth) as (r & Hres & Hget).
    exists r. split; [assumption|].
    destruct (tests (self p)) as [|item reg] eqn:Ht; [destruct i; discriminate|].
    cbv zeta. now destruct (escape_of (item :: reg)).
  - intros n Hnot.
    pose proof (dict_get_run_results_other env (clock p) (results (self p)) _ n Hnot)
      as Hget.
    destruct (tests (self p)) as [|item reg] eqn:Ht; [reflexivity|].
    cbv zeta. now destruct (escape_of (item :: reg)).
  - apply completed_no_escape.
  - intros info k Hrun Hname. unfold outcome_of, call_run. now rewrite Hrun, Hname.
Qed.

(** The batch of three, run a second time: [B] gets the fifth reading of
    the clock. *)
Lemma run_all_tests_refreshes_the_registered_witness :
  exists r,
    make_result (outcome_of {| ti_module := Samples.booms;
                               ti_config := Samples.spec "B" "b.py" Samples.on
                                              (Some (PDict [])) |})
      (now_isoformat Samples.three_checks
         (clock (final Samples.three_checks Samples.argv) + 1)) = Some r
    /\ dict_get "B"
         (results (self (snd (run_all_tests Samples.three_checks
                                (final Samples.three_checks Samples.argv)))))
       = Some r.
Proof.
  assert (Hnd : NoDup (keys (tests (self (final Samples.three_checks Samples.argv))))).
  { apply distinct_NoDup. vm_compute. reflexivity. }
  apply (proj1 (proj2 (proj2 (proj2 (run_all_tests_refreshes_the_registered
                                       Samples.three_checks
                                       (final Samples.three_checks Samples.argv) Hnd))))
           1 "B" {| ti_module := Samples.booms;
                    ti_config := Samples.spec "B" "b.py" Samples.on (Some (PDict [])) |}).
  vm_compute. reflexivity.
Defined.
(** ** Text *)

Lemma append_nil_l (s : string) : ("" ++ s)%string = s.
Proof. reflexivity. Qed.

Lemma append_cons (c : ascii) (a b : string) :
  (String c a ++ b)%string = String c (a ++ b).
Proof. reflexivity. Qed.

Lemma append_nil_r (s : string) : (s ++ "")%string = s.
Proof.
  induction s as [|c s IH]; [reflexivity|]. now rewrite append_cons, IH.
Qed.

Lemma append_assoc (a b c : string) : ((a ++ b) ++ c)%string = (a ++ b ++ c)%string.
Proof.
  induction a as [|x a IH]; [reflexivity|]. now rewrite !append_cons, IH.
Qed.

Lemma length_append (a b : string) :
  String.length (a ++ b) = String.length a + String.length b.
Proof.
  induction a as [|x a IH]; [reflexivity|].
  rewrite append_cons. cbn [String.length]. now rewrite IH.
Qed.

Lemma isdigit_inv (s : string) :
  Py.isdigit s = true -> s <> "" /\ Py.all_in Py.isdigit_char s = true.
Proof.
  unfold Py.isdigit. intros H. apply andb_prop in H as [Hne Hall].
  split; [|assumption]. intros ->. discriminate.
Qed.

(** ** Computations of a check *)

Lemma returned_bind {A B : Type} (c : Py.C A) (k : A -> Py.C B) :
  Py.returned (Py.bind c k)
  = match Py.returned c with
    | Py.Ok a => Py.returned (k a)
    | Py.Raise e => Py.Raise e
    end.
Proof.
  destruct c as [out [a|e]]; cbn [Py.bind Py.returned snd]; [|reflexivity].
  now destruct (k a).
Qed.

Lemma printed_bind {A B : Type} (c : Py.C A) (k : A -> Py.C B) :
  Py.printed (Py.bind c k)
  = match Py.returned c with
    | Py.Ok a => Py.printed c ++ Py.printed (k a)
    | Py.Raise e => Py.printed c
    end.
Proof.
  destruct c as [out [a|e]]; cbn [Py.bind Py.printed Py.returned fst snd];
    [|reflexivity].
  now destruct (k a).
Qed.

Lemma returned_try {A : Type} (c : Py.C A) (h : Py.exception -> Py.C A) :
  Py.returned (Py.try c h)
  = match Py.returned c with
    | Py.Ok a => Py.Ok a
    | Py.Raise e => Py.returned (h e)
    end.
Proof.
  destruct c as [out [a|e]]; cbn [Py.try Py.returned snd]; [reflexivity|].
  now destruct (h e).
Qed.

Lemma printed_try {A : Type} (c : Py.C A) (h : Py.exception -> Py.C A) :
  Py.printed (Py.try c h)
  = match Py.returned c with
    | Py.Ok a => Py.printed c
    | Py.Raise e => Py.printed c ++ Py.printed (h e)
    end.
Proof.
  destruct c as [out [a|e]]; cbn [Py.try Py.printed Py.returned fst snd];
    [reflexivity|].
  now destruct (h e).
Qed.

Lemma returned_if {A : Type} (b : bool) (c1 c2 : Py.C A) :
  Py.returned (if b then c1 else c2) = if b then Py.returned c1 else Py.returned c2.
Proof. now destruct b. Qed.

(** ** Matching *)

Lemma consumed_app (w rest : string) : re.consumed (w ++ rest) rest = w.
Proof.
  unfold re.consumed. rewrite length_append.
  replace (String.length w + String.length rest - String.length rest)
    with (String.length w) by lia.
  induction w as [|c w IH].
  - rewrite append_nil_l. destruct rest; reflexivity.
  - rewrite append_cons. cbn [String.length substring]. now rewrite IH.
Qed.

(** A repetition followed by something that cannot start inside the class
    takes the longest run. *)
Lemma many_app_max {R : Type} (class : ascii -> bool) (w rest : string) (n : nat)
      (k : nat -> string -> option R) :
  Py.all_in class w = true ->
  Py.starts_in class rest = false ->
  (forall m c s', class c = true -> k m (String c s') = None) ->
  re.many class (w ++ rest) n k = k (n + String.length w) rest.
Proof.
  intros Hall Hrest Hk. revert n. induction w as [|c w IH]; intros n.
  - rewrite append_nil_l. cbn [String.length]. rewrite Nat.add_0_r.
    destruct rest as [|c rest]; cbn [re.many]; [reflexivity|].
    cbn [Py.starts_in] in Hrest. now rewrite Hrest.
  - cbn [Py.all_in] in Hall. apply andb_prop in Hall as [Hc Hw].
    rewrite append_cons. cbn [re.many String.length]. rewrite Hc, (IH Hw).
    replace (S n + String.length w) with (n + S (String.length w)) by lia.
    destruct (k (n + S (String.length w)) rest) eqn:Hres; [reflexivity|].
    now apply Hk.
Qed.

(** A repetition whose longest run lets the rest match takes that run. *)
Lemma many_app_first {R : Type} (class : ascii -> bool) (w rest : string) (n : nat)
      (k : nat -> string -> option R) (r : R) :
  Py.all_in class w = true ->
  Py.starts_in class rest = false ->
  k (n + String.length w) rest = Some r ->
  re.many class (w ++ rest) n k = Some r.
Proof.
  intros Hall Hrest. revert n. induction w as [|c w IH]; intros n Hk.
  - rewrite append_nil_l. cbn [String.length] in Hk. rewrite Nat.add_0_r in Hk.
    destruct rest as [|c rest]; cbn [re.many]; [assumption|].
    cbn [Py.starts_in] in Hrest. now rewrite Hrest.
  - cbn [Py.all_in] in Hall. apply andb_prop in Hall as [Hc Hw].
    rewrite append_cons. cbn [re.many]. rewrite Hc.
    rewrite (IH Hw (S n)); [reflexivity|].
    cbn [String.length] in Hk.
    now replace (S n + String.length w) with (n + S (String.length w)) by lia.
Qed.

Lemma length_pos (s : string) : s <> "" -> Nat.leb 1 (String.length s) = true.
Proof. destruct s; [contradiction | reflexivity]. Qed.

Lemma digit_is_not_a_dot (c : ascii) :
  Py.isdigit_char c = true -> Ascii.eqb "." c = false.
Proof.
  intros Hd. destruct (Ascii.eqb "." c) eqn:Heq; [|reflexivity].
  apply Ascii.eqb_eq in Heq. subst c. discriminate.
Qed.

(** ** [kernelCheck] *)

Lemma version_pattern_match (a b c rest : string) :
  Py.isdigit a = true -> Py.isdigit b = true -> Py.isdigit c = true ->
  Py.starts_in Py.isdigit_char rest = false ->
  re.match_ kernelCheck.version_pattern (a ++ "." ++ b ++ "." ++ c ++ rest)
  = Some [(1, a); (2, b); (3, c)].
Proof.
  intros Ha Hb Hc Hrest.
  apply isdigit_inv in Ha as [Hane Ha], Hb as [Hbne Hb], Hc as [Hcne Hc].
  unfold re.match_, kernelCheck.version_pattern. cbn [re.seq re.run].
  rewrite many_app_max; [|assumption|reflexivity|].
  2:{ intros m ch s' Hd. destruct (Nat.leb 1 m); [|reflexivity].
      cbn [re.after_prefix]. now rewrite (digit_is_not_a_dot ch Hd). }
  cbn [Nat.add]. rewrite (length_pos a Hane), consumed_app.
  rewrite (append_cons "." "" _), append_nil_l.
  cbn [re.after_prefix]. rewrite Ascii.eqb_refl.
  rewrite many_app_max; [|assumption|reflexivity|].
  2:{ intros m ch s' Hd. destruct (Nat.leb 1 m); [|reflexivity].
      cbn [re.after_prefix]. now rewrite (digit_is_not_a_dot ch Hd). }
  cbn [Nat.add]. rewrite (length_pos b Hbne), consumed_app.
  rewrite (append_cons "." "" _), append_nil_l.
  cbn [re.after_prefix]. rewrite Ascii.eqb_refl.
  erewrite many_app_first; [reflexivity|assumption|assumption|].
  cbn [Nat.add]. rewrite (length_pos c Hcne), consumed_app. reflexivity.
Qed.

(** X10: the pattern of [kernelCheck.run] reads three numbers separated by dots
    at the start of an ASCII text, each as long as it can be, and ignores
    what follows them. *)
Theorem version_pattern_reads_three_numbers (a b c rest : string) :
  Py.isdigit a = true -> Py.isdigit b = true -> Py.isdigit c = true ->
  Py.isascii rest = true ->
  Py.starts_in Py.isdigit_char rest = false ->
  re.match_ kernelCheck.version_pattern (a ++ "." ++ b ++ "." ++ c ++ rest)
  = Some [(1, a); (2, b); (3, c)].
Proof.
  intros Ha Hb Hc _ Hrest. exact (version_pattern_match a b c rest Ha Hb Hc Hrest).
Qed.

(** The release [5.15.0-91-generic]. *)
Lemma version_pattern_reads_three_numbers_witness :
  re.match_ kernelCheck.version_pattern "5.15.0-91-generic"
  = Some [(1, "5"); (2, "15"); (3, "0")].
Proof.
  exact (version_pattern_reads_three_numbers "5" "15" "0" "-91-generic"
           eq_refl eq_refl eq_refl eq_refl eq_refl).
Defined.

Lemma compare_versions_opp (v w : list Z) :
  kernelCheck.compare_versions w v = (- kernelCheck.compare_versions v w)%Z.
Proof.
  revert w. induction v as [|a v IH]; intros [|b w]; cbn [kernelCheck.compare_versions];
    try reflexivity.
  rewrite IH.
  destruct (Z.ltb_spec b a), (Z.ltb_spec a b), (Z.gtb_spec b a), (Z.gtb_spec a b);
    try lia; reflexivity.
Qed.

Lemma compare_versions_cons (a b : Z) (v w : list Z) :
  kernelCheck.compare_versions (a :: v) (b :: w)
  = (if Z.ltb a b then -1 else if Z.ltb b a then 1 else kernelCheck.compare_versions v w)%Z.
Proof.
  cbn [kernelCheck.compare_versions].
  destruct (Z.ltb_spec a b), (Z.gtb_spec a b), (Z.ltb_spec b a); try lia; reflexivity.
Qed.

Lemma compare_versions_range (v w : list Z) :
  kernelCheck.compare_versions v w = (-1)%Z
  \/ kernelCheck.compare_versions v w = 0%Z
  \/ kernelCheck.compare_versions v w = 1%Z.
Proof.
  revert w. induction v as [|a v IH]; intros [|b w]; try (right; left; reflexivity).
  rewrite compare_versions_cons.
  destruct (Z.ltb a b); [now left|]. destruct (Z.ltb b a); [now right; right|]. apply IH.
Qed.

(** X11: [compare_versions] orders versions number by number: it is
    antisymmetric, [-1] is transitive, two versions of the same length
    compare equal only when they are the same, and a version compares equal
    to every version it is the beginning of. *)
Theorem compare_versions_orders_versions :
  (forall v w, kernelCheck.compare_versions w v = (- kernelCheck.compare_versions v w)%Z)
  /\ (forall u v w,
         kernelCheck.compare_versions u v = (-1)%Z ->
         kernelCheck.compare_versions v w = (-1)%Z ->
         kernelCheck.compare_versions u w = (-1)%Z)
  /\ (forall v w,
         List.length v = List.length w ->
         (kernelCheck.compare_versions v w = 0%Z <-> v = w))
  /\ (forall v w, kernelCheck.compare_versions v (v ++ w) = 0%Z).
Proof.
  split; [exact compare_versions_opp|]. split; [|split].
  - intros u. induction u as [|a u IH]; intros [|b v] [|c w]; try discriminate.
    rewrite !compare_versions_cons.
    destruct (Z.ltb_spec a b), (Z.ltb_spec b a), (Z.ltb_spec b c), (Z.ltb_spec c b),
      (Z.ltb_spec a c), (Z.ltb_spec c a); try lia; try discriminate; try reflexivity.
    apply IH.
  - intros v. induction v as [|a v IH]; intros [|b w] Hlen; try discriminate.
    + split; reflexivity.
    + rewrite compare_versions_cons. injection Hlen as Hlen.
      destruct (Z.ltb_spec a b), (Z.ltb_spec b a); try lia.
      * split; [discriminate | intros [= -> _]; lia].
      * split; [discriminate | intros [= -> _]; lia].
      * rewrite (IH w Hlen). assert (a = b) by lia. subst b.
        split; [now intros -> | now intros [= ->]].
  - intros v w. induction v as [|a v IH]; [now destruct w|].
    cbn [app]. rewrite compare_versions_cons, Z.ltb_irrefl. exact IH.
Qed.

(** [5.4] against [5.10.0] and against [5.4.0]. *)
Lemma compare_versions_orders_versions_witness :
  kernelCheck.compare_versions [5; 10; 0]%Z [5; 4]%Z = (- - 1)%Z
  /\ kernelCheck.compare_versions [5; 4]%Z ([5; 4] ++ [0])%Z = 0%Z.
Proof.
  split.
  - exact (proj1 compare_versions_orders_versions [5; 4]%Z [5; 10; 0]%Z).
  - exact (proj2 (proj2 (proj2 compare_versions_orders_versions)) [5; 4]%Z [0]%Z).
Defined.

Lemma for_list_int_no_limit (sys : Py.System) (l : list string) :
  (forall s, Py.int_limit sys s = None) ->
  Py.for_list (Py.int sys) l = ([], Py.Ok (map (Py.digits_value 0) l)).
Proof.
  intros Hlim. induction l as [|s l IH]; [reflexivity|].
  cbn [Py.for_list map]. unfold Py.int at 1. rewrite Hlim, IH. reflexivity.
Qed.

(** X12: with [uname -r] printing [a.b.c] and something, in ASCII, and a minimum
    that starts with [a'.b'.c'], [kernelCheck.run] reports [WARNING] when
    the three numbers of the kernel come before those of the minimum,
    compared as numbers one after the other, and [OK] otherwise. *)
Theorem kernel_is_outdated_iff_older
  (sys : Py.System) (d : list (pykey * pyvalue))
  (out err a b c rest a' b' c' rest' : string) :
  Py.subprocess_run sys ["uname"; "-r"]
  = Py.Ok {| Py.returncode := 0; Py.stdout := out; Py.stderr := err |} ->
  Py.isascii out = true ->
  Py.strip out = (a ++ "." ++ b ++ "." ++ c ++ rest)%string ->
  get (Py.lookup "min_kernel_version" d) (PStr "5.4.0")
  = PStr (a' ++ "." ++ b' ++ "." ++ c' ++ rest') ->
  Py.isdigit a = true -> Py.isdigit b = true -> Py.isdigit c = true ->
  Py.starts_in Py.isdigit_char rest = false ->
  Py.isdigit a' = true -> Py.isdigit b' = true -> Py.isdigit c' = true ->
  Py.isascii rest' = true ->
  Py.starts_in Py.isdigit_char rest' = false ->
  (forall s, Py.int_limit sys s = None) ->
  let n := Py.digits_value 0 in
  let older :=
    (Z.ltb (n a) (n a')
     || Z.eqb (n a) (n a')
        && (Z.ltb (n b) (n b') || Z.eqb (n b) (n b') && Z.ltb (n c) (n c')))%bool in
  exists report,
    Py.returned (kernelCheck.run sys (PDict d)) = Py.Ok (PDict report)
    /\ Py.lookup "status" report = Some (PStr (if older then "WARNING" else "OK")).
Proof.
  intros Hrun _ Hout Hmin Ha Hb Hc Hrest Ha' Hb' Hc' _ Hrest' Hlim n older.
  unfold kernelCheck.run, Py.params_get. rewrite Hmin.
  rewrite !returned_bind. cbn [Py.print Py.ret Py.returned snd].
  rewrite returned_try, returned_bind. unfold Py.call at 1. rewrite Hrun.
  cbn [Py.returned snd Py.returncode Py.stdout Z.eqb negb].
  rewrite Hout, returned_bind. cbn [Py.print Py.returned snd].
  rewrite (version_pattern_match a b c rest Ha Hb Hc Hrest).
  rewrite returned_bind, for_list_int_no_limit by assumption.
  cbn [Py.returned snd].
  rewrite (version_pattern_match a' b' c' rest' Ha' Hb' Hc' Hrest').
  rewrite returned_bind, for_list_int_no_limit by assumption.
  cbn [Py.returned snd kernelCheck.groups map re.group Nat.eqb get].
  rewrite !compare_versions_cons. fold n.
  cbn [kernelCheck.compare_versions].
  assert (Hcmp : ((if Z.ltb (n a) (n a') then -1
                   else if Z.ltb (n a') (n a) then 1
                   else if Z.ltb (n b) (n b') then -1
                   else if Z.ltb (n b') (n b) then 1
                   else if Z.ltb (n c) (n c') then -1
                   else if Z.ltb (n c') (n c) then 1 else 0) <? 0)%Z = older).
  { unfold older.
    destruct (Z.ltb_spec (n a) (n a')), (Z.ltb_spec (n a') (n a)),
      (Z.eqb_spec (n a) (n a')), (Z.ltb_spec (n b) (n b')), (Z.ltb_spec (n b') (n b)),
      (Z.eqb_spec (n b) (n b')), (Z.ltb_spec (n c) (n c')), (Z.ltb_spec (n c') (n c));
      try lia; reflexivity. }
  rewrite Hcmp. destruct older; eexists; split; reflexivity.
Qed.

(** The kernel [5.10.0-8-amd64] against the default minimum [5.4.0]: as
    numbers, 10 does not come before 4. *)
Lemma kernel_is_outdated_iff_older_witness :
  exists report,
    Py.returned (kernelCheck.run (Machines.uname ("5.10.0-8-amd64" ++ nl)) (PDict []))
    = Py.Ok (PDict report)
    /\ Py.lookup "status" report = Some (PStr "OK").
Proof.
  exact (kernel_is_outdated_iff_older (Machines.uname ("5.10.0-8-amd64" ++ nl)) []
           ("5.10.0-8-amd64" ++ nl) "" "5" "10" "0" "-8-amd64" "5" "4" "0" ""
           eq_refl eq_refl eq_refl eq_refl eq_refl eq_refl eq_refl eq_refl eq_refl
           eq_refl eq_refl eq_refl eq_refl (fun _ => eq_refl)).
Defined.

(** ** Verdicts of the checks *)

Lemma decides_returned (allowed : list string) (c : Py.C pyvalue) :
  decides allowed c <->
  exists v s, Py.returned c = Py.Ok v /\ verdict_of (Returns v) = Some s /\ In s allowed.
Proof.
  unfold decides, Py.as_outcome, Py.returned. destruct (snd c) as [v|e].
  - split.
    + intros (s & Hs & Hin). now exists v, s.
    + intros (v' & s & [= <-] & Hs & Hin). now exists s.
  - split.
    + intros (s & Hs & _). discriminate.
    + intros (v' & s & Hv & _). discriminate.
Qed.

Lemma settles_bind {A : Type} (allowed : list string) (c : Py.C A)
      (k : A -> Py.C pyvalue) :
  (forall a, settles allowed (k a)) -> settles allowed (Py.bind c k).
Proof.
  intros Hk. unfold settles. rewrite returned_bind.
  destruct (Py.returned c) as [a|e]; [apply Hk | exact I].
Qed.

Lemma settles_ret (allowed : list string) (v : pyvalue) (s : string) :
  verdict_of (Returns v) = Some s -> In s allowed -> settles allowed (Py.ret v).
Proof. intros Hs Hin. unfold settles. cbn. now exists s. Qed.

Lemma settles_raise (allowed : list string) (cls msg : string) :
  settles allowed (Py.raise cls msg).
Proof. exact I. Qed.

Lemma settles_decides (allowed : list string) (c : Py.C pyvalue) :
  decides allowed c -> settles allowed c.
Proof.
  intros Hd. apply decides_returned in Hd as (v & s & Hv & Hs & Hin).
  unfold settles. rewrite Hv. now exists s.
Qed.

Lemma decides_try (allowed : list string) (c : Py.C pyvalue)
      (h : Py.exception -> Py.C pyvalue) :
  settles allowed c -> (forall e, decides allowed (h e)) -> decides allowed (Py.try c h).
Proof.
  intros Hc Hh. apply decides_returned. rewrite returned_try.
  unfold settles in Hc. destruct (Py.returned c) as [v|e].
  - destruct Hc as (s & Hs & Hin). now exists v, s.
  - apply decides_returned. apply Hh.
Qed.

Lemma decides_ret (allowed : list string) (v : pyvalue) (s : string) :
  verdict_of (Returns v) = Some s -> In s allowed -> decides allowed (Py.ret v).
Proof. intros Hs Hin. now exists s. Qed.

Lemma decides_bind {A : Type} (allowed : list string) (c : Py.C A)
      (k : A -> Py.C pyvalue) (a : A) :
  Py.returned c = Py.Ok a -> decides allowed (k a) -> decides allowed (Py.bind c k).
Proof.
  intros Hc Hk. apply decides_returned. rewrite returned_bind, Hc.
  now apply decides_returned.
Qed.

Ltac settle :=
  repeat first
    [ exact I
    | apply settles_bind; intros
    | eapply settles_ret; [reflexivity | simpl; tauto]
    | eapply decides_ret; [reflexivity | simpl; tauto]
    | match goal with
      | |- settles _ (if ?b then _ else _) => destruct b
      | |- decides _ (if ?b then _ else _) => destruct b
      | |- settles _ (match ?x with _ => _ end) => destruct x
      | |- settles _ (let (_, _) := ?x in _) => destruct x
      | |- settles _ (Py.ret ?v) =>
          match v with context [if ?b then _ else _] => destruct b end
      end ].

Lemma kernelCheck_decides (sys : Py.System) (d : list (pykey * pyvalue)) :
  decides ["ERROR"; "WARNING"; "OK"] (kernelCheck.run sys (PDict d)).
Proof.
  unfold kernelCheck.run.
  eapply decides_bind; [reflexivity|].
  eapply decides_bind; [reflexivity|].
  apply decides_try; [|intros e]; settle.
Qed.

Lemma firewallCheck_decides (sys : Py.System) (d : list (pykey * pyvalue)) :
  decides ["ERROR"; "FAIL"; "PASS"; "WARNING"] (firewallCheck.run sys (PDict d)).
Proof.
  unfold firewallCheck.run.
  eapply decides_bind; [reflexivity|].
  eapply decides_bind; [reflexivity|].
  eapply decides_bind; [reflexivity|].
  apply decides_try; [|intros e]; settle.
Qed.

Lemma securityUpdatesCheck_decides (sys : Py.System) (d : list (pykey * pyvalue)) :
  decides ["ERROR"; "PASS"; "CRITICAL"; "WARNING"]
    (securityUpdatesCheck.run sys (PDict d)).
Proof.
  unfold securityUpdatesCheck.run.
  eapply decides_bind; [reflexivity|].
  eapply decides_bind; [reflexivity|].
  eapply decides_bind; [reflexivity|].
  eapply decides_bind; [reflexivity|].
  apply decides_try; [|intros e]; settle.
Qed.

Lemma check_apparmor_decides (sys : Py.System) (require_active check_profiles : pyvalue) :
  decides ["SKIPPED"; "ERROR"; "FAIL"; "PASS"; "WARNING"]
    (macSystemcheck.check_apparmor sys require_active check_profiles).
Proof.
  unfold macSystemcheck.check_apparmor.
  apply decides_try; [|intros e]; settle.
Qed.

Lemma check_selinux_decides (sys : Py.System) (require_active : pyvalue) :
  decides ["SKIPPED"; "ERROR"; "FAIL"; "PASS"; "WARNING"]
    (macSystemcheck.check_selinux sys require_active).
Proof.
  unfold macSystemcheck.check_selinux.
  apply decides_try; [|intros e]; settle.
Qed.

Lemma decides_bind_print (allowed : list string) (line : string)
      (k : unit -> Py.C pyvalue) :
  decides allowed (k tt) -> decides allowed (Py.bind (Py.print line) k).
Proof. intros Hk. now apply (decides_bind allowed (Py.print line) k tt). Qed.

Lemma macSystemcheck_decides (sys : Py.System) (d : list (pykey * pyvalue)) :
  decides ["SKIPPED"; "ERROR"; "FAIL"; "PASS"; "WARNING"]
    (macSystemcheck.run sys (PDict d)).
Proof.
  unfold macSystemcheck.run.
  eapply decides_bind; [reflexivity|].
  eapply decides_bind; [reflexivity|].
  eapply decides_bind; [reflexivity|].
  eapply decides_bind; [reflexivity|].
  destruct (String.eqb (macSystemcheck.detect_mac_system sys) "none").
  - settle.
  - apply decides_bind_print.
    destruct (String.eqb (macSystemcheck.detect_mac_system sys) "apparmor");
      [apply check_apparmor_decides|].
    destruct (String.eqb (macSystemcheck.detect_mac_system sys) "selinux");
      [apply check_selinux_decides|].
    settle.
Qed.

Lemma permissionsCheck_decides (sys : Py.System) (repr : string -> string)
      (other_home : pyvalue -> list string * pyvalue)
      (d : list (pykey * pyvalue)) (home : string) :
  get (Py.lookup "home_directory" d) (PStr "/home") = PStr home ->
  decides ["ERROR"; "WARNING"; "FAIL"; "PASS"]
    (permissionsCheck.run sys repr other_home (PDict d)).
Proof.
  intros Hhome. unfold permissionsCheck.run.
  eapply decides_bind; [reflexivity|].
  eapply decides_bind; [reflexivity|]. cbv beta. rewrite Hhome.
  eapply decides_bind; [reflexivity|].
  eapply decides_bind; [reflexivity|].
  eapply decides_bind; [reflexivity|].
  eapply decides_bind; [reflexivity|].
  apply decides_try; [|intros e]; settle.
Qed.

Lemma example_decides (d : list (pykey * pyvalue)) :
  decides ["completed"] (example.run (PDict d))
  /\ decides ["completed"] (example.run PNone).
Proof.
  split; unfold example.run.
  - eapply decides_bind; [reflexivity|].
    apply decides_bind_print.
    destruct (Py.truthy (get (Py.lookup "verbose" d) (PBool false))).
    + eapply decides_bind; [reflexivity|]. repeat apply decides_bind_print. settle.
    + eapply decides_bind; [reflexivity|]. repeat apply decides_bind_print. settle.
  - vm_compute. exists "completed". split; [reflexivity | now left].
Qed.

(** X13: whatever the machine answers, each check returns a report when its
    parameters are a dict, so that the framework records a success even for
    a report of an error; the verdict of the report is one of the words of
    that check, and the checks do not share one list of words.  For
    [permissionsCheck] this holds when [home_directory] is a string. *)
Theorem every_check_returns_a_verdict
  (sys : Py.System) (repr : string -> string)
  (other_home : pyvalue -> list string * pyvalue) (d : list (pykey * pyvalue)) :
  (exists s, verdict_of (call_run (Py.as_module "example" example.run) (PDict d)) = Some s
             /\ In s ["completed"])
  /\ (exists s, verdict_of (call_run (Py.as_module "kernelCheck" (kernelCheck.run sys)) (PDict d))
                = Some s
                /\ In s ["ERROR"; "WARNING"; "OK"])
  /\ (exists s, verdict_of (call_run (Py.as_module "firewallCheck" (firewallCheck.run sys)) (PDict d))
                = Some s
                /\ In s ["ERROR"; "FAIL"; "PASS"; "WARNING"])
  /\ (exists s, verdict_of
                  (call_run (Py.as_module "securityUpdatesCheck" (securityUpdatesCheck.run sys)) (PDict d))
                = Some s
                /\ In s ["ERROR"; "PASS"; "CRITICAL"; "WARNING"])
  /\ (exists s, verdict_of (call_run (Py.as_module "macSystemcheck" (macSystemcheck.run sys)) (PDict d))
                = Some s
                /\ In s ["SKIPPED"; "ERROR"; "FAIL"; "PASS"; "WARNING"])
  /\ (forall home,
         get (Py.lookup "home_directory" d) (PStr "/home") = PStr home ->
         exists s,
           verdict_of
             (call_run (Py.as_module "permissionsCheck" (permissionsCheck.run sys repr other_home)) (PDict d))
           = Some s
           /\ In s ["ERROR"; "WARNING"; "FAIL"; "PASS"]).
Proof.
  split; [exact (proj1 (example_decides d))|].
  split; [exact (kernelCheck_decides sys d)|].
  split; [exact (firewallCheck_decides sys d)|].
  split; [exact (securityUpdatesCheck_decides sys d)|].
  split; [exact (macSystemcheck_decides sys d)|].
  intros home Hhome. exact (permissionsCheck_decides sys repr other_home d home Hhome).
Qed.

(** [permissionsCheck] with its default parameters, on a machine without
    [/home]. *)
Lemma every_check_returns_a_verdict_witness :
  exists s,
    verdict_of
      (call_run (Py.as_module "permissionsCheck" (permissionsCheck.run (Machines.printing "")
                      (fun s => s) (fun v => ([], v)))) (PDict []))
    = Some s
    /\ In s ["ERROR"; "WARNING"; "FAIL"; "PASS"].
Proof.
  exact (proj2 (proj2 (proj2 (proj2 (proj2
           (every_check_returns_a_verdict (Machines.printing "")
              (fun s => s) (fun v => ([], v)) [])))))
           "/home" eq_refl).
Defined.

(** X14: parameters of the configuration that are not a dict (a configuration
    that says ["parameters": null], or gives a list) make each of the five checks
    raise [AttributeError] before it looks at the machine, which the
    framework records as the error of the check; [example.run] does the
    same, except that it takes [None] for the empty dict. *)
Theorem parameters_must_be_a_dict
  (sys : Py.System) (repr : string -> string)
  (other_home : pyvalue -> list string * pyvalue) (v : pyvalue) :
  (forall d, v <> PDict d) ->
  (forall ty, v <> PObject ty) ->
  let refused := Raises ("'" ++ type_name v ++ "' object has no attribute 'get'") in
  call_run (Py.as_module "kernelCheck" (kernelCheck.run sys)) v = refused
  /\ call_run (Py.as_module "permissionsCheck" (permissionsCheck.run sys repr other_home)) v = refused
  /\ call_run (Py.as_module "firewallCheck" (firewallCheck.run sys)) v = refused
  /\ call_run (Py.as_module "securityUpdatesCheck" (securityUpdatesCheck.run sys)) v = refused
  /\ call_run (Py.as_module "macSystemcheck" (macSystemcheck.run sys)) v = refused
  /\ (if match v with PNone => true | _ => false end
      then call_run (Py.as_module "example" example.run) v
           = call_run (Py.as_module "example" example.run) (PDict [])
      else call_run (Py.as_module "example" example.run) v = refused).
Proof.
  intros Hv _ refused. subst refused.
  destruct v; try (exfalso; eapply Hv; reflexivity);
    (split; [|split; [|split; [|split; [|split]]]]); reflexivity.
Qed.

(** ["parameters": null] *)
Lemma parameters_must_be_a_dict_witness :
  call_run (Py.as_module "kernelCheck" (kernelCheck.run (Machines.printing ""))) PNone
  = Raises "'NoneType' object has no attribute 'get'".
Proof.
  refine (proj1 (parameters_must_be_a_dict (Machines.printing "")
                   (fun s => s) (fun v => ([], v)) PNone _ _)).
  - intros d. discriminate.
  - intros ty. discriminate.
Defined.

(** ** [firewallCheck] *)

Lemma ensures_bind {A : Type} (P : pyvalue -> Prop) (c : Py.C A)
      (k : A -> Py.C pyvalue) :
  (forall a, Py.returned c = Py.Ok a -> ensures P (k a)) -> ensures P (Py.bind c k).
Proof.
  intros Hk. unfold ensures. rewrite returned_bind.
  destruct (Py.returned c) as [a|e]; [now apply Hk | exact I].
Qed.

Lemma ensures_try (P : pyvalue -> Prop) (c : Py.C pyvalue)
      (h : Py.exception -> Py.C pyvalue) :
  ensures P c -> (forall e, ensures P (h e)) -> ensures P (Py.try c h).
Proof.
  intros Hc Hh. unfold ensures in *. rewrite returned_try.
  destruct (Py.returned c) as [v|e]; [assumption | apply Hh].
Qed.

Lemma ensures_ret (P : pyvalue -> Prop) (v : pyvalue) : P v -> ensures P (Py.ret v).
Proof. intros Hv. exact Hv. Qed.

Lemma ensures_returned (P : pyvalue -> Prop) (c : Py.C pyvalue) (v : pyvalue) :
  ensures P c -> Py.returned c = Py.Ok v -> P v.
Proof. unfold ensures. intros H Hr. now rewrite Hr in H. Qed.

Ltac returns :=
  repeat (rewrite returned_bind; cbn [Py.print Py.ret Py.call Py.returned snd]).

Lemma prefix_cons_In (c : ascii) (needle hay : string) :
  String.prefix (String c needle) hay = true -> In c (list_ascii_of_string hay).
Proof.
  destruct hay as [|h hay]; cbn [String.prefix]; [discriminate|].
  destruct (ascii_dec c h) as [->|]; [|discriminate]. intros _. now left.
Qed.

Lemma contains_cons_In (c : ascii) (needle hay : string) :
  Py.contains (String c needle) hay = true -> In c (list_ascii_of_string hay).
Proof.
  induction hay as [|h hay IH]; cbn [Py.contains].
  - cbn. discriminate.
  - intros H. apply orb_prop in H as [H|H].
    + now apply (prefix_cons_In c needle).
    + right. now apply IH.
Qed.

Lemma lower_char_not_upper (c : ascii) :
  let n := nat_of_ascii (Py.lower_char c) in (Nat.leb 65 n && Nat.leb n 90 = false)%bool.
Proof. destruct c as [[] [] [] [] [] [] [] []]; reflexivity. Qed.

(** [lower] leaves no capital letter. *)
Lemma lower_has_no_capital (s : string) (c : ascii) :
  In c (list_ascii_of_string (Py.lower s)) ->
  (Nat.leb 65 (nat_of_ascii c) && Nat.leb (nat_of_ascii c) 90 = false)%bool.
Proof.
  induction s as [|x s IH]; cbn [Py.lower list_ascii_of_string In]; [contradiction|].
  intros [<-|Hin]; [apply lower_char_not_upper | now apply IH].
Qed.

Lemma contains_capital_lower (c : ascii) (needle s : string) :
  (Nat.leb 65 (nat_of_ascii c) && Nat.leb (nat_of_ascii c) 90 = true)%bool ->
  Py.contains (String c needle) (Py.lower s) = false.
Proof.
  intros Hup. destruct (Py.contains (String c needle) (Py.lower s)) eqn:Hc; [|reflexivity].
  apply contains_cons_In, lower_has_no_capital in Hc. congruence.
Qed.

Lemma prefix_isascii (needle hay : string) :
  String.prefix needle hay = true -> Py.isascii hay = true -> Py.isascii needle = true.
Proof.
  revert hay. induction needle as [|c needle IH]; intros hay; [reflexivity|].
  destruct hay as [|h hay]; cbn [String.prefix]; [discriminate|].
  destruct (ascii_dec c h) as [->|]; [|discriminate].
  cbn [Py.isascii]. intros Hp Hh. apply andb_prop in Hh as [Hh Hhay].
  rewrite Hh. cbn [andb]. now apply (IH hay).
Qed.

Lemma contains_isascii (needle hay : string) :
  Py.contains needle hay = true -> Py.isascii hay = true -> Py.isascii needle = true.
Proof.
  induction hay as [|h hay IH]; cbn [Py.contains].
  - rewrite orb_false_r. apply prefix_isascii.
  - intros H Hh. apply orb_prop in H as [H|H].
    + now apply (prefix_isascii needle (String h hay)).
    + cbn [Py.isascii] in Hh. apply andb_prop in Hh as [_ Hhay]. now apply IH.
Qed.

Lemma lower_char_isascii (c : ascii) :
  Nat.ltb (nat_of_ascii c) 128 = true ->
  Nat.ltb (nat_of_ascii (Py.lower_char c)) 128 = true.
Proof. destruct c as [[] [] [] [] [] [] [] []]; intros H; try discriminate; reflexivity. Qed.

Lemma isascii_lower (s : string) : Py.isascii s = true -> Py.isascii (Py.lower s) = true.
Proof.
  induction s as [|c s IH]; cbn [Py.isascii Py.lower]; [reflexivity|].
  intros H. apply andb_prop in H as [Hc Hs].
  now rewrite (lower_char_isascii c Hc), IH.
Qed.

Lemma isascii_lstrip (s : string) : Py.isascii s = true -> Py.isascii (Py.lstrip s) = true.
Proof.
  induction s as [|c s IH]; cbn [Py.lstrip]; [reflexivity|].
  intros H. destruct (Py.isspace c); [|assumption].
  cbn [Py.isascii] in H. apply andb_prop in H as [_ Hs]. now apply IH.
Qed.

Lemma isascii_rstrip (s : string) : Py.isascii s = true -> Py.isascii (Py.rstrip s) = true.
Proof.
  induction s as [|c s IH]; cbn [Py.rstrip]; [reflexivity|].
  cbn [Py.isascii]. intros H. apply andb_prop in H as [Hc Hs].
  specialize (IH Hs). destruct (Py.rstrip s) as [|r rs].
  - destruct (Py.isspace c); [reflexivity|]. cbn [Py.isascii]. now rewrite Hc.
  - cbn [Py.isascii] in *. now rewrite Hc, IH.
Qed.

Lemma isascii_strip (s : string) : Py.isascii s = true -> Py.isascii (Py.strip s) = true.
Proof. intros H. unfold Py.strip. now apply isascii_rstrip, isascii_lstrip. Qed.

(** No text in ASCII makes [firewallCheck.run] see an active firewall. *)
Lemma ascii_is_not_active (output : string) :
  Py.isascii output = true ->
  (Py.contains "Status: active" (Py.lower output)
   || Py.contains "stav: aktívny" (Py.lower output))%bool = false.
Proof.
  intros Hascii. rewrite contains_capital_lower by reflexivity. cbn [orb].
  destruct (Py.contains "stav: aktívny" (Py.lower output)) eqn:Hc; [|reflexivity].
  apply contains_isascii in Hc; [discriminate | now apply isascii_lower].
Qed.

(** X15: when [ufw status] answers in ASCII, as it does in English,
    [firewallCheck.run] never reports [PASS]: the text it looks for has a
    capital letter and is looked for in the lowered output, so that a
    firewall that says [Status: active] is reported as not activated when an
    active firewall is required, and as undetermined otherwise. *)
Theorem ascii_status_is_never_active
  (sys : Py.System) (d : list (pykey * pyvalue)) (which status : Py.CompletedProcess) :
  Py.subprocess_run sys ["which"; "ufw"] = Py.Ok which ->
  Py.returncode which = 0%Z ->
  Py.subprocess_run sys ["sudo"; "ufw"; "status"] = Py.Ok status ->
  Py.returncode status = 0%Z ->
  Py.isascii (Py.stdout status) = true ->
  exists report,
    Py.returned (firewallCheck.run sys (PDict d)) = Py.Ok (PDict report)
    /\ Py.lookup "status" report
       = Some (PStr (if Py.truthy (get (Py.lookup "require_active" d) (PBool true))
                     then "FAIL" else "WARNING"))
    /\ Py.lookup "message" report
       = Some (PStr (if Py.truthy (get (Py.lookup "require_active" d) (PBool true))
                     then "Firewall nie je aktivovaný"
                     else "Nepodarilo sa jednoznačne určiť stav firewallu")).
Proof.
  intros Hwhich Hw0 Hstatus Hs0 Hascii.
  unfold firewallCheck.run, Py.params_get.
  returns. rewrite returned_try. returns. rewrite Hwhich, Hw0. cbn [Z.eqb negb].
  returns. rewrite Hstatus, Hs0. cbn [Z.eqb negb]. returns.
  rewrite (ascii_is_not_active (Py.strip (Py.stdout status)))
    by now apply isascii_strip.
  cbn [negb andb].
  destruct (Py.truthy (get (Py.lookup "require_active" d) (PBool true)));
    eexists; split; try reflexivity; split; reflexivity.
Qed.

(** A firewall that answers [Status: active], with the default
    parameters. *)
Lemma ascii_status_is_never_active_witness :
  exists report,
    Py.returned (firewallCheck.run Machines.ufw_active (PDict [])) = Py.Ok (PDict report)
    /\ Py.lookup "status" report = Some (PStr "FAIL")
    /\ Py.lookup "message" report = Some (PStr "Firewall nie je aktivovaný").
Proof.
  exact (ascii_status_is_never_active Machines.ufw_active [] _ _
           eq_refl eq_refl eq_refl eq_refl eq_refl).
Defined.

Ltac ensure leaf :=
  repeat first
    [ exact I
    | apply ensures_bind; intros
    | apply ensures_ret; solve [leaf]
    | match goal with
      | |- ensures _ (if ?b then _ else _) => destruct b
      | |- ensures _ (match ?x with _ => _ end) => destruct x
      | |- ensures _ (Py.ret ?v) =>
          match v with context [if ?b then _ else _] => destruct b eqn:? end
      end ].

(** X16: an active firewall is always reported as [PASS]: the warning for a
    firewall without rules sits in a branch that is entered only with a
    list of rules that is not empty, so that no report has that message or
    counts 0 rules. *)
Theorem active_firewall_always_passes
  (sys : Py.System) (d report : list (pykey * pyvalue)) :
  Py.returned (firewallCheck.run sys (PDict d)) = Py.Ok (PDict report) ->
  Py.lookup "message" report
  <> Some (PStr "Firewall je aktívny, ale nie sú definované žiadne pravidlá")
  /\ Py.lookup "rules_count" report <> Some (PInt 0)
  /\ (Py.lookup "firewall_status" report = Some (PStr "active") ->
      Py.lookup "status" report = Some (PStr "PASS")).
Proof.
  intros Hret.
  apply (ensures_returned
           (fun v =>
              match v with
              | PDict report =>
                  Py.lookup "message" report
                  <> Some (PStr "Firewall je aktívny, ale nie sú definované žiadne pravidlá")
                  /\ Py.lookup "rules_count" report <> Some (PInt 0)
                  /\ (Py.lookup "firewall_status" report = Some (PStr "active") ->
                      Py.lookup "status" report = Some (PStr "PASS"))
              | _ => True
              end) _ (PDict report)) in Hret; [exact Hret|].
  unfold firewallCheck.run.
  apply ensures_bind; intros _ _.
  apply ensures_bind; intros check_rules _.
  apply ensures_bind; intros require_active _.
  apply ensures_try; [|intros e];
    ensure ltac:(cbn; split; [|split]; try discriminate; try reflexivity; congruence).
  all: apply ensures_ret.
  all: repeat match goal with
         | H : (_ && _)%bool = true |- _ => apply andb_prop in H as [? ?]
         end.
  all: try (destruct (firewallCheck.extract_firewall_rules _) as [|rule rules];
            cbn in *; try discriminate).
  all: split; [|split]; try discriminate; reflexivity.
Qed.

(** A firewall that answers [Stav: aktívny], its rules asked for. *)
Lemma active_firewall_always_passes_witness :
  let report :=
    match Py.returned (firewallCheck.run Machines.ufw_aktivny
                         (PDict [(KStr "check_rules", PBool true)])) with
    | Py.Ok (PDict report) => report
    | _ => []
    end in
  Py.lookup "rules_count" report = Some (PInt 1)
  /\ Py.lookup "status" report = Some (PStr "PASS").
Proof.
  intros report. split; [reflexivity|].
  apply (active_firewall_always_passes Machines.ufw_aktivny
           [(KStr "check_rules", PBool true)] report); reflexivity.
Defined.

Lemma lstrip_empty_split (s : string) : Py.lstrip s = "" -> Py.split s = [].
Proof.
  induction s as [|c s IH]; [reflexivity|]. cbn [Py.lstrip Py.split].
  destruct (Py.isspace c); [exact IH | discriminate].
Qed.

Lemma lstrip_head (s : string) :
  match Py.lstrip s with
  | EmptyString => True
  | String c _ => Py.isspace c = false
  end.
Proof.
  induction s as [|c s IH]; [exact I|]. cbn [Py.lstrip].
  destruct (Py.isspace c) eqn:Hc; [exact IH | exact Hc].
Qed.

Lemma rstrip_head (c : ascii) (s : string) :
  Py.isspace c = false -> Py.rstrip (String c s) <> "".
Proof.
  intros Hc. cbn [Py.rstrip]. destruct (Py.rstrip s); [rewrite Hc|]; discriminate.
Qed.

(** A line of spaces has no words. *)
Lemma strip_empty_split (s : string) : Py.strip s = "" -> Py.split s = [].
Proof.
  unfold Py.strip. intros H. apply lstrip_empty_split.
  pose proof (lstrip_head s) as Hh. destruct (Py.lstrip s) as [|c r]; [reflexivity|].
  now apply rstrip_head in H.
Qed.

Lemma rules_from_true (ls : list string) :
  firewallCheck.rules_from true ls
  = map firewallCheck.rule_of
      (filter (fun line => negb (firewallCheck.is_header line)
                           && Nat.leb 2 (List.length (Py.split line))) ls).
Proof.
  induction ls as [|line ls IH]; [reflexivity|].
  cbn [firewallCheck.rules_from filter].
  destruct (firewallCheck.is_header line); cbn [negb andb]; [exact IH|].
  destruct (String.eqb (Py.strip line) "") eqn:Hblank; cbn [negb].
  - apply String.eqb_eq, strip_empty_split in Hblank. rewrite Hblank. exact IH.
  - destruct (Nat.leb 2 (List.length (Py.split line))); cbn [map]; now rewrite IH.
Qed.

Lemma rules_from_false (ls : list string) :
  firewallCheck.rules_from false ls
  = firewallCheck.rules_from true (firewallCheck.after_header ls).
Proof.
  induction ls as [|line ls IH]; [reflexivity|].
  cbn [firewallCheck.rules_from firewallCheck.after_header andb].
  destruct (firewallCheck.is_header line); [reflexivity | exact IH].
Qed.

(** X17: the rules [extract_firewall_rules] returns are, in order, the lines
    after the first header line that are not header lines themselves and
    have at least two words; nothing before a header counts, and a line
    with one word is dropped. *)
Theorem rules_are_the_lines_after_the_header (output : string) :
  firewallCheck.extract_firewall_rules output
  = map firewallCheck.rule_of
      (filter (fun line => negb (firewallCheck.is_header line)
                           && Nat.leb 2 (List.length (Py.split line)))
         (firewallCheck.after_header (Py.lines output))).
Proof.
  unfold firewallCheck.extract_firewall_rules.
  now rewrite rules_from_false, rules_from_true.
Qed.

(** ** [permissionsCheck] *)

Lemma octal_digit_scan (m : Z) (rest : string) (b : bool) (acc : Z) (k : nat) :
  (0 <= m < 8)%Z ->
  permissionsCheck.scan_octal (permissionsCheck.octal_digit m ++ rest) b acc k
  = permissionsCheck.scan_octal rest false (8 * acc + m) (S k).
Proof.
  intros Hm. unfold permissionsCheck.octal_digit.
  rewrite append_cons, append_nil_l.
  assert (Hcases : (m = 0 \/ m = 1 \/ m = 2 \/ m = 3 \/ m = 4 \/ m = 5 \/ m = 6 \/ m = 7)%Z)
    by lia.
  destruct Hcases as [->|[->|[->|[->|[->|[->|[->| ->]]]]]]]; reflexivity.
Qed.

Lemma octal_digits_scan (fuel : nat) :
  forall (n : Z) (rest : string) (b : bool) (acc : Z) (k : nat),
    (0 <= n < 8 ^ Z.of_nat fuel)%Z -> 1 <= fuel ->
    exists len,
      1 <= len
      /\ permissionsCheck.scan_octal (permissionsCheck.octal_digits fuel n ++ rest) b acc k
         = permissionsCheck.scan_octal rest false (acc * 8 ^ Z.of_nat len + n) (k + len).
Proof.
  induction fuel as [|fuel IH]; intros n rest b acc k Hn Hfuel; [lia|].
  cbn [permissionsCheck.octal_digits].
  destruct (Z.ltb_spec n 8) as [Hsmall|Hbig].
  - exists 1. split; [lia|]. rewrite octal_digit_scan by lia.
    f_equal; [|lia]. change (8 ^ Z.of_nat 1)%Z with 8%Z. lia.
  - assert (Hfuel' : 1 <= fuel).
    { destruct fuel; [|lia]. change (8 ^ Z.of_nat 1)%Z with 8%Z in Hn. lia. }
    assert (Hdiv : (0 <= n / 8 < 8 ^ Z.of_nat fuel)%Z).
    { split; [apply Z.div_pos; lia|].
      apply Z.div_lt_upper_bound; [lia|].
      rewrite Nat2Z.inj_succ, Z.pow_succ_r in Hn by lia. lia. }
    rewrite append_assoc.
    destruct (IH (n / 8)%Z (permissionsCheck.octal_digit (n mod 8) ++ rest)%string
                b acc k Hdiv Hfuel') as (len & Hlen & ->).
    exists (S len). split; [lia|].
    rewrite octal_digit_scan by (apply Z.mod_pos_bound; lia).
    f_equal; [|lia].
    rewrite Nat2Z.inj_succ, Z.pow_succ_r by lia.
    pose proof (Z.div_mod n 8). lia.
Qed.

Lemma octal_digit_isoctal (m : Z) :
  (0 <= m < 8)%Z ->
  Py.all_in permissionsCheck.isoctal (permissionsCheck.octal_digit m) = true.
Proof.
  intros Hm.
  assert (Hcases : (m = 0 \/ m = 1 \/ m = 2 \/ m = 3 \/ m = 4 \/ m = 5 \/ m = 6 \/ m = 7)%Z)
    by lia.
  destruct Hcases as [->|[->|[->|[->|[->|[->|[->| ->]]]]]]]; reflexivity.
Qed.

Lemma all_in_append (class : ascii -> bool) (a b : string) :
  Py.all_in class (a ++ b) = (Py.all_in class a && Py.all_in class b)%bool.
Proof.
  induction a as [|c a IH]; [reflexivity|].
  rewrite append_cons. cbn [Py.all_in]. now rewrite IH, andb_assoc.
Qed.

Lemma octal_digits_isoctal (fuel : nat) (n : Z) :
  (0 <= n)%Z -> Py.all_in permissionsCheck.isoctal (permissionsCheck.octal_digits fuel n) = true.
Proof.
  revert n. induction fuel as [|fuel IH]; intros n Hn; [reflexivity|].
  cbn [permissionsCheck.octal_digits].
  destruct (Z.ltb_spec n 8) as [Hsmall|Hbig].
  - apply octal_digit_isoctal. lia.
  - rewrite all_in_append, IH, octal_digit_isoctal; [reflexivity| |].
    + apply Z.mod_pos_bound. lia.
    + apply Z.div_pos; lia.
Qed.

Lemma octal_digits_nonempty (fuel : nat) (n : Z) :
  permissionsCheck.octal_digits (S fuel) n <> "".
Proof.
  cbn [permissionsCheck.octal_digits]. destruct (Z.ltb n 8); [discriminate|].
  destruct (permissionsCheck.octal_digits fuel (n / 8)); discriminate.
Qed.

(** On a string of octal digits [int(s, 8)] has no space, sign or prefix to
    skip. *)
Lemma parse_octal_plain (s : string) :
  Py.all_in permissionsCheck.isoctal s = true -> s <> "" ->
  permissionsCheck.parse_octal s
  = match permissionsCheck.scan_octal s false 0 0 with
    | Some (v, S _, rest) =>
        match permissionsCheck.skip_spaces rest with
        | EmptyString => Some (1 * v)%Z
        | _ => None
        end
    | _ => None
    end.
Proof.
  intros Hall Hne. destruct s as [|c s]; [contradiction|].
  cbn [Py.all_in] in Hall. apply andb_prop in Hall as [Hc Hs].
  destruct c as [[] [] [] [] [] [] [] []]; try discriminate Hc; try reflexivity.
  destruct s as [|c2 s]; [reflexivity|].
  cbn [Py.all_in] in Hs. apply andb_prop in Hs as [Hc2 Hs].
  destruct c2 as [[] [] [] [] [] [] [] []]; try discriminate Hc2; reflexivity.
Qed.

Lemma fuel_is_enough (n : Z) :
  (0 <= n)%Z -> (n < 8 ^ Z.of_nat (S (Z.to_nat (Z.log2 n))))%Z.
Proof.
  intros Hn. rewrite Nat2Z.inj_succ, Z2Nat.id by apply Z.log2_nonneg.
  destruct (Z.eq_dec n 0) as [->|Hpos]; [reflexivity|].
  pose proof (Z.log2_spec n ltac:(lia)) as [_ Hlt].
  apply Z.lt_le_trans with (1 := Hlt).
  apply Z.pow_le_mono_l. pose proof (Z.log2_nonneg n). lia.
Qed.

Lemma parse_octal_oct_tail (n : Z) :
  (0 <= n)%Z -> permissionsCheck.parse_octal (permissionsCheck.oct_tail n) = Some n.
Proof.
  intros Hn. unfold permissionsCheck.oct_tail.
  rewrite parse_octal_plain
    by (apply octal_digits_isoctal || apply octal_digits_nonempty; assumption).
  destruct (octal_digits_scan (S (Z.to_nat (Z.log2 n))) n "" false 0 0
              (conj Hn (fuel_is_enough n Hn)) ltac:(lia)) as (len & Hlen & Hscan).
  rewrite append_nil_r in Hscan. rewrite Hscan.
  cbn [permissionsCheck.scan_octal]. destruct len as [|len]; [lia|].
  cbn [Nat.add permissionsCheck.skip_spaces]. f_equal. lia.
Qed.

(** X18: [int(oct(n)[2:], 8)] is [n]: the digits [check_directory_permissions]
    shows for a mode are read back as the permission bits of the mode. *)
Theorem octal_text_reads_back (n : Z) :
  (0 <= n)%Z -> permissionsCheck.parse_octal (permissionsCheck.oct_tail n) = Some n.
Proof. exact (parse_octal_oct_tail n). Qed.

(** The mode [rwxr-xr-x], 493, is written [755]. *)
Lemma octal_text_reads_back_witness :
  permissionsCheck.oct_tail 493 = "755"
  /\ permissionsCheck.parse_octal (permissionsCheck.oct_tail 493) = Some 493%Z.
Proof.
  split; [reflexivity|]. apply (octal_text_reads_back 493). lia.
Defined.

Lemma flag_if_insecure_iff (b : bool) (issue : string)
      (r : permissionsCheck.DirectoryReport) :
  (permissionsCheck.is_insecure r = true <-> permissionsCheck.issues r <> []) ->
  (permissionsCheck.is_insecure (permissionsCheck.flag_if b issue r) = true
   <-> permissionsCheck.issues (permissionsCheck.flag_if b issue r) <> []).
Proof.
  destruct b; cbn; [|tauto]. intros _. split; [|reflexivity]. intros _.
  destruct (permissionsCheck.issues r); discriminate.
Qed.

Lemma flag_if_octal (b : bool) (issue : string) (r : permissionsCheck.DirectoryReport) :
  permissionsCheck.permissions_octal (permissionsCheck.flag_if b issue r)
  = permissionsCheck.permissions_octal r.
Proof. now destruct b. Qed.

Lemma flag_if_path (b : bool) (issue : string) (r : permissionsCheck.DirectoryReport) :
  permissionsCheck.path (permissionsCheck.flag_if b issue r) = permissionsCheck.path r.
Proof. now destruct b. Qed.

Lemma flag_if_owner (b : bool) (issue : string) (r : permissionsCheck.DirectoryReport) :
  permissionsCheck.owner (permissionsCheck.flag_if b issue r) = permissionsCheck.owner r.
Proof. now destruct b. Qed.

Lemma flag_if_true (issue : string) (r : permissionsCheck.DirectoryReport) :
  permissionsCheck.is_insecure (permissionsCheck.flag_if true issue r) = true
  /\ In issue (permissionsCheck.issues (permissionsCheck.flag_if true issue r)).
Proof. cbn. split; [reflexivity|]. apply in_or_app. right. now left. Qed.

Lemma flag_if_grows (b : bool) (issue : string) (r : permissionsCheck.DirectoryReport) :
  (permissionsCheck.is_insecure r = true ->
   permissionsCheck.is_insecure (permissionsCheck.flag_if b issue r) = true)
  /\ (forall i, In i (permissionsCheck.issues r) ->
                In i (permissionsCheck.issues (permissionsCheck.flag_if b issue r))).
Proof.
  destruct b; cbn; [|tauto]. split; [reflexivity|].
  intros i Hi. apply in_or_app. now left.
Qed.

Lemma on_exception_keeps (e : Py.exception) (r : permissionsCheck.DirectoryReport) :
  String.eqb (Py.class e) "PermissionError" = false ->
  permissionsCheck.is_insecure (permissionsCheck.on_exception e r)
  = permissionsCheck.is_insecure r
  /\ permissionsCheck.issues (permissionsCheck.on_exception e r)
     = permissionsCheck.issues r
  /\ permissionsCheck.permissions_octal (permissionsCheck.on_exception e r)
     = permissionsCheck.permissions_octal r
  /\ permissionsCheck.path (permissionsCheck.on_exception e r)
     = permissionsCheck.path r.
Proof.
  intros Hcls. unfold permissionsCheck.on_exception. rewrite Hcls. cbn. auto.
Qed.

Lemma int8_class (repr : string -> string) (v : pyvalue) (e : Py.exception) :
  permissionsCheck.int8 repr v = Py.Raise e ->
  String.eqb (Py.class e) "PermissionError" = false.
Proof.
  unfold permissionsCheck.int8.
  destruct v; try (intros [= <-]; reflexivity).
  destruct (permissionsCheck.parse_octal s); [discriminate|]. intros [= <-]. reflexivity.
Qed.

Lemma S_IMODE_nonneg (mode : Z) : (0 <= permissionsCheck.S_IMODE mode)%Z.
Proof. unfold permissionsCheck.S_IMODE. apply Z.land_nonneg. right. lia. Qed.

Lemma int8_oct_tail (repr : string -> string) (mode : Z) :
  permissionsCheck.int8 repr (PStr (permissionsCheck.oct_tail (permissionsCheck.S_IMODE mode)))
  = Py.Ok (permissionsCheck.S_IMODE mode).
Proof.
  unfold permissionsCheck.int8.
  now rewrite parse_octal_oct_tail by apply S_IMODE_nonneg.
Qed.

Lemma check_directory_permissions_report
  (sys : Py.System) (repr : string -> string) (dir_path : string)
  (check_world_readable check_world_writable check_group_writable
     max_permissions : pyvalue) :
  let r :=
    permissionsCheck.check_directory_permissions sys repr dir_path
      check_world_readable check_world_writable check_group_writable max_permissions in
  (permissionsCheck.is_insecure r = true <-> permissionsCheck.issues r <> [])
  /\ (permissionsCheck.permissions_octal r = None
      <-> exists e, Py.os_stat sys dir_path = Py.Raise e)
  /\ permissionsCheck.path r = dir_path.
Proof.
  unfold permissionsCheck.check_directory_permissions.
  destruct (Py.os_stat sys dir_path) as [[mode st_uid]|e].
  - rewrite int8_oct_tail. cbv zeta.
    assert (Hsome : forall o : string,
               Some o = None <-> exists e, Py.Ok (mode, st_uid) = @Py.Raise (Z * Z) e).
    { intros o. split; [discriminate | intros (e & He); discriminate]. }
    destruct (permissionsCheck.int8 repr max_permissions) as [m|e] eqn:Hmax.
    + split; [|split].
      * repeat apply flag_if_insecure_iff. cbn. split; [discriminate | tauto].
      * rewrite !flag_if_octal. cbn [permissionsCheck.permissions_octal]. apply Hsome.
      * now rewrite !flag_if_path.
    + apply int8_class in Hmax.
      match goal with
      | |- context [permissionsCheck.on_exception e ?r] =>
          destruct (on_exception_keeps e r Hmax) as (-> & -> & -> & ->)
      end.
      split; [|split].
      * repeat apply flag_if_insecure_iff. cbn. split; [discriminate | tauto].
      * rewrite !flag_if_octal. cbn [permissionsCheck.permissions_octal]. apply Hsome.
      * now rewrite !flag_if_path.
  - cbv zeta. unfold permissionsCheck.on_exception.
    destruct (String.eqb (Py.class e) "PermissionError"); cbn;
      (split; [split; [discriminate | intros H; now contradiction H]|]);
      (split; [|reflexivity]); split; eauto.
Qed.

(** X19: the report [check_directory_permissions] makes of a directory calls it
    insecure exactly when it lists an issue, and lacks the key
    [permissions_octal] exactly when [os.stat] raised. *)
Theorem insecure_iff_an_issue_is_listed
  (sys : Py.System) (repr : string -> string) (dir_path : string)
  (check_world_readable check_world_writable check_group_writable
     max_permissions : pyvalue) :
  let r :=
    permissionsCheck.check_directory_permissions sys repr dir_path
      check_world_readable check_world_writable check_group_writable max_permissions in
  (permissionsCheck.is_insecure r = true <-> permissionsCheck.issues r <> [])
  /\ (permissionsCheck.permissions_octal r = None
      <-> exists e, Py.os_stat sys dir_path = Py.Raise e)
  /\ permissionsCheck.path r = dir_path.
Proof.
  exact (check_directory_permissions_report sys repr dir_path check_world_readable
           check_world_writable check_group_writable max_permissions).
Qed.

(** X20: a mode whose bits, read as one number, exceed [max_permissions] makes
    the directory insecure whatever the bits are: a directory that only its
    owner can enter is flagged for its sticky bit.  A [max_permissions] that
    is a value of the configuration other than a string, such as a number,
    is never compared with: the directory is then judged by the tests of single bits
    alone. *)
Theorem permissions_are_compared_as_numbers
  (sys : Py.System) (repr : string -> string) (dir_path : string)
  (check_world_readable check_world_writable check_group_writable
     max_permissions : pyvalue) (mode st_uid : Z) :
  Py.os_stat sys dir_path = Py.Ok (mode, st_uid) ->
  let r :=
    permissionsCheck.check_directory_permissions sys repr dir_path
      check_world_readable check_world_writable check_group_writable max_permissions in
  (forall text m,
      max_permissions = PStr text ->
      permissionsCheck.parse_octal text = Some m ->
      (m < permissionsCheck.S_IMODE mode)%Z ->
      permissionsCheck.is_insecure r = true
      /\ In ("Oprávnenia (" ++ permissionsCheck.oct_tail (permissionsCheck.S_IMODE mode)
               ++ ") presahujú maximálnu odporúčanú hodnotu (" ++ text ++ ")")%string
            (permissionsCheck.issues r))
  /\ ((forall text, max_permissions <> PStr text) ->
      (forall ty, max_permissions <> PObject ty) ->
      permissionsCheck.has mode permissionsCheck.S_IROTH = false ->
      permissionsCheck.has mode permissionsCheck.S_IWOTH = false ->
      permissionsCheck.has mode permissionsCheck.S_IWGRP = false ->
      permissionsCheck.is_insecure r = false).
Proof.
  intros Hstat r. subst r. unfold permissionsCheck.check_directory_permissions.
  rewrite Hstat, int8_oct_tail. cbv zeta. split.
  - intros text m -> Hparse Hlt. unfold permissionsCheck.int8. rewrite Hparse.
    assert (Hgt : Z.gtb (permissionsCheck.S_IMODE mode) m = true)
      by (apply Z.gtb_lt; lia).
    rewrite Hgt.
    match goal with
    | |- context [permissionsCheck.flag_if true ?i ?r0] =>
        destruct (flag_if_true i r0) as [Hins Hin];
        generalize dependent (permissionsCheck.flag_if true i r0); intros r1 Hins Hin
    end.
    match goal with
    | |- context [permissionsCheck.flag_if ?b ?i r1] =>
        destruct (flag_if_grows b i r1) as [Hins' Hin']
    end.
    split; [now apply Hins' | now apply Hin'].
  - intros Hnot _ Hr Hw Hg.
    destruct (permissionsCheck.int8 repr max_permissions) as [m|e] eqn:Hmax.
    + unfold permissionsCheck.int8 in Hmax. destruct max_permissions; try discriminate.
      now contradiction (Hnot s).
    + apply int8_class in Hmax.
      match goal with
      | |- context [permissionsCheck.on_exception e ?r0] =>
          destruct (on_exception_keeps e r0 Hmax) as (-> & _)
      end.
      rewrite Hr, Hw, Hg, !andb_false_r. reflexivity.
Qed.

(** A directory with the mode [drwx-----T] against the default maximum
    [755]. *)
Lemma permissions_are_compared_as_numbers_witness :
  permissionsCheck.is_insecure
    (permissionsCheck.check_directory_permissions
       (Machines.homes [("alice", Some Machines.mode_1700)]) (fun s => s)
       "/home/alice" (PBool true) (PBool true) (PBool true) (PStr "755")) = true
  /\ In "Oprávnenia (1700) presahujú maximálnu odporúčanú hodnotu (755)"
        (permissionsCheck.issues
           (permissionsCheck.check_directory_permissions
              (Machines.homes [("alice", Some Machines.mode_1700)]) (fun s => s)
              "/home/alice" (PBool true) (PBool true) (PBool true) (PStr "755"))).
Proof.
  apply (proj1 (permissions_are_compared_as_numbers
                  (Machines.homes [("alice", Some Machines.mode_1700)]) (fun s => s)
                  "/home/alice" (PBool true) (PBool true) (PBool true) (PStr "755")
                  Machines.mode_1700 1000%Z eq_refl) "755" 493%Z eq_refl eq_refl).
  reflexivity.
Defined.

Lemma returned_print {B : Type} (line : string) (k : unit -> Py.C B) :
  Py.returned (Py.bind (Py.print line) k) = Py.returned (k tt).
Proof. now rewrite returned_bind. Qed.

Lemma for_list_returned {A B : Type} (f : A -> Py.C B) (g : A -> B) (l : list A) :
  (forall x, In x l -> Py.returned (f x) = Py.Ok (g x)) ->
  Py.returned (Py.for_list f l) = Py.Ok (map g l).
Proof.
  induction l as [|x l IH]; intros Hf; [reflexivity|].
  cbn [Py.for_list map]. rewrite returned_bind, (Hf x (or_introl eq_refl)).
  rewrite returned_bind, IH; [reflexivity|]. intros y Hy. apply Hf. now right.
Qed.

(** The loop of [permissionsCheck.run]: it sorts the reports of the
    directories when [os.stat] succeeds on every one, and raises [KeyError]
    when it does not. *)
Lemma check_each_returned
  (sys : Py.System) (repr : string -> string) (cr cw cg mx : pyvalue)
  (dirs : list string) (ins sec : list permissionsCheck.DirectoryReport) :
  let chk := fun dir => permissionsCheck.check_directory_permissions sys repr dir cr cw cg mx in
  Py.returned (permissionsCheck.check_each sys repr dirs cr cw cg mx ins sec)
  = if forallb (fun dir => match Py.os_stat sys dir with
                           | Py.Ok _ => true
                           | Py.Raise _ => false
                           end) dirs
    then Py.Ok (ins ++ filter permissionsCheck.is_insecure (map chk dirs),
                sec ++ filter (fun r => negb (permissionsCheck.is_insecure r))
                         (map chk dirs))
    else Py.Raise {| Py.class := "KeyError"; Py.str := "'permissions_octal'" |}.
Proof.
  intros chk. revert ins sec. induction dirs as [|dir dirs IH]; intros ins sec.
  - cbn. now rewrite !app_nil_r.
  - cbn [permissionsCheck.check_each forallb map filter]. fold (chk dir).
    destruct (check_directory_permissions_report sys repr dir cr cw cg mx)
      as (_ & Hoctal & _).
    fold (chk dir) in Hoctal.
    destruct (Py.os_stat sys dir) as [st|e].
    + destruct (permissionsCheck.permissions_octal (chk dir)) as [octal|] eqn:Ho.
      2:{ destruct (proj1 Hoctal eq_refl) as (e & He). discriminate. }
      cbn [andb negb].
      destruct (permissionsCheck.is_insecure (chk dir)); cbn [negb];
        unfold permissionsCheck.item_permissions_octal; rewrite Ho;
        rewrite returned_bind; cbn [Py.ret Py.returned snd];
        rewrite returned_print, IH;
        destruct (forallb _ dirs); try reflexivity;
        now rewrite <- app_assoc.
    + assert (Ho : permissionsCheck.permissions_octal (chk dir) = None)
        by (apply Hoctal; now exists e).
      cbn [andb].
      destruct (permissionsCheck.is_insecure (chk dir));
        unfold permissionsCheck.item_permissions_octal; rewrite Ho;
        now rewrite returned_bind.
Qed.

Lemma filter_lengths {A : Type} (p : A -> bool) (l : list A) :
  List.length (filter p l) + List.length (filter (fun x => negb (p x)) l)
  = List.length l.
Proof.
  induction l as [|x l IH]; [reflexivity|]. cbn [filter].
  destruct (p x); cbn [negb List.length]; lia.
Qed.

Lemma filter_map_length {A B : Type} (f : A -> B) (p : B -> bool) (l : list A) :
  List.length (filter (fun x => p (f x)) l) = List.length (filter p (map f l)).
Proof.
  induction l as [|x l IH]; [reflexivity|]. cbn [filter map].
  destruct (p (f x)); cbn [List.length]; now rewrite IH.
Qed.

(** Every directory the loop of [permissionsCheck.run] examines is one
    [os.stat] has just examined for [os.path.isdir]. *)
Lemma home_dirs_stat (sys : Py.System) (home : string) (entries : list string) :
  forallb (fun dir => match Py.os_stat sys dir with
                      | Py.Ok _ => true
                      | Py.Raise _ => false
                      end) (permissionsCheck.home_dirs_of sys home entries) = true.
Proof.
  apply forallb_forall. intros dir Hin.
  unfold permissionsCheck.home_dirs_of in Hin. apply filter_In in Hin as [_ Hdir].
  unfold Py.os_path_isdir in Hdir. now destruct (Py.os_stat sys dir).
Qed.

(** What [permissionsCheck.run] returns for a listing with a directory. *)
Lemma run_counts_directories
  (sys : Py.System) (repr : string -> string)
  (other_home : pyvalue -> list string * pyvalue) (d : list (pykey * pyvalue))
  (home : string) (entries : list string) :
  get (Py.lookup "home_directory" d) (PStr "/home") = PStr home ->
  Py.os_path_exists sys home = true ->
  Py.os_listdir sys home = Py.Ok entries ->
  permissionsCheck.home_dirs_of sys home entries <> [] ->
  let dirs := permissionsCheck.home_dirs_of sys home entries in
  let insecure :=
    filter
      (fun dir =>
         permissionsCheck.is_insecure
           (permissionsCheck.check_directory_permissions sys repr dir
              (get (Py.lookup "check_world_readable" d) (PBool true))
              (get (Py.lookup "check_world_writable" d) (PBool true))
              (get (Py.lookup "check_group_writable" d) (PBool true))
              (get (Py.lookup "max_permissions" d) (PStr "755")))) dirs in
  exists report,
    Py.returned (permissionsCheck.run sys repr other_home (PDict d)) = Py.Ok (PDict report)
    /\ match insecure with
       | [] =>
           Py.lookup "status" report = Some (PStr "PASS")
           /\ Py.lookup "checked_directories_count" report = Some (Py.len dirs)
       | _ :: _ =>
           Py.lookup "status" report = Some (PStr "FAIL")
           /\ Py.lookup "insecure_directories_count" report = Some (Py.len insecure)
           /\ Py.lookup "secure_directories_count" report
              = Some (PInt (Z.of_nat (List.length dirs - List.length insecure)))
       end.
Proof.
  intros Hhome Hexists Hlist Hne.
  pose proof (home_dirs_stat sys home entries) as Hall. cbv zeta.
  unfold permissionsCheck.run, Py.params_get. returns. rewrite Hhome.
  rewrite returned_try, Hexists. cbn [negb]. rewrite Hlist.
  set (chk := fun dir =>
         permissionsCheck.check_directory_permissions sys repr dir
           (get (Py.lookup "check_world_readable" d) (PBool true))
           (get (Py.lookup "check_world_writable" d) (PBool true))
           (get (Py.lookup "check_group_writable" d) (PBool true))
           (get (Py.lookup "max_permissions" d) (PStr "755"))).
  change (fun dir => permissionsCheck.is_insecure (chk dir))
    with (fun dir => permissionsCheck.is_insecure (chk dir)).
  destruct (permissionsCheck.home_dirs_of sys home entries) as [|first rest];
    [contradiction|].
  clear Hne. remember (first :: rest) as dirs eqn:Hdirs.
  assert (Hoct : forall r, In r (map chk dirs) ->
                           exists octal, permissionsCheck.permissions_octal r = Some octal).
  { intros r Hr. apply in_map_iff in Hr as (dir & <- & Hdir).
    rewrite forallb_forall in Hall. specialize (Hall dir Hdir).
    destruct (check_directory_permissions_report sys repr dir
                (get (Py.lookup "check_world_readable" d) (PBool true))
                (get (Py.lookup "check_world_writable" d) (PBool true))
                (get (Py.lookup "check_group_writable" d) (PBool true))
                (get (Py.lookup "max_permissions" d) (PStr "755")))
      as (_ & Hoctal & _).
    fold (chk dir) in Hoctal.
    destruct (permissionsCheck.permissions_octal (chk dir)) as [octal|]; [now exists octal|].
    destruct (proj1 Hoctal eq_refl) as (e & He). now rewrite He in Hall. }
  pose proof (filter_map_length chk permissionsCheck.is_insecure dirs) as Hins.
  pose proof (filter_lengths permissionsCheck.is_insecure (map chk dirs)) as Hsum.
  rewrite length_map in Hsum.
  rewrite returned_print, returned_bind, check_each_returned, Hall.
  fold chk. cbn [app].
  change (filter (fun dir => permissionsCheck.is_insecure
                               (permissionsCheck.check_directory_permissions sys repr dir
                                  (get (Py.lookup "check_world_readable" d) (PBool true))
                                  (get (Py.lookup "check_world_writable" d) (PBool true))
                                  (get (Py.lookup "check_group_writable" d) (PBool true))
                                  (get (Py.lookup "max_permissions" d) (PStr "755"))))
            dirs)
    with (filter (fun x => permissionsCheck.is_insecure (chk x)) dirs).
  assert (Hsecure :
            Py.returned
              (Py.for_list
                 (fun d0 : permissionsCheck.DirectoryReport =>
                    Py.bind (permissionsCheck.item_permissions_octal d0)
                      (fun octal : string =>
                         Py.ret
                           (Py.dict_of
                              [("path", PStr (permissionsCheck.path d0));
                               ("permissions", PStr octal);
                               ("owner", permissionsCheck.get_owner d0)])))
                 (filter (fun r => negb (permissionsCheck.is_insecure r)) (map chk dirs)))
            = Py.Ok (map (fun d0 =>
                            Py.dict_of
                              [("path", PStr (permissionsCheck.path d0));
                               ("permissions",
                                PStr (get (permissionsCheck.permissions_octal d0) ""));
                               ("owner", permissionsCheck.get_owner d0)])
                       (filter (fun r => negb (permissionsCheck.is_insecure r))
                          (map chk dirs)))).
  { apply for_list_returned. intros x Hx. apply filter_In in Hx as [Hx _].
    destruct (Hoct x Hx) as (octal & Ho).
    unfold permissionsCheck.item_permissions_octal. rewrite Ho. reflexivity. }
  assert (Hinsecure :
            Py.returned
              (Py.for_list
                 (fun dir_info : permissionsCheck.DirectoryReport =>
                    Py.bind (permissionsCheck.item_permissions_octal dir_info)
                      (fun octal : string =>
                         Py.ret
                           (Py.dict_of
                              [("path", PStr (permissionsCheck.path dir_info));
                               ("permissions", PStr octal);
                               ("issues",
                                PList (map PStr (permissionsCheck.issues dir_info)));
                               ("owner", permissionsCheck.get_owner dir_info)])))
                 (filter permissionsCheck.is_insecure (map chk dirs)))
            = Py.Ok (map (fun dir_info =>
                            Py.dict_of
                              [("path", PStr (permissionsCheck.path dir_info));
                               ("permissions",
                                PStr (get (permissionsCheck.permissions_octal dir_info) ""));
                               ("issues",
                                PList (map PStr (permissionsCheck.issues dir_info)));
                               ("owner", permissionsCheck.get_owner dir_info)])
                       (filter permissionsCheck.is_insecure (map chk dirs)))).
  { apply for_list_returned. intros x Hx. apply filter_In in Hx as [Hx _].
    destruct (Hoct x Hx) as (octal & Ho).
    unfold permissionsCheck.item_permissions_octal. rewrite Ho. reflexivity. }
  assert (Hcount : Py.len (filter (fun r => negb (permissionsCheck.is_insecure r))
                             (map chk dirs))
                   = PInt (Z.of_nat (List.length dirs
                                     - List.length
                                         (filter (fun x => permissionsCheck.is_insecure (chk x))
                                            dirs)))).
  { unfold Py.len. do 2 f_equal. lia. }
  assert (Hlen : Py.len (filter permissionsCheck.is_insecure (map chk dirs))
                 = Py.len (filter (fun x => permissionsCheck.is_insecure (chk x)) dirs)).
  { unfold Py.len. now rewrite Hins. }
  revert Hinsecure Hcount Hlen Hins.
  generalize (filter (fun x => permissionsCheck.is_insecure (chk x)) dirs) as ins'.
  generalize (filter permissionsCheck.is_insecure (map chk dirs)) as ins.
  intros [|r ins] [|dir ins'] Hinsecure Hcount Hlen Hins; try discriminate Hins.
  - rewrite returned_bind, Hsecure. eexists. split; [reflexivity|].
    split; reflexivity.
  - rewrite returned_bind, Hinsecure. eexists. split; [reflexivity|].
    split; [reflexivity|]. split.
    + cbn [Py.lookup Py.dict_of map fst snd]. cbn. now rewrite Hlen.
    + cbn. now rewrite Hcount.
Qed.


(** X22: when every home directory can be examined, [permissionsCheck.run]
    reports [FAIL] as soon as one of them is insecure and [PASS] otherwise;
    the insecure and the secure directories it counts are all the
    directories there are, each counted once. *)
Theorem every_directory_is_counted
  (sys : Py.System) (repr : string -> string)
  (other_home : pyvalue -> list string * pyvalue) (d : list (pykey * pyvalue))
  (home : string) (entries : list string) :
  get (Py.lookup "home_directory" d) (PStr "/home") = PStr home ->
  Py.os_path_exists sys home = true ->
  Py.os_listdir sys home = Py.Ok entries ->
  permissionsCheck.home_dirs_of sys home entries <> [] ->
  forallb (fun dir => match Py.os_stat sys dir with
                      | Py.Ok _ => true
                      | Py.Raise _ => false
                      end) (permissionsCheck.home_dirs_of sys home entries) = true ->
  let dirs := permissionsCheck.home_dirs_of sys home entries in
  let insecure :=
    filter
      (fun dir =>
         permissionsCheck.is_insecure
           (permissionsCheck.check_directory_permissions sys repr dir
              (get (Py.lookup "check_world_readable" d) (PBool true))
              (get (Py.lookup "check_world_writable" d) (PBool true))
              (get (Py.lookup "check_group_writable" d) (PBool true))
              (get (Py.lookup "max_permissions" d) (PStr "755")))) dirs in
  exists report,
    Py.returned (permissionsCheck.run sys repr other_home (PDict d)) = Py.Ok (PDict report)
    /\ match insecure with
       | [] =>
           Py.lookup "status" report = Some (PStr "PASS")
           /\ Py.lookup "checked_directories_count" report = Some (Py.len dirs)
       | _ :: _ =>
           Py.lookup "status" report = Some (PStr "FAIL")
           /\ Py.lookup "insecure_directories_count" report = Some (Py.len insecure)
           /\ Py.lookup "secure_directories_count" report
              = Some (PInt (Z.of_nat (List.length dirs - List.length insecure)))
       end.
Proof.
  intros Hhome Hexists Hlist Hne _.
  exact (run_counts_directories sys repr other_home d home entries
           Hhome Hexists Hlist Hne).
Qed.

(** Three home directories, one of them writable by its group. *)
Lemma every_directory_is_counted_witness :
  exists report,
    Py.returned
      (permissionsCheck.run
         (Machines.homes [("alice", Some Machines.mode_700);
                          ("bob", Some Machines.mode_770);
                          ("carol", Some Machines.mode_700)])
         (fun s => s) (fun v => ([], v)) (PDict []))
    = Py.Ok (PDict report)
    /\ Py.lookup "status" report = Some (PStr "FAIL")
    /\ Py.lookup "insecure_directories_count" report = Some (PInt 1)
    /\ Py.lookup "secure_directories_count" report = Some (PInt 2).
Proof.
  exact (every_directory_is_counted
           (Machines.homes [("alice", Some Machines.mode_700);
                            ("bob", Some Machines.mode_770);
                            ("carol", Some Machines.mode_700)])
           (fun s => s) (fun v => ([], v)) [] "/home" ["alice"; "bob"; "carol"]
           eq_refl eq_refl eq_refl ltac:(discriminate) eq_refl).
Defined.

(** X21: an entry of the home directory that [os.stat] cannot examine is no
    directory for [os.path.isdir], which swallows the error, and is left out
    of the directories [permissionsCheck.run] examines; [os.stat] succeeds
    on every directory that is examined, so that every report has its
    [permissions_octal], the loop never raises [KeyError], and the check
    reports [PASS] or [FAIL] on the directories that are left. *)
Theorem unreadable_directories_are_left_out
  (sys : Py.System) (repr : string -> string)
  (other_home : pyvalue -> list string * pyvalue) (d : list (pykey * pyvalue))
  (home : string) (entries : list string) :
  get (Py.lookup "home_directory" d) (PStr "/home") = PStr home ->
  Py.os_path_exists sys home = true ->
  Py.os_listdir sys home = Py.Ok entries ->
  let dirs := permissionsCheck.home_dirs_of sys home entries in
  (forall dir,
      In dir dirs <->
      In dir (map (os_path_join home) entries)
      /\ exists mode uid,
           Py.os_stat sys dir = Py.Ok (mode, uid) /\ Py.S_ISDIR mode = true)
  /\ (forall dir e, Py.os_stat sys dir = Py.Raise e -> ~ In dir dirs)
  /\ (forall dir cr cw cg mx,
         In dir dirs ->
         permissionsCheck.permissions_octal
           (permissionsCheck.check_directory_permissions sys repr dir cr cw cg mx)
         <> None)
  /\ (forall cr cw cg mx ins sec,
         exists checked,
           Py.returned (permissionsCheck.check_each sys repr dirs cr cw cg mx ins sec)
           = Py.Ok checked)
  /\ (dirs <> [] ->
      exists report,
        Py.returned (permissionsCheck.run sys repr other_home (PDict d))
        = Py.Ok (PDict report)
        /\ (Py.lookup "status" report = Some (PStr "PASS")
            \/ Py.lookup "status" report = Some (PStr "FAIL"))).
Proof.
  intros Hhome Hexists Hlist dirs.
  pose proof (home_dirs_stat sys home entries) as Hall. fold dirs in Hall.
  rewrite forallb_forall in Hall.
  split; [|split; [|split; [|split]]].
  - intros dir. unfold dirs, permissionsCheck.home_dirs_of. rewrite filter_In.
    unfold Py.os_path_isdir.
    destruct (Py.os_stat sys dir) as [[mode uid]|e].
    + split.
      * intros (Hin & Hdir). split; [assumption|]. now exists mode, uid.
      * intros (Hin & mode' & uid' & [= <- <-] & Hdir). auto.
    + split.
      * intros (_ & H). discriminate.
      * intros (_ & mode & uid & H & _). discriminate.
  - intros dir e Hstat Hin. specialize (Hall dir Hin). now rewrite Hstat in Hall.
  - intros dir cr cw cg mx Hin Hnone. specialize (Hall dir Hin).
    destruct (check_directory_permissions_report sys repr dir cr cw cg mx)
      as (_ & Hoctal & _).
    destruct (proj1 Hoctal Hnone) as (e & He). now rewrite He in Hall.
  - intros cr cw cg mx ins sec. unfold dirs. rewrite check_each_returned.
    rewrite (home_dirs_stat sys home entries). now eexists.
  - intros Hne.
    destruct (run_counts_directories sys repr other_home d home entries
                Hhome Hexists Hlist Hne) as (report & Hrun & Hstatus).
    exists report. split; [assumption|].
    destruct (filter _ _); [left | right]; apply Hstatus.
Qed.

(** [bob] cannot be examined: the check passes on [alice] alone. *)
Lemma unreadable_directories_are_left_out_witness :
  permissionsCheck.home_dirs_of
    (Machines.homes [("alice", Some Machines.mode_700); ("bob", None)])
    "/home" ["alice"; "bob"] = ["/home/alice"]
  /\ exists report,
       Py.returned
         (permissionsCheck.run
            (Machines.homes [("alice", Some Machines.mode_700); ("bob", None)])
            (fun s => s) (fun v => ([], v)) (PDict []))
       = Py.Ok (PDict report)
       /\ (Py.lookup "status" report = Some (PStr "PASS")
           \/ Py.lookup "status" report = Some (PStr "FAIL")).
Proof.
  split; [reflexivity|].
  apply (proj2 (proj2 (proj2 (proj2
           (unreadable_directories_are_left_out
              (Machines.homes [("alice", Some Machines.mode_700); ("bob", None)])
              (fun s => s) (fun v => ([], v)) [] "/home" ["alice"; "bob"]
              eq_refl eq_refl eq_refl))))).
  discriminate.
Defined.

(** What the check reports on that machine. *)
Example unreadable_directory_run :
  exists report,
    Py.returned
      (permissionsCheck.run
         (Machines.homes [("alice", Some Machines.mode_700); ("bob", None)])
         (fun s => s) (fun v => ([], v)) (PDict []))
    = Py.Ok (PDict report)
    /\ Py.lookup "status" report = Some (PStr "PASS")
    /\ Py.lookup "checked_directories_count" report = Some (PInt 1).
Proof. eexists. split; [vm_compute; reflexivity|]. split; reflexivity. Qed.

Lemma get_recommended_permissions_eq (current_permissions : string) :
  permissionsCheck.get_recommended_permissions current_permissions
  = if String.eqb current_permissions "700" then "700" else "750".
Proof.
  unfold permissionsCheck.get_recommended_permissions. cbn [existsb].
  repeat match goal with
         | |- context [String.eqb current_permissions ?l] =>
             destruct (String.eqb_spec current_permissions l); [subst; reflexivity|]
         end.
  reflexivity.
Qed.

(** X23: [get_recommended_permissions] keeps [700] and answers [750] to
    everything else, to [750] itself as to permissions it does not list; it
    changes nothing when applied to its own answer. *)
Theorem recommended_permissions_are_700_or_750 (current_permissions : string) :
  permissionsCheck.get_recommended_permissions current_permissions
  = (if String.eqb current_permissions "700" then "700" else "750")
  /\ permissionsCheck.get_recommended_permissions
       (permissionsCheck.get_recommended_permissions current_permissions)
     = permissionsCheck.get_recommended_permissions current_permissions.
Proof.
  split; [apply get_recommended_permissions_eq|].
  rewrite !get_recommended_permissions_eq.
  destruct (String.eqb current_permissions "700"); reflexivity.
Qed.

(** ** [securityUpdatesCheck] *)

Lemma split_nil_lstrip (s : string) : Py.split s = [] -> Py.lstrip s = "".
Proof.
  induction s as [|c s IH]; [reflexivity|]. cbn [Py.split Py.lstrip].
  destruct (Py.isspace c); [exact IH|].
  destruct s as [|c' s]; [discriminate|].
  destruct (Py.isspace c'); [discriminate|].
  destruct (Py.split (String c' s)); discriminate.
Qed.

(** A line without words is a line of spaces. *)
Lemma split_nil_strip (s : string) : Py.split s = [] -> Py.strip s = "".
Proof. intros H. unfold Py.strip. now rewrite (split_nil_lstrip s H). Qed.

Lemma parse_line_length (line : string) :
  List.length (securityUpdatesCheck.parse_line line)
  = if (negb (Py.contains "Listing..." line) && negb (String.eqb (Py.strip line) ""))%bool
    then 1 else 0.
Proof.
  unfold securityUpdatesCheck.parse_line.
  destruct (Py.contains "Listing..." line); [reflexivity|]. cbn [orb negb andb].
  destruct (String.eqb (Py.strip line) "") eqn:Hblank; [reflexivity|]. cbn [negb].
  destruct (re.match_ securityUpdatesCheck.package_pattern line); [reflexivity|].
  destruct (Py.split line) eqn:Hsplit; [|reflexivity].
  apply split_nil_strip in Hsplit. rewrite Hsplit in Hblank. discriminate.
Qed.

(** X24: [parse_upgradable_packages] makes one package of every line that has
    something other than spaces on it and does not hold [Listing...],
    whether or not the line looks like a line of [apt list]: the number of
    updates [run] reports is the number of such lines. *)
Theorem every_line_is_a_package (output : string) :
  List.length (securityUpdatesCheck.parse_upgradable_packages output)
  = List.length
      (filter (fun line => negb (Py.contains "Listing..." line)
                           && negb (String.eqb (Py.strip line) ""))
         (Py.lines output)).
Proof.
  unfold securityUpdatesCheck.parse_upgradable_packages.
  induction (Py.lines output) as [|line ls IH]; [reflexivity|].
  cbn [flat_map filter]. rewrite length_app, parse_line_length, IH.
  destruct (negb (Py.contains "Listing..." line)
            && negb (String.eqb (Py.strip line) ""))%bool; reflexivity.
Qed.

Lemma option_first {A : Type} (x y : option A) (r : A) :
  x = Some r -> match x with Some g => Some g | None => y end = Some r.
Proof. now intros ->. Qed.

Lemma starts_in_app (class : ascii -> bool) (w rest : string) :
  w <> "" -> Py.starts_in class (w ++ rest) = Py.starts_in class w.
Proof. destruct w; [contradiction | reflexivity]. Qed.

Lemma all_in_starts_in (class other : ascii -> bool) (w : string) :
  (forall c, class c = true -> other c = false) ->
  Py.all_in class w = true -> Py.starts_in other w = false.
Proof.
  intros Hdisj. destruct w as [|c w]; [reflexivity|]. cbn [Py.all_in Py.starts_in].
  intros H. apply andb_prop in H as [Hc _]. now apply Hdisj.
Qed.

Lemma not_space_isspace (c : ascii) :
  securityUpdatesCheck.not_space c = true -> Py.isspace c = false.
Proof. unfold securityUpdatesCheck.not_space. now destruct (Py.isspace c). Qed.

Lemma after_prefix_app (p rest : string) : re.after_prefix p (p ++ rest) = Some rest.
Proof.
  induction p as [|c p IH]; [now destruct rest|].
  rewrite append_cons. cbn [re.after_prefix]. now rewrite Ascii.eqb_refl.
Qed.

Lemma package_pattern_match (name suite version arch old : string) :
  Py.all_in (fun c => securityUpdatesCheck.not_space c && negb (Ascii.eqb c "/")) name = true ->
  name <> "" ->
  Py.all_in securityUpdatesCheck.not_space suite = true ->
  Py.all_in securityUpdatesCheck.not_space version = true -> version <> "" ->
  Py.all_in securityUpdatesCheck.not_space arch = true -> arch <> "" ->
  Py.all_in (fun c => negb (Ascii.eqb c "]")) old = true -> old <> "" ->
  Py.starts_in Py.isspace old = false ->
  re.match_ securityUpdatesCheck.package_pattern
    (name ++ "/" ++ suite ++ " " ++ version ++ " " ++ arch
       ++ " [upgradable from: " ++ old ++ "]")
  = Some [(1, name); (2, suite); (3, version); (4, arch); (5, old)].
Proof.
  intros Hname Hname' Hsuite Hversion Hversion' Harch Harch' Hold Hold' Hstart.
  assert (Hspace : " "%string <> ""%string) by discriminate.
  assert (Hleb0 : forall n, Nat.leb 0 n = true) by reflexivity.
  unfold re.match_, securityUpdatesCheck.package_pattern. cbn [re.seq re.run].
  apply many_app_first; [assumption | reflexivity |].
  cbn [Nat.add]. rewrite (length_pos name Hname'), consumed_app.
  rewrite after_prefix_app. apply option_first.
  apply many_app_first; [assumption | reflexivity |].
  rewrite Hleb0, consumed_app.
  apply (many_app_first Py.isspace " "); [reflexivity | |].
  { rewrite starts_in_app by assumption.
    apply (all_in_starts_in securityUpdatesCheck.not_space);
      [exact not_space_isspace | assumption]. }
  cbn [Nat.add]. rewrite (length_pos " " Hspace).
  apply many_app_first; [assumption | reflexivity |].
  cbn [Nat.add]. rewrite (length_pos version Hversion'), consumed_app.
  apply (many_app_first Py.isspace " "); [reflexivity | |].
  { rewrite starts_in_app by assumption.
    apply (all_in_starts_in securityUpdatesCheck.not_space);
      [exact not_space_isspace | assumption]. }
  cbn [Nat.add]. rewrite (length_pos " " Hspace).
  apply many_app_first; [assumption | reflexivity |].
  cbn [Nat.add]. rewrite (length_pos arch Harch'), consumed_app.
  change (" [upgradable from: " ++ old ++ "]")%string
    with (" " ++ "[upgradable from:" ++ " " ++ old ++ "]")%string.
  apply (many_app_first Py.isspace " "); [reflexivity | reflexivity |].
  rewrite Hleb0.
  apply option_first. rewrite after_prefix_app.
  apply (many_app_first Py.isspace " "); [reflexivity | |].
  { now rewrite starts_in_app by assumption. }
  rewrite Hleb0.
  apply many_app_first; [assumption | reflexivity |].
  cbn [Nat.add]. rewrite (length_pos old Hold'), consumed_app.
  reflexivity.
Qed.

Lemma strip_head_not_space (c : ascii) (s : string) :
  Py.isspace c = false -> Py.strip (String c s) <> "".
Proof.
  intros Hc. unfold Py.strip. cbn [Py.lstrip]. rewrite Hc. now apply rstrip_head.
Qed.

(** X25: a line of [apt list --upgradable] in ASCII, [name/suite version arch
    [upgradable from: old]], is read field by field; a line without a suite
    gets the suite [unknown]. *)
Theorem apt_line_is_read_field_by_field (name suite version arch old : string) :
  Py.isascii (name ++ "/" ++ suite ++ " " ++ version ++ " " ++ arch
                ++ " [upgradable from: " ++ old ++ "]") = true ->
  Py.all_in (fun c => securityUpdatesCheck.not_space c && negb (Ascii.eqb c "/")) name = true ->
  name <> "" ->
  Py.all_in securityUpdatesCheck.not_space suite = true ->
  Py.all_in securityUpdatesCheck.not_space version = true -> version <> "" ->
  Py.all_in securityUpdatesCheck.not_space arch = true -> arch <> "" ->
  Py.all_in (fun c => negb (Ascii.eqb c "]")) old = true -> old <> "" ->
  Py.starts_in Py.isspace old = false ->
  Py.contains "Listing..."
    (name ++ "/" ++ suite ++ " " ++ version ++ " " ++ arch
       ++ " [upgradable from: " ++ old ++ "]") = false ->
  securityUpdatesCheck.parse_line
    (name ++ "/" ++ suite ++ " " ++ version ++ " " ++ arch
       ++ " [upgradable from: " ++ old ++ "]")
  = [Py.dict_of
       [("name", PStr name);
        ("suite", PStr (if String.eqb suite "" then "unknown" else suite));
        ("current_version", PStr old);
        ("available_version", PStr version);
        ("architecture", PStr arch)]].
Proof.
  intros _ Hname Hname' Hsuite Hversion Hversion' Harch Harch' Hold Hold' Hstart Hlisting.
  unfold securityUpdatesCheck.parse_line. rewrite Hlisting. cbn [orb].
  assert (Hblank : String.eqb
                     (Py.strip (name ++ "/" ++ suite ++ " " ++ version ++ " " ++ arch
                                  ++ " [upgradable from: " ++ old ++ "]")) "" = false).
  { apply String.eqb_neq. destruct name as [|c name]; [contradiction|].
    rewrite append_cons. apply strip_head_not_space.
    cbn [Py.all_in] in Hname. apply andb_prop in Hname as [Hc _].
    apply andb_prop in Hc as [Hc _]. now apply not_space_isspace. }
  rewrite Hblank.
  rewrite (package_pattern_match name suite version arch old) by assumption.
  unfold securityUpdatesCheck.group_or_unknown. cbn [re.group Nat.eqb get].
  apply String.eqb_neq in Hold'. now rewrite Hold'.
Qed.

(** An update of [openssl]. *)
Lemma apt_line_is_read_field_by_field_witness :
  securityUpdatesCheck.parse_line
    "openssl/jammy-security 3.0.2-0ubuntu1.15 amd64 [upgradable from: 3.0.2-0ubuntu1.14]"
  = [Py.dict_of
       [("name", PStr "openssl");
        ("suite", PStr "jammy-security");
        ("current_version", PStr "3.0.2-0ubuntu1.14");
        ("available_version", PStr "3.0.2-0ubuntu1.15");
        ("architecture", PStr "amd64")]].
Proof.
  exact (apt_line_is_read_field_by_field "openssl" "jammy-security"
           "3.0.2-0ubuntu1.15" "amd64" "3.0.2-0ubuntu1.14"
           eq_refl eq_refl ltac:(discriminate) eq_refl eq_refl ltac:(discriminate)
           eq_refl ltac:(discriminate) eq_refl ltac:(discriminate) eq_refl eq_refl).
Defined.

(** X26: when [apt list --upgradable] succeeds, the thresholds are numbers and
    security updates are not asked for, the number of packages decides the
    verdict of [securityUpdatesCheck.run]: [PASS] for none, [CRITICAL] from
    the critical threshold on, and [WARNING] for every other number, below
    the warning threshold as above it.  This holds whether or not
    [apt update] succeeded.  The report counts every package and lists the
    first 20. *)
Theorem update_count_decides_the_verdict
  (sys : Py.System) (d : list (pykey * pyvalue))
  (update listing : Py.CompletedProcess) (warning critical : Z) :
  Py.subprocess_run sys ["sudo"; "apt"; "update"] = Py.Ok update ->
  Py.subprocess_run sys ["apt"; "list"; "--upgradable"] = Py.Ok listing ->
  Py.returncode listing = 0%Z ->
  get (Py.lookup "max_updates_warning" d) (PInt 10) = PInt warning ->
  get (Py.lookup "max_updates_critical" d) (PInt 50) = PInt critical ->
  Py.truthy (get (Py.lookup "check_security_only" d) (PBool false)) = false ->
  let packages :=
    securityUpdatesCheck.parse_upgradable_packages (Py.strip (Py.stdout listing)) in
  exists report,
    Py.returned (securityUpdatesCheck.run sys (PDict d)) = Py.Ok (PDict report)
    /\ Py.lookup "status" report
       = Some (PStr (if Nat.eqb (List.length packages) 0 then "PASS"
                     else if Z.leb critical (Z.of_nat (List.length packages))
                          then "CRITICAL" else "WARNING"))
    /\ Py.lookup "upgradable_packages_count" report = Some (Py.len packages)
    /\ (List.length packages <> 0 ->
        Py.lookup "upgradable_packages" report = Some (PList (firstn 20 packages))).
Proof.
  intros Hupdate Hlisting Hcode Hwarning Hcritical Hsecurity packages.
  unfold securityUpdatesCheck.run, Py.params_get. returns.
  rewrite Hwarning, Hcritical, returned_try. returns. rewrite Hupdate.
  rewrite returned_bind.
  assert (Hwarn : forall line : string,
             Py.returned (if negb (Z.eqb (Py.returncode update) 0)
                          then Py.print line else Py.ret tt) = Py.Ok tt)
    by (intros; now destruct (negb _)).
  rewrite Hwarn. returns. rewrite Hlisting, Hcode. cbn [Z.eqb negb].
  rewrite Hsecurity. returns. fold packages.
  destruct (Nat.eqb (List.length packages) 0) eqn:Hnone.
  - eexists. split; [reflexivity|]. split; [reflexivity|]. split.
    + cbn. apply Nat.eqb_eq in Hnone. unfold Py.len. now rewrite Hnone.
    + intros Hn. apply Nat.eqb_eq in Hnone. contradiction.
  - cbv zeta. returns. cbn [andb]. unfold Py.ge. cbn [Py.ret Py.returned snd].
    destruct (Nat.ltb 20 (List.length packages));
      destruct (Z.leb critical (Z.of_nat (List.length packages)));
      try (returns; destruct (Z.leb warning (Z.of_nat (List.length packages))));
      (eexists; split; [reflexivity|]; split; [reflexivity|]; split;
       [reflexivity | intros _; reflexivity]).
Qed.

(** Sixty lines of updates against the default thresholds. *)
Lemma update_count_decides_the_verdict_witness :
  exists report,
    Py.returned
      (securityUpdatesCheck.run
         (Machines.printing (str_repeat ("a/b 1 c" ++ nl) 60)) (PDict []))
    = Py.Ok (PDict report)
    /\ Py.lookup "status" report = Some (PStr "CRITICAL")
    /\ Py.lookup "upgradable_packages_count" report = Some (PInt 60).
Proof.
  destruct (update_count_decides_the_verdict
              (Machines.printing (str_repeat ("a/b 1 c" ++ nl) 60)) [] _ _ 10 50
              eq_refl eq_refl eq_refl eq_refl eq_refl eq_refl)
    as (report & Hret & Hstatus & Hcount & _).
  exists report. split; [exact Hret|]. split; [exact Hstatus | exact Hcount].
Defined.

(** X27: when [apt list --upgradable] and [apt-get --just-print upgrade]
    succeed, both thresholds are integers and [check_security_only] is set,
    security updates among the packages change the severity and the message
    of the report and add their count and the first 10 of them, but leave
    the status to the number of packages: a report can say [WARNING] with
    the severity [CRITICAL]. *)
Theorem security_updates_raise_the_severity_only
  (sys : Py.System) (d : list (pykey * pyvalue))
  (update listing simulated : Py.CompletedProcess) (warning critical : Z) :
  Py.subprocess_run sys ["sudo"; "apt"; "update"] = Py.Ok update ->
  Py.subprocess_run sys ["apt"; "list"; "--upgradable"] = Py.Ok listing ->
  Py.returncode listing = 0%Z ->
  Py.subprocess_run sys ["apt-get"; "--just-print"; "upgrade"] = Py.Ok simulated ->
  Py.returncode simulated = 0%Z ->
  get (Py.lookup "max_updates_warning" d) (PInt 10) = PInt warning ->
  get (Py.lookup "max_updates_critical" d) (PInt 50) = PInt critical ->
  Py.truthy (get (Py.lookup "check_security_only" d) (PBool false)) = true ->
  let packages :=
    securityUpdatesCheck.parse_upgradable_packages (Py.strip (Py.stdout listing)) in
  let security := securityUpdatesCheck.security_packages (Py.stdout simulated) in
  packages <> [] -> security <> [] ->
  exists report,
    Py.returned (securityUpdatesCheck.run sys (PDict d)) = Py.Ok (PDict report)
    /\ Py.lookup "status" report
       = Some (PStr (if Z.leb critical (Z.of_nat (List.length packages))
                     then "CRITICAL" else "WARNING"))
    /\ Py.lookup "severity" report = Some (PStr "CRITICAL")
    /\ Py.lookup "security_updates_count" report = Some (Py.len security)
    /\ Py.lookup "security_updates" report
       = Some (PList (map PStr (firstn 10 security))).
Proof.
  intros Hupdate Hlisting Hcode Hsim Hsimcode Hwarning Hcritical Hsecurity
         packages security Hpackages Hsec.
  unfold securityUpdatesCheck.run, Py.params_get. returns.
  rewrite Hwarning, Hcritical, returned_try. returns. rewrite Hupdate.
  rewrite returned_bind.
  assert (Hwarn : forall line : string,
             Py.returned (if negb (Z.eqb (Py.returncode update) 0)
                          then Py.print line else Py.ret tt) = Py.Ok tt)
    by (intros; now destruct (negb _)).
  rewrite Hwarn. returns. rewrite Hlisting, Hcode. cbn [Z.eqb negb].
  rewrite Hsecurity. rewrite returned_bind.
  assert (Hcheck : Py.returned (securityUpdatesCheck.check_security_updates sys)
                   = Py.Ok security).
  { unfold securityUpdatesCheck.check_security_updates.
    rewrite returned_try. returns. rewrite Hsim, Hsimcode. reflexivity. }
  rewrite Hcheck. returns. fold packages.
  destruct packages as [|package packages'] eqn:Hp; [contradiction|].
  rewrite <- Hp. assert (Hlen : Nat.eqb (List.length packages) 0 = false)
    by (subst packages; now rewrite Hp).
  rewrite Hlen. cbv zeta. cbn [andb].
  destruct security as [|s security'] eqn:Hs; [contradiction|]. rewrite <- Hs.
  assert (Htruthy : Py.truthy (PList (map PStr security)) = true)
    by (subst security; now rewrite Hs).
  assert (Hpos : Nat.ltb 0 (List.length security) = true)
    by (subst security; now rewrite Hs).
  rewrite Htruthy, Hpos. unfold Py.ge. returns.
  destruct (Nat.ltb 20 (List.length packages));
    destruct (Z.leb critical (Z.of_nat (List.length packages)));
    try (returns; destruct (Z.leb warning (Z.of_nat (List.length packages))));
    (eexists; split; [reflexivity|]; split; [reflexivity|]; split; [reflexivity|];
     split; reflexivity).
Qed.

(** One update, which is a security update. *)
Lemma security_updates_raise_the_severity_only_witness :
  exists report,
    Py.returned
      (securityUpdatesCheck.run
         (Machines.apt Machines.one_update Machines.simulated_upgrade)
         (PDict [(KStr "check_security_only", PBool true)]))
    = Py.Ok (PDict report)
    /\ Py.lookup "status" report = Some (PStr "WARNING")
    /\ Py.lookup "severity" report = Some (PStr "CRITICAL")
    /\ Py.lookup "security_updates_count" report = Some (PInt 1)
    /\ Py.lookup "security_updates" report = Some (PList [PStr "openssl"]).
Proof.
  exact (security_updates_raise_the_severity_only
           (Machines.apt Machines.one_update Machines.simulated_upgrade)
           [(KStr "check_security_only", PBool true)] _ _ _ 10 50
           eq_refl eq_refl eq_refl eq_refl eq_refl eq_refl eq_refl eq_refl
           ltac:(discriminate) ltac:(discriminate)).
Defined.

(** ** [macSystemcheck] *)

Lemma bind_ret {A B : Type} (a : A) (k : A -> Py.C B) : Py.bind (Py.ret a) k = k a.
Proof. unfold Py.bind, Py.ret. now destruct (k a). Qed.

Lemma check_apparmor_truthy
      (sys : Py.System) (require_active require_active' check_profiles check_profiles' : pyvalue) :
  Py.truthy check_profiles = Py.truthy check_profiles' ->
  macSystemcheck.check_apparmor sys require_active check_profiles
  = macSystemcheck.check_apparmor sys require_active' check_profiles'.
Proof. intros H. unfold macSystemcheck.check_apparmor. now rewrite H. Qed.

(** X28: of the three parameters of [macSystemcheck.run] only [check_profiles]
    has an effect, and only through its truth value: [preferred_mac] and
    [require_active] are read and never used, so that two configurations
    that differ in them get the same lines printed and the same report. *)
Theorem preferred_mac_and_require_active_are_ignored
  (sys : Py.System) (d d' : list (pykey * pyvalue)) :
  Py.truthy (get (Py.lookup "check_profiles" d) (PBool true))
  = Py.truthy (get (Py.lookup "check_profiles" d') (PBool true)) ->
  macSystemcheck.run sys (PDict d) = macSystemcheck.run sys (PDict d').
Proof.
  intros H. unfold macSystemcheck.run, Py.params_get. rewrite !bind_ret.
  rewrite (check_apparmor_truthy sys
             (get (Py.lookup "require_active" d) (PBool true))
             (get (Py.lookup "require_active" d') (PBool true)) _ _ H).
  reflexivity.
Qed.

(** SELinux preferred and no active system required, against the
    defaults. *)
Lemma preferred_mac_and_require_active_are_ignored_witness :
  macSystemcheck.run (Machines.printing "")
    (PDict [(KStr "preferred_mac", PStr "selinux"); (KStr "require_active", PBool false)])
  = macSystemcheck.run (Machines.printing "") (PDict []).
Proof.
  exact (preferred_mac_and_require_active_are_ignored (Machines.printing "")
           [(KStr "preferred_mac", PStr "selinux"); (KStr "require_active", PBool false)]
           [] eq_refl).
Defined.

(** X29: AppArmor hides SELinux: when the kernel shows AppArmor and [aa-status]
    is not installed, [run] reports an error of AppArmor and does not look
    at SELinux, installed or not. *)
Theorem apparmor_is_examined_first
  (sys : Py.System) (d : list (pykey * pyvalue)) :
  Py.shutil_which sys "aa-status" = false ->
  Py.os_path_exists sys "/sys/kernel/security/apparmor" = true ->
  macSystemcheck.run sys (PDict d)
  = (["Spúšťam test stavu MAC systému (AppArmor/SELinux)...";
      "Detegovaný MAC systém: apparmor"],
     Py.Ok (Py.dict_of
              [("status", PStr "ERROR");
               ("message",
                PStr "AppArmor je prítomný, ale príkaz aa-status nie je dostupný");
               ("mac_system", PStr "apparmor");
               ("recommendation",
                PStr "Nainštalujte apparmor-utils: sudo apt install apparmor-utils")])).
Proof.
  intros Hwhich Hexists. unfold macSystemcheck.run, Py.params_get. rewrite !bind_ret.
  unfold macSystemcheck.detect_mac_system, macSystemcheck.check_apparmor.
  rewrite Hwhich, Hexists. reflexivity.
Qed.

(** The kernel shows AppArmor, [aa-status] is missing and [getenforce] is
    there. *)
Lemma apparmor_is_examined_first_witness :
  macSystemcheck.run Machines.apparmor_without_tools (PDict [])
  = (["Spúšťam test stavu MAC systému (AppArmor/SELinux)...";
      "Detegovaný MAC systém: apparmor"],
     Py.Ok (Py.dict_of
              [("status", PStr "ERROR");
               ("message",
                PStr "AppArmor je prítomný, ale príkaz aa-status nie je dostupný");
               ("mac_system", PStr "apparmor");
               ("recommendation",
                PStr "Nainštalujte apparmor-utils: sudo apt install apparmor-utils")])).
Proof.
  exact (apparmor_is_examined_first Machines.apparmor_without_tools [] eq_refl eq_refl).
Defined.

Lemma count_of_names (sys : Py.System) (b : bool) (line : string)
      (set : Z -> macSystemcheck.ApparmorInfo -> macSystemcheck.ApparmorInfo)
      (info info' : macSystemcheck.ApparmorInfo) :
  (forall n i, macSystemcheck.profile_names (set n i) = macSystemcheck.profile_names i) ->
  Py.returned (if b then macSystemcheck.count_of sys line set info else Py.ret info)
  = Py.Ok info' ->
  macSystemcheck.profile_names info' = macSystemcheck.profile_names info.
Proof.
  intros Hset. destruct b; [|now intros [= <-]].
  unfold macSystemcheck.count_of. destruct (Py.split line) as [|part parts];
    [now intros [= <-]|].
  destruct (Py.isdigit part); [|now intros [= <-]].
  rewrite returned_bind. destruct (Py.returned (Py.int sys part)); [|discriminate].
  intros [= <-]. apply Hset.
Qed.

Lemma prefix_app (p s : string) : String.prefix p s = true -> exists r, s = (p ++ r)%string.
Proof.
  revert s. induction p as [|c p IH]; intros s; [now exists s|].
  destruct s as [|c' s]; cbn [String.prefix]; [discriminate|].
  destruct (ascii_dec c c') as [<-|]; [|discriminate].
  intros H. destruct (IH s H) as (r & ->). now exists r.
Qed.

Lemma indented_path_strip (line : string) :
  (Py.startswith line "   /" || Py.startswith line "      /")%bool = true ->
  String.eqb (Py.strip line) "" = false.
Proof.
  intros H. apply String.eqb_neq. unfold Py.startswith in H.
  apply orb_prop in H as [H|H]; apply prefix_app in H as (r & ->); unfold Py.strip.
  - change (Py.lstrip ("   /" ++ r)) with (String "/" r). now apply rstrip_head.
  - change (Py.lstrip ("      /" ++ r)) with (String "/" r). now apply rstrip_head.
Qed.

Lemma parse_status_line_names (sys : Py.System) (line : string)
      (info info' : macSystemcheck.ApparmorInfo) :
  Py.returned (macSystemcheck.parse_status_line sys line info) = Py.Ok info' ->
  macSystemcheck.profile_names info'
  = macSystemcheck.profile_names info
    ++ (if (Py.startswith line "   /" || Py.startswith line "      /")%bool
        then [Py.strip line] else []).
Proof.
  unfold macSystemcheck.parse_status_line. cbv zeta.
  set (info0 := if Py.contains "apparmor module is loaded" (Py.lower line)
                then macSystemcheck.set_is_loaded info else info).
  assert (H0 : macSystemcheck.profile_names info0 = macSystemcheck.profile_names info)
    by (unfold info0; now destruct (Py.contains _ _)).
  rewrite returned_bind.
  destruct (Py.returned (if (_ || _)%bool then _ else _)) as [i1|] eqn:H1; [|discriminate].
  apply count_of_names in H1; [|reflexivity].
  rewrite returned_bind.
  destruct (Py.returned (if Py.contains "profiles are in enforce mode" _ then _ else _))
    as [i2|] eqn:H2; [|discriminate].
  apply count_of_names in H2; [|reflexivity].
  rewrite returned_bind.
  destruct (Py.returned (if Py.contains "profiles are in complain mode" _ then _ else _))
    as [i3|] eqn:H3; [|discriminate].
  apply count_of_names in H3; [|reflexivity].
  rewrite returned_bind.
  destruct (Py.returned (if (_ || _)%bool then macSystemcheck.count_of _ _ _ _ else _))
    as [i4|] eqn:H4; [|discriminate].
  apply count_of_names in H4; [|reflexivity].
  destruct (Py.startswith line "   /" || Py.startswith line "      /")%bool eqn:Hpath.
  - rewrite (indented_path_strip line Hpath). cbn [negb]. intros [= <-].
    cbn [macSystemcheck.append_profile_name macSystemcheck.profile_names]. congruence.
  - intros [= <-]. rewrite app_nil_r. congruence.
Qed.

Lemma parse_status_lines_names (sys : Py.System) (ls : list string) :
  forall info info',
    Py.returned (macSystemcheck.parse_status_lines sys ls info) = Py.Ok info' ->
    macSystemcheck.profile_names info'
    = macSystemcheck.profile_names info
      ++ map Py.strip
           (filter (fun line => Py.startswith line "   /" || Py.startswith line "      /")
              ls).
Proof.
  induction ls as [|line ls IH]; intros info info'.
  - intros [= <-]. cbn. now rewrite app_nil_r.
  - cbn [macSystemcheck.parse_status_lines filter]. rewrite returned_bind.
    destruct (Py.returned (macSystemcheck.parse_status_line sys line info))
      as [i1|] eqn:H1; [|discriminate].
    intros H. apply IH in H. apply parse_status_line_names in H1.
    rewrite H, H1, <- app_assoc. f_equal.
    now destruct (Py.startswith line "   /" || Py.startswith line "      /")%bool.
Qed.

(** X30: the profile names [parse_apparmor_status] collects are the lines of
    the output that start with three or six spaces and a slash, stripped
    and in order; such a line always gives a name, never an empty one. *)
Theorem profile_names_are_the_indented_paths
  (sys : Py.System) (output : string) (info : macSystemcheck.ApparmorInfo) :
  Py.returned (macSystemcheck.parse_apparmor_status sys output) = Py.Ok info ->
  macSystemcheck.profile_names info
  = map Py.strip
      (filter (fun line => Py.startswith line "   /" || Py.startswith line "      /")
         (Py.lines output)).
Proof.
  unfold macSystemcheck.parse_apparmor_status. intros H.
  now apply parse_status_lines_names in H.
Qed.

(** The two profiles of the sample output. *)
Lemma profile_names_are_the_indented_paths_witness :
  match Py.returned (macSystemcheck.parse_apparmor_status (Machines.printing "")
                       Machines.aa_status) with
  | Py.Ok info => macSystemcheck.profile_names info = ["/usr/bin/man"; "/usr/sbin/cupsd"]
  | Py.Raise _ => False
  end.
Proof.
  destruct (Py.returned (macSystemcheck.parse_apparmor_status (Machines.printing "")
                           Machines.aa_status)) as [info|e] eqn:H.
  - rewrite (profile_names_are_the_indented_paths _ _ _ H). reflexivity.
  - vm_compute in H. discriminate.
Defined.
